(** * Time tracking: triggers, row-level security and aggregates

    A shallow embedding of the time-tracking part of [setup-all.sql]
    (table [time_entries], its row-level-security policies, its three
    BEFORE triggers and the reporting functions) together with the
    browser code that drives it ([project-time-tracker.tsx],
    [timer-widget.tsx]).

    Conventions.
    - A table is the list of its rows, in heap order.
    - [TIMESTAMP WITH TIME ZONE] is a number of microseconds, [DATE] a
      number of days, [UUID] a natural number.
    - A nullable column is an [option]; SQL conditions on nullable
      booleans go through [IS_TRUE] (a row is kept only when the
      condition is true, NULL counts as not true).
    - [DECIMAL] values are rationals.  Sums and products of them are
      exact; a quotient is rounded to the number of decimals that
      PostgreSQL gives it, at least sixteen significant digits
      ([numeric_div]).  [INTEGER] is checked for its range where a
      value is cast to it; the [BIGINT] of a [SUM] is taken unbounded.
    - A failing statement is rolled back as a whole: it yields [Err] and
      the caller keeps the table it had. *)

From Stdlib Require Import ZArith QArith Qabs Qround Qcanon Qfield Lqa Lia.
From Stdlib Require Import Bool List Ascii String DecimalString.
From Stdlib Require Import Orders Mergesort Sorted Permutation.
Import ListNotations.
Local Open Scope Z_scope.

(** ** Values *)

Definition uuid := N.
Bind Scope N_scope with uuid.
Definition timestamptz := Z.
Definition date := Z.

(** Error codes a statement on [time_entries] can end with. *)
Inductive sqlstate :=
| numeric_value_out_of_range   (* 22003: integer out of range *)
| unique_violation             (* 23505: duplicate primary key *)
| insufficient_privilege       (* 42501: new row violates row-level security *)
| foreign_key_violation        (* 23503: no such project or task *)
| statement_too_complex.       (* 54001: stack depth limit exceeded *)

Inductive result (A : Type) :=
| Ok (a : A)
| Err (e : sqlstate).
Arguments Ok {A} a.
Arguments Err {A} e.

Definition bind {A B} (c : result A) (k : A -> result B) : result B :=
  match c with
  | Ok a => k a
  | Err e => Err e
  end.

Notation "x <- c ;; k" := (bind c (fun x => k))
  (at level 61, c at next level, right associativity).
Notation "' pat <- c ;; k" := (bind c (fun x => match x with pat => k end))
  (at level 61, pat pattern, c at next level, right associativity).

Definition IS_TRUE (b : option bool) : bool :=
  match b with
  | Some true => true
  | _ => false
  end.

(** [COALESCE]: the first argument that is not NULL. *)
Fixpoint COALESCE {A} (xs : list (option A)) : option A :=
  match xs with
  | [] => None
  | Some x :: _ => Some x
  | None :: rest => COALESCE rest
  end.

(** [SUM] over the rows of a query: NULL inputs are skipped and the sum
    of no input at all is NULL. *)
Fixpoint SUM_Z (xs : list (option Z)) : option Z :=
  match xs with
  | [] => None
  | None :: rest => SUM_Z rest
  | Some x :: rest =>
      match SUM_Z rest with
      | None => Some x
      | Some s => Some (x + s)
      end
  end.

Fixpoint SUM_Q (xs : list (option Q)) : option Q :=
  match xs with
  | [] => None
  | None :: rest => SUM_Q rest
  | Some x :: rest =>
      match SUM_Q rest with
      | None => Some x
      | Some s => Some (x + s)%Q
      end
  end.

(** Rounding to the nearest integer, halves away from zero: what
    PostgreSQL does when it casts a [numeric] to [INTEGER] and in
    [ROUND]. *)
Definition round_half_away (n d : Z) : Z :=
  if 0 <=? n then (2 * n + d) / (2 * d)
  else - ((2 * (- n) + d) / (2 * d)).

Definition Qround_half_away (q : Q) : Z :=
  round_half_away (Qnum q) (Zpos (Qden q)).

(** [ROUND(q, 2)] *)
Definition ROUND2 (q : Q) : Q := Qround_half_away (q * 100)%Q # 100.

(** ** Division of decimals

    [x::DECIMAL / y] for two integers is PostgreSQL's division of
    [numeric] values.  The server keeps a [numeric] as digits in base
    [NBASE]; the weight of a value is the position of its first digit
    that is not zero.  From the weights and the first digits of the
    two operands it estimates the weight of the quotient and chooses
    the number of decimals of the result so that the result has at
    least [NUMERIC_MIN_SIG_DIGITS] significant digits, and no fewer
    decimals than an operand shows (an integer shows none).  The
    quotient is rounded to that many decimals, halves away from zero. *)
Definition NBASE : Z := 10000.
Definition DEC_DIGITS : Z := 4.
Definition NUMERIC_MIN_SIG_DIGITS : Z := 16.
Definition NUMERIC_MAX_DISPLAY_SCALE : Z := 1000.

Fixpoint leading_digit (fuel : nat) (a weight : Z) : Z * Z :=
  match fuel with
  | O => (weight, a)
  | S fuel' =>
      if a <? NBASE then (weight, a)
      else leading_digit fuel' (a / NBASE) (weight + 1)
  end.

(** The weight and the first digit of an integer; both are zero for
    zero.  A number has no more digits in base [NBASE] than bits. *)
Definition weight_and_first_digit (var : Z) : Z * Z :=
  leading_digit (Z.to_nat (Z.log2 (Z.abs var))) (Z.abs var) 0.

Definition select_div_scale (var1 var2 : Z) : Z :=
  let '(weight1, firstdigit1) := weight_and_first_digit var1 in
  let '(weight2, firstdigit2) := weight_and_first_digit var2 in
  let qweight :=
    if firstdigit1 <=? firstdigit2 then weight1 - weight2 - 1 else weight1 - weight2 in
  let rscale := NUMERIC_MIN_SIG_DIGITS - qweight * DEC_DIGITS in
  Z.min (Z.max rscale 0) NUMERIC_MAX_DISPLAY_SCALE.

(** [q] rounded to [scale] decimals. *)
Definition round_at (scale : Z) (q : Q) : Q :=
  Qround_half_away (q * inject_Z (10 ^ scale)) # Z.to_pos (10 ^ scale).

Definition numeric_div (var1 var2 : Z) : Q :=
  round_at (select_div_scale var1 var2) (inject_Z var1 / inject_Z var2).

Definition int4_in_range (z : Z) : bool :=
  (-2147483648 <=? z) && (z <=? 2147483647).

(** [EXTRACT(EPOCH FROM iv)::INTEGER] for an interval of [iv]
    microseconds: the seconds rounded to the nearest integer, an error
    when that does not fit [INTEGER]. *)
Definition whole_seconds (iv : Z) : Z := round_half_away iv 1000000.

Definition EXTRACT_EPOCH_INTEGER (iv : Z) : result Z :=
  if int4_in_range (whole_seconds iv) then Ok (whole_seconds iv)
  else Err numeric_value_out_of_range.

(** [DATE(ts)], session time zone UTC. *)
Definition DATE (ts : timestamptz) : date := ts / 86400000000.

(** ** Tables

    Columns that no policy, trigger or time-tracking function reads are
    left out of [projects], [project_assignments] and [tasks]. *)

Module projects.
Record row := mk {
  id : uuid;
  user_id : uuid;
  name : string;
  hourly_rate : option Q
}.
End projects.

Module project_assignments.
Record row := mk {
  project_id : uuid;
  user_id : uuid
}.
End project_assignments.

Module tasks.
Record row := mk {
  id : uuid;
  title : string
}.
End tasks.

Inductive time_entry_type := manual | timer.

Module time_entries.
Record row := mk {
  id : uuid;
  user_id : uuid;
  project_id : uuid;
  milestone_id : option uuid;
  task_id : option uuid;
  entry_type : time_entry_type;
  start_time : timestamptz;
  end_time : option timestamptz;
  duration_seconds : option Z;
  description : option string;
  billable : option bool;
  hourly_rate : option Q;
  is_running : option bool;
  created_at : option timestamptz;
  updated_at : option timestamptz
}.

Definition set_end_time (v : option timestamptz) (r : row) : row :=
  mk (id r) (user_id r) (project_id r) (milestone_id r) (task_id r)
     (entry_type r) (start_time r) v (duration_seconds r)
     (description r) (billable r) (hourly_rate r) (is_running r)
     (created_at r) (updated_at r).

Definition set_duration_seconds (v : option Z) (r : row) : row :=
  mk (id r) (user_id r) (project_id r) (milestone_id r) (task_id r)
     (entry_type r) (start_time r) (end_time r) v
     (description r) (billable r) (hourly_rate r) (is_running r)
     (created_at r) (updated_at r).

Definition set_is_running (v : option bool) (r : row) : row :=
  mk (id r) (user_id r) (project_id r) (milestone_id r) (task_id r)
     (entry_type r) (start_time r) (end_time r) (duration_seconds r)
     (description r) (billable r) (hourly_rate r) v
     (created_at r) (updated_at r).

Definition set_updated_at (v : option timestamptz) (r : row) : row :=
  mk (id r) (user_id r) (project_id r) (milestone_id r) (task_id r)
     (entry_type r) (start_time r) (end_time r) (duration_seconds r)
     (description r) (billable r) (hourly_rate r) (is_running r)
     (created_at r) v.
End time_entries.

Abbreviation time_entry := time_entries.row.
Abbreviation table := (list time_entries.row).

(** The session: the service role bypasses row-level security, an
    authenticated user is subject to it and [auth.uid()] is its id. *)
Inductive role :=
| service_role
| authenticated (uid : uuid).

(** The rows [get_time_entries_with_details] returns. *)
Module time_entry_details.
Record row := mk {
  id : uuid;
  user_id : uuid;
  project_id : uuid;
  project_name : string;
  task_id : option uuid;
  task_title : option string;
  entry_type : time_entry_type;
  start_time : timestamptz;
  end_time : option timestamptz;
  duration_seconds : option Z;
  duration_hours : option Q;
  description : option string;
  billable : option bool;
  hourly_rate : option Q;
  amount : option Q;
  is_running : option bool;
  created_at : option timestamptz
}.
End time_entry_details.

(** The rows [get_running_timer] returns. *)
Module running_timer.
Record row := mk {
  id : uuid;
  project_id : uuid;
  project_name : string;
  task_id : option uuid;
  task_title : option string;
  start_time : timestamptz;
  elapsed_seconds : Z;
  description : option string
}.
End running_timer.

(** [ORDER BY start_time DESC] *)
Module StartTimeDesc <: TotalLeBool.
Definition t := time_entry_details.row.
Definition leb (a b : t) : bool :=
  time_entry_details.start_time b <=? time_entry_details.start_time a.
Lemma leb_total : forall a b, leb a b = true \/ leb b a = true.
Proof. intros a b; unfold leb; lia. Qed.
End StartTimeDesc.

Module OrderByStartTimeDesc := Sort StartTimeDesc.

(** NULL-propagating operators. *)
Definition lift1 {A B} (f : A -> B) (x : option A) : option B :=
  match x with
  | Some a => Some (f a)
  | None => None
  end.

Definition lift2 {A B C} (f : A -> B -> C) (x : option A) (y : option B) : option C :=
  match x, y with
  | Some a, Some b => Some (f a b)
  | _, _ => None
  end.

Definition is_not_null {A} (x : option A) : bool :=
  match x with
  | Some _ => true
  | None => false
  end.

(** [d::DECIMAL / 3600] *)
Definition seconds_to_hours (d : option Z) : option Q :=
  lift2 numeric_div d (Some 3600).

(** ** Row-level security

    Row-level security is enabled on every table.  The expressions
    below are the policies' [USING] / [WITH CHECK] expressions with
    [auth.uid()] bound to [uid]; a subquery inside a policy sees the
    other table through that table's own policies. *)

Section Database.

Variable projects_tbl : list projects.row.
Variable project_assignments_tbl : list project_assignments.row.
Variable tasks_tbl : list tasks.row.

(** [project_assignments] has row-level security enabled and no policy:
    an authenticated session reads no row of it. *)
Definition rls_project_assignments (r : role) : list project_assignments.row :=
  match r with
  | service_role => project_assignments_tbl
  | authenticated _ => []
  end.

(** "Users can view their own or assigned projects" *)
Definition policy_projects_select (uid : uuid) (p : projects.row) : bool :=
  (projects.user_id p =? uid)%N
  || existsb (fun pa => (projects.id p =? project_assignments.project_id pa)%N)
       (filter (fun pa => (project_assignments.user_id pa =? uid)%N)
          (rls_project_assignments (authenticated uid))).

Definition rls_projects (r : role) : list projects.row :=
  match r with
  | service_role => projects_tbl
  | authenticated uid => filter (policy_projects_select uid) projects_tbl
  end.

(** "Users can view time entries for accessible projects" *)
Definition policy_time_entries_select (uid : uuid) (te : time_entry) : bool :=
  (uid =? time_entries.user_id te)%N
  || existsb (fun p => (projects.id p =? time_entries.project_id te)%N
                       && (projects.user_id p =? uid)%N)
       (rls_projects (authenticated uid)).

(** "Users can insert own time entries" *)
Definition policy_time_entries_insert (uid : uuid) (te : time_entry) : bool :=
  (uid =? time_entries.user_id te)%N.

(** "Users can update own time entries": no [WITH CHECK] is given, so
    the [USING] expression also checks the new row. *)
Definition policy_time_entries_update (uid : uuid) (te : time_entry) : bool :=
  (uid =? time_entries.user_id te)%N.

(** "Users can delete own time entries" *)
Definition policy_time_entries_delete (uid : uuid) (te : time_entry) : bool :=
  (uid =? time_entries.user_id te)%N.

Definition rls (policy : uuid -> time_entry -> bool) (r : role) (te : time_entry) : bool :=
  match r with
  | service_role => true
  | authenticated uid => policy uid te
  end.

(** ** Triggers on [time_entries] *)

(** [calculate_duration()] *)
Definition calculate_duration (NEW : time_entry) : result time_entry :=
  match time_entries.end_time NEW with
  | Some end_time =>
      (* start_time is NOT NULL *)
      d <- EXTRACT_EPOCH_INTEGER (end_time - time_entries.start_time NEW) ;;
      Ok (time_entries.set_is_running (Some false)
            (time_entries.set_duration_seconds (Some d) NEW))
  | None => Ok NEW
  end.

(** [ensure_single_running_timer()].  Its [UPDATE time_entries ...] is
    a statement of its own, run by [exec_update] (the [SET] list, then
    the [WHERE] condition); the trigger returns [NEW] as it got it. *)
Definition ensure_single_running_timer
    (exec_update : (time_entry -> time_entry) -> (time_entry -> bool) -> table -> result table)
    (now : timestamptz) (NEW : time_entry) (tbl : table) : result table :=
  if IS_TRUE (time_entries.is_running NEW) then
    exec_update
      (fun x => time_entries.set_end_time (Some now)
                  (time_entries.set_is_running (Some false) x))
      (fun x => (time_entries.user_id x =? time_entries.user_id NEW)%N
                && IS_TRUE (time_entries.is_running x)
                && negb (time_entries.id x =? time_entries.id NEW)%N)
      tbl
  else Ok tbl.

(** [update_updated_at()] *)
Definition update_updated_at (now : timestamptz) (NEW : time_entry) : time_entry :=
  time_entries.set_updated_at (Some now) NEW.

(** BEFORE row triggers fire in the order of their names:
    [trigger_calculate_duration], [trigger_ensure_single_running_timer]
    and, on UPDATE only, [update_time_entries_updated_at]. *)
Definition before_insert_triggers exec_update (now : timestamptz)
    (NEW : time_entry) (tbl : table) : result (table * time_entry) :=
  NEW <- calculate_duration NEW ;;
  tbl <- ensure_single_running_timer exec_update now NEW tbl ;;
  Ok (tbl, NEW).

Definition before_update_triggers exec_update (now : timestamptz)
    (NEW : time_entry) (tbl : table) : result (table * time_entry) :=
  NEW <- calculate_duration NEW ;;
  tbl <- ensure_single_running_timer exec_update now NEW tbl ;;
  Ok (tbl, update_updated_at now NEW).

(** ** Statements *)

Definition for_each_row (op : time_entry -> table -> result table)
  : list time_entry -> table -> result table :=
  fix go rows tbl :=
    match rows with
    | [] => Ok tbl
    | r :: rest => tbl <- op r tbl ;; go rest tbl
    end.

(** The new version of a row takes the place of the row with its
    primary key. *)
Definition replace_row (NEW : time_entry) (tbl : table) : table :=
  map (fun x => if (time_entries.id x =? time_entries.id NEW)%N then NEW else x) tbl.

(** The foreign keys of [time_entries] into the tables at hand:
    [project_id REFERENCES projects(id)], [task_id REFERENCES
    tasks(id)].  ([user_id] refers to the users of the authentication
    service and [milestone_id] to the milestones, which are not part of
    this development.)  An update checks them when it changes them. *)
Definition references_hold (NEW : time_entry) : bool :=
  existsb (fun p => (projects.id p =? time_entries.project_id NEW)%N) projects_tbl
  && match time_entries.task_id NEW with
     | Some task_id => existsb (fun t => (tasks.id t =? task_id)%N) tasks_tbl
     | None => true
     end.

Definition references_kept (OLD NEW : time_entry) : bool :=
  (time_entries.project_id OLD =? time_entries.project_id NEW)%N
  && match time_entries.task_id OLD, time_entries.task_id NEW with
     | Some a, Some b => (a =? b)%N
     | None, None => true
     | _, _ => false
     end.

(** [UPDATE time_entries SET set WHERE where_], the primary key not
    being assigned.  The rows to update are those of the table as the
    statement finds it that satisfy [where_] and that the session may
    read and update.  For each of them the BEFORE UPDATE triggers run
    on the new row, the new row is checked against the update policy
    and the foreign keys, and written.  [depth] bounds the nesting of
    statements run from triggers, as the server's stack depth limit
    does. *)
Fixpoint UPDATE (depth : nat) (now : timestamptz) (r : role)
    (set : time_entry -> time_entry) (where_ : time_entry -> bool)
    (tbl : table) : result table :=
  match depth with
  | O => Err statement_too_complex
  | S depth' =>
      for_each_row
        (fun OLD tbl =>
           '(tbl, NEW) <- before_update_triggers (UPDATE depth' now r) now (set OLD) tbl ;;
           if rls policy_time_entries_update r NEW then
             if references_kept OLD NEW || references_hold NEW
             then Ok (replace_row NEW tbl)
             else Err foreign_key_violation
           else Err insufficient_privilege)
        (filter (fun x => where_ x
                          && rls policy_time_entries_select r x
                          && rls policy_time_entries_update r x) tbl)
        tbl
  end.

(** [INSERT INTO time_entries VALUES (NEW)], [NEW] holding the column
    defaults where the statement gave no value. *)
Definition INSERT (depth : nat) (now : timestamptz) (r : role)
    (NEW : time_entry) (tbl : table) : result table :=
  match depth with
  | O => Err statement_too_complex
  | S depth' =>
      '(tbl, NEW) <- before_insert_triggers (UPDATE depth' now r) now NEW tbl ;;
      if rls policy_time_entries_insert r NEW then
        if references_hold NEW then
          if existsb (fun x => (time_entries.id x =? time_entries.id NEW)%N) tbl
          then Err unique_violation
          else Ok (tbl ++ [NEW])
        else Err foreign_key_violation
      else Err insufficient_privilege
  end.

(** [DELETE FROM time_entries WHERE where_]: no trigger fires; rows the
    session may not read or delete are passed over in silence. *)
Definition DELETE (r : role) (where_ : time_entry -> bool) (tbl : table) : result table :=
  Ok (filter (fun x => negb (where_ x
                             && rls policy_time_entries_select r x
                             && rls policy_time_entries_delete r x)) tbl).

(** Nesting the server is configured to accept; the triggers of this
    schema never nest deeper than two statements. *)
Definition max_stack_depth : nat := 64.

(** ** Reporting functions *)

(** [auth.uid()]: the service role carries no user. *)
Definition auth_uid (r : role) : option uuid :=
  match r with
  | service_role => None
  | authenticated uid => Some uid
  end.

(** A function that is not SECURITY DEFINER reads [time_entries]
    through the caller's select policy. *)
Definition rls_time_entries (r : role) (tbl : table) : table :=
  filter (rls policy_time_entries_select r) tbl.

(** [get_project_total_hours(p_project_id)] *)
Definition get_project_total_hours (r : role) (tbl : table) (p_project_id : uuid) : option Q :=
  let v_total_seconds :=
    COALESCE
      [SUM_Z (map time_entries.duration_seconds
                (filter (fun te => (time_entries.project_id te =? p_project_id)%N
                                   && is_not_null (time_entries.duration_seconds te))
                   (rls_time_entries r tbl)));
       Some 0] in
  lift1 ROUND2 (seconds_to_hours v_total_seconds).

(** [get_project_billable_hours(p_project_id)] *)
Definition get_project_billable_hours (r : role) (tbl : table) (p_project_id : uuid) : option Q :=
  let v_total_seconds :=
    COALESCE
      [SUM_Z (map time_entries.duration_seconds
                (filter (fun te => (time_entries.project_id te =? p_project_id)%N
                                   && IS_TRUE (time_entries.billable te)
                                   && is_not_null (time_entries.duration_seconds te))
                   (rls_time_entries r tbl)));
       Some 0] in
  lift1 ROUND2 (seconds_to_hours v_total_seconds).

(** [SELECT hourly_rate INTO v_project_rate FROM projects WHERE id =
    p_project_id]: the first row found, NULL when there is none. *)
Definition select_project_rate (r : role) (p_project_id : uuid) : option Q :=
  match filter (fun p => (projects.id p =? p_project_id)%N) (rls_projects r) with
  | p :: _ => projects.hourly_rate p
  | [] => None
  end.

(** [get_project_billable_amount(p_project_id)] *)
Definition get_project_billable_amount (r : role) (tbl : table) (p_project_id : uuid) : option Q :=
  let v_project_rate := select_project_rate r p_project_id in
  let v_total_amount :=
    COALESCE
      [SUM_Q (map (fun te =>
                     lift2 Qmult (seconds_to_hours (time_entries.duration_seconds te))
                       (COALESCE [time_entries.hourly_rate te; v_project_rate; Some 0%Q]))
                (filter (fun te => (time_entries.project_id te =? p_project_id)%N
                                   && IS_TRUE (time_entries.billable te)
                                   && is_not_null (time_entries.duration_seconds te))
                   (rls_time_entries r tbl)));
       Some 0%Q] in
  lift1 ROUND2 v_total_amount.

(** [LEFT JOIN tasks t ON t.id = te.task_id] *)
Definition left_join_tasks (te : time_entry) : list (option tasks.row) :=
  match filter (fun t => match time_entries.task_id te with
                         | Some i => (tasks.id t =? i)%N
                         | None => false
                         end) tasks_tbl with
  | [] => [None]
  | ts => map Some ts
  end.

(** The select list of [get_time_entries_with_details]. *)
Definition details_row (te : time_entry) (p : projects.row) (t : option tasks.row)
  : time_entry_details.row :=
  time_entry_details.mk
    (time_entries.id te)
    (time_entries.user_id te)
    (time_entries.project_id te)
    (projects.name p)
    (time_entries.task_id te)
    (lift1 tasks.title t)
    (time_entries.entry_type te)
    (time_entries.start_time te)
    (time_entries.end_time te)
    (time_entries.duration_seconds te)
    (lift1 ROUND2 (seconds_to_hours (time_entries.duration_seconds te)))
    (time_entries.description te)
    (time_entries.billable te)
    (time_entries.hourly_rate te)
    (lift1 ROUND2
       (lift2 Qmult (seconds_to_hours (time_entries.duration_seconds te))
          (COALESCE [time_entries.hourly_rate te; projects.hourly_rate p; Some 0%Q])))
    (time_entries.is_running te)
    (time_entries.created_at te).

(** [get_time_entries_with_details(p_project_id, p_start_date,
    p_end_date)].  The function is SECURITY DEFINER: it reads the tables
    past row-level security and filters on [auth.uid()] itself. *)
Definition get_time_entries_with_details (r : role) (tbl : table)
    (p_project_id : option uuid) (p_start_date p_end_date : option date)
  : list time_entry_details.row :=
  OrderByStartTimeDesc.sort
    (flat_map
       (fun te =>
          flat_map
            (fun p =>
               if (projects.id p =? time_entries.project_id te)%N then
                 flat_map
                   (fun t =>
                      if match p_project_id with
                         | None => true
                         | Some i => (time_entries.project_id te =? i)%N
                         end
                         && match p_start_date with
                            | None => true
                            | Some d => d <=? DATE (time_entries.start_time te)
                            end
                         && match p_end_date with
                            | None => true
                            | Some d => DATE (time_entries.start_time te) <=? d
                            end
                         && match auth_uid r with
                            | Some uid => (projects.user_id p =? uid)%N
                            | None => false
                            end
                      then [details_row te p t]
                      else [])
                   (left_join_tasks te)
               else [])
            projects_tbl)
       tbl).

(** ** Browser code *)

Inductive toast :=
| toast_success (message : string)
| toast_error (message : string).

(** What a handler leaves behind: the toast it showed, if any, and the
    table. *)
Definition outcome := (option toast * table)%type.

(** [startTimer] of [ProjectTimeTracker] and [handleStart] of
    [StartTimerDialog] issue the same insert.  [user] is the signed-in
    user, [clientNow] the browser's [new Date()] in milliseconds,
    [new_id] the [uuid_generate_v4()] default and [now] the server's
    [NOW()]. *)
Definition handleStart (user : option uuid) (projectId : uuid) (taskId : option uuid)
    (clientNow : Z) (new_id : uuid) (now : timestamptz) (tbl : table) : outcome :=
  match user with
  | None => (None, tbl)
  | Some user_id =>
      match
        INSERT max_stack_depth now (authenticated user_id)
          (time_entries.mk new_id user_id projectId None taskId timer
             (clientNow * 1000) None None None
             (Some true)            (* billable DEFAULT TRUE *)
             None (Some true)
             (Some now) (Some now)) (* created_at, updated_at DEFAULT NOW() *)
          tbl
      with
      | Ok tbl' => (Some (toast_success "Timer started"), tbl')
      | Err _ => (Some (toast_error "Failed to start timer"), tbl)
      end
  end.

Definition startTimer := handleStart.

(** [formatDuration].  [seconds] is a JavaScript number holding an
    integer: the widget starts from [elapsed_seconds], which is negative
    when the entry's [start_time], written by a browser, lies ahead of
    the server's clock, and adds one every second.  [Math.floor] of a
    quotient is the floor, [%] is the remainder with the sign of the
    dividend, and [toString] of a negative integer begins with a minus
    sign. *)
Definition padStart2 (s : string) : string :=
  if (String.length s <? 2)%nat then String.append "0" s else s.

Definition toString (n : Z) : string :=
  DecimalString.NilZero.string_of_int (Z.to_int n).

Definition formatDuration (seconds : Z) : string :=
  let hours := seconds / 3600 in
  let minutes := Z.rem seconds 3600 / 60 in
  let secs := Z.rem seconds 60 in
  String.append (padStart2 (toString hours))
    (String.append ":"
       (String.append (padStart2 (toString minutes))
          (String.append ":" (padStart2 (toString secs))))).

(** The update [stopTimer] sends: [{ end_time, is_running: false }]. *)
Definition stop_payload (end_time : timestamptz) (te : time_entry) : time_entry :=
  time_entries.set_is_running (Some false) (time_entries.set_end_time (Some end_time) te).

(** [stopTimer] of [TimerWidget]: [timer] is the id of the widget's
    timer, if it holds one, [elapsedSeconds] its counter. *)
Definition stopTimer (user : uuid) (timer : option uuid) (elapsedSeconds : Z)
    (clientNow : Z) (now : timestamptz) (tbl : table) : outcome :=
  match timer with
  | None => (None, tbl)
  | Some timer_id =>
      match
        UPDATE max_stack_depth now (authenticated user)
          (stop_payload (clientNow * 1000))
          (fun x => (time_entries.id x =? timer_id)%N) tbl
      with
      | Ok tbl' =>
          (Some (toast_success (String.append "Time tracked: " (formatDuration elapsedSeconds))), tbl')
      | Err _ => (Some (toast_error "Failed to stop timer"), tbl)
      end
  end.

(** [deleteEntry] of [ProjectTimeTracker] *)
Definition deleteEntry (user : uuid) (entryId : uuid) (tbl : table) : outcome :=
  match DELETE (authenticated user) (fun x => (time_entries.id x =? entryId)%N) tbl with
  | Ok tbl' => (Some (toast_success "Time entry deleted"), tbl')
  | Err _ => (Some (toast_error "Failed to delete entry"), tbl)
  end.

(** The manual-entry form.  [startDateTime] is the time, in
    milliseconds, that the form's date and start time denote, [None]
    when one of the two inputs is empty; [duration_hours] and
    [hourly_rate] are what [parseFloat] reads from the two number
    inputs, [None] standing for an empty input.  The arithmetic of
    [handleSubmit] on them is exact. *)
Record formData := mkFormData {
  fd_task_id : option uuid;
  fd_startDateTime : option Z;
  fd_duration_hours : option Q;
  fd_description : option string;
  fd_billable : bool;
  fd_hourly_rate : option Q
}.

(** A [Date] holds a whole number of milliseconds within 8.64e15 of the
    epoch; no other has an ISO string. *)
Definition toISOString (t : Q) : option Z :=
  let ms := Z.quot (Qnum t) (Zpos (Qden t)) in
  if (-8640000000000000 <=? ms) && (ms <=? 8640000000000000)
  then Some ms else None.

(** Storing into a [DECIMAL(10,2)] column. *)
Definition DECIMAL_10_2 (q : Q) : result Q :=
  let v := ROUND2 q in
  if Qle_bool (-99999999.99) v && Qle_bool v 99999999.99
  then Ok v else Err numeric_value_out_of_range.

(** [handleSubmit] of [AddManualEntryDialog].  Without a date or a
    start time [startDateTime] is an invalid [Date], whose
    [toISOString] throws. *)
Definition handleSubmit (user : option uuid) (projectId : uuid) (fd : formData)
    (new_id : uuid) (now : timestamptz) (tbl : table) : outcome :=
  match user with
  | None => (None, tbl)
  | Some user_id =>
      let failed := (Some (toast_error "Failed to add time entry"), tbl) in
      match fd_startDateTime fd with
      | None => failed
      | Some startDateTime =>
          match
            match fd_duration_hours fd with
            | Some durationHours =>
                toISOString (inject_Z startDateTime + durationHours * 60 * 60 * 1000)%Q
            | None => None
            end
          with
          | None => failed
          | Some endDateTime =>
              match
                hourly_rate <- match fd_hourly_rate fd with
                               | Some q => v <- DECIMAL_10_2 q ;; Ok (Some v)
                               | None => Ok None
                               end ;;
                INSERT max_stack_depth now (authenticated user_id)
                  (time_entries.mk new_id user_id projectId None (fd_task_id fd) manual
                     (startDateTime * 1000) (Some (endDateTime * 1000)) None
                     (fd_description fd) (Some (fd_billable fd)) hourly_rate
                     (Some false)           (* is_running DEFAULT FALSE *)
                     (Some now) (Some now))
                  tbl
              with
              | Ok tbl' => (Some (toast_success "Time entry added"), tbl')
              | Err _ => failed
              end
          end
      end
  end.

(** The inputs of the form and their constraints.  The browser runs
    [handleSubmit] only when every input of the form is valid.

    The date and the start time: [required]. *)
Definition date_and_time_inputs_valid (value : option Z) : bool :=
  is_not_null value.

(** The duration: [type="number" step="0.25" min="0.25" max="24"
    required].  The value must be present, lie between [min] and [max]
    and be [min] plus a whole number of steps. *)
Definition duration_input_valid (value : option Q) : bool :=
  match value with
  | None => false
  | Some v =>
      Qle_bool 0.25 v && Qle_bool v 24
      && (Zpos (Qden (Qred ((v - 0.25) / 0.25))) =? 1)
  end.

(** The hourly rate: [type="number" step="0.01" min="0"], not
    required.  An empty input is valid; a value must be at least [min]
    and be [min] plus a whole number of steps. *)
Definition hourly_rate_input_valid (value : option Q) : bool :=
  match value with
  | None => true
  | Some v =>
      Qle_bool 0 v
      && (Zpos (Qden (Qred ((v - 0) / 0.01))) =? 1)
  end.

(** The hourly-rate input is part of the form only while the entry is
    marked billable, [{formData.billable && ...}]; what was typed into
    it before stays in [formData]. *)
Definition form_valid (fd : formData) : bool :=
  date_and_time_inputs_valid (fd_startDateTime fd)
  && duration_input_valid (fd_duration_hours fd)
  && (if fd_billable fd then hourly_rate_input_valid (fd_hourly_rate fd) else true).

(** Submitting the form: [None] when the browser's constraint
    validation holds the form back, the outcome of [handleSubmit]
    otherwise. *)
Definition AddManualEntryDialog_submit (user : option uuid) (projectId : uuid)
    (fd : formData) (new_id : uuid) (now : timestamptz) (tbl : table) : option outcome :=
  if form_valid fd
  then Some (handleSubmit user projectId fd new_id now tbl)
  else None.

(** [fetchTimeSummary]: the three totals, [data || 0]. *)
Record ProjectTotals := mkProjectTotals {
  totalHours : Q;
  billableHours : Q;
  billableAmount : Q
}.

Definition or_zero (data : option Q) : Q :=
  match data with
  | Some q => q
  | None => 0%Q
  end.

Definition fetchTimeSummary (user : uuid) (projectId : uuid) (tbl : table) : ProjectTotals :=
  mkProjectTotals
    (or_zero (get_project_total_hours (authenticated user) tbl projectId))
    (or_zero (get_project_billable_hours (authenticated user) tbl projectId))
    (or_zero (get_project_billable_amount (authenticated user) tbl projectId)).

(** [fetchTimeEntries] *)
Definition fetchTimeEntries (user : uuid) (projectId : uuid) (tbl : table)
  : list time_entry_details.row :=
  get_time_entries_with_details (authenticated user) tbl (Some projectId) None None.

(** [TimeEntryItem] prints the amount under this condition. *)
Definition TimeEntryItem_shows_amount (entry : time_entry_details.row) : bool :=
  IS_TRUE (time_entry_details.billable entry)
  && match time_entry_details.hourly_rate entry with
     | Some q => negb (Qeq_bool q 0)
     | None => false
     end.

(** [get_running_timer(p_user_id)].  The function is SECURITY DEFINER
    and takes the user as an argument: it reads the tables past
    row-level security, whoever calls it.  [LIMIT 1] keeps the first
    row, and only that row's select list is computed. *)
Definition get_running_timer (now : timestamptz) (tbl : table) (p_user_id : uuid)
  : result (list running_timer.row) :=
  match
    flat_map
      (fun te =>
         flat_map
           (fun p =>
              if (projects.id p =? time_entries.project_id te)%N then
                flat_map
                  (fun t =>
                     if (time_entries.user_id te =? p_user_id)%N
                        && IS_TRUE (time_entries.is_running te)
                     then [(te, p, t)]
                     else [])
                  (left_join_tasks te)
              else [])
           projects_tbl)
      tbl
  with
  | [] => Ok []
  | (te, p, t) :: _ =>
      elapsed_seconds <- EXTRACT_EPOCH_INTEGER (now - time_entries.start_time te) ;;
      Ok [running_timer.mk
            (time_entries.id te)
            (time_entries.project_id te)
            (projects.name p)
            (time_entries.task_id te)
            (lift1 tasks.title t)
            (time_entries.start_time te)
            elapsed_seconds
            (time_entries.description te)]
  end.

(** [fetchTimeEntries] also keeps the first running entry of the list,
    [data?.find((e) => e.is_running)], and the page offers
    [StartTimerDialog] only while there is none. *)
Definition runningTimer (data : list time_entry_details.row)
  : option time_entry_details.row :=
  find (fun e => IS_TRUE (time_entry_details.is_running e)) data.

Definition StartTimerDialog_shown (data : list time_entry_details.row) : bool :=
  negb (is_not_null (runningTimer data)).

(** ** Histories of the table

    One step is one successful statement, by any session, at any time.
    The updates are those that select their row by primary key and
    leave the key alone, as every update of the browser code does.  A
    statement over several rows is left out: what it does depends on
    the order in which the server visits the rows, and the server
    refuses it once a trigger has updated a row that the statement has
    yet to visit. *)

Inductive step (tbl : table) : table -> Prop :=
| step_insert depth now r NEW tbl' :
    INSERT depth now r NEW tbl = Ok tbl' ->
    step tbl tbl'
| step_update depth now r set i tbl' :
    (forall x, time_entries.id (set x) = time_entries.id x) ->
    UPDATE depth now r set (fun x => (time_entries.id x =? i)%N) tbl = Ok tbl' ->
    step tbl tbl'
| step_delete r where_ tbl' :
    DELETE r where_ tbl = Ok tbl' ->
    step tbl tbl'.

Inductive reachable : table -> Prop :=
| reachable_empty : reachable []
| reachable_step tbl tbl' : reachable tbl -> step tbl tbl' -> reachable tbl'.

(** One successful statement of the session [r]. *)
Inductive step_by (r : role) (tbl : table) : table -> Prop :=
| step_by_insert depth now NEW tbl' :
    INSERT depth now r NEW tbl = Ok tbl' ->
    step_by r tbl tbl'
| step_by_update depth now set i tbl' :
    (forall x, time_entries.id (set x) = time_entries.id x) ->
    UPDATE depth now r set (fun x => (time_entries.id x =? i)%N) tbl = Ok tbl' ->
    step_by r tbl tbl'
| step_by_delete where_ tbl' :
    DELETE r where_ tbl = Ok tbl' ->
    step_by r tbl tbl'.

(** The running entries of a user. *)
Definition running_of (u : uuid) (te : time_entry) : bool :=
  (time_entries.user_id te =? u)%N && IS_TRUE (time_entries.is_running te).

(** The primary key. *)
Definition primary_key (tbl : table) : Prop :=
  NoDup (map time_entries.id tbl).

Definition lookup (i : uuid) (tbl : table) : option time_entry :=
  find (fun x => (time_entries.id x =? i)%N) tbl.

(** The [SET] list and the [WHERE] condition of the statement inside
    [ensure_single_running_timer], and the row that statement leaves:
    stopped at [now], its duration derived, its [updated_at] touched. *)
Definition force_stop_set (now : timestamptz) (x : time_entry) : time_entry :=
  time_entries.set_end_time (Some now) (time_entries.set_is_running (Some false) x).

Definition other_running (NEW x : time_entry) : bool :=
  (time_entries.user_id x =? time_entries.user_id NEW)%N
  && IS_TRUE (time_entries.is_running x)
  && negb (time_entries.id x =? time_entries.id NEW)%N.

Definition elapsed_fits (now : timestamptz) (x : time_entry) : bool :=
  int4_in_range (whole_seconds (now - time_entries.start_time x)).

Definition force_stopped (now : timestamptz) (x : time_entry) : time_entry :=
  update_updated_at now
    (time_entries.set_is_running (Some false)
       (time_entries.set_duration_seconds
          (Some (whole_seconds (now - time_entries.start_time x)))
          (force_stop_set now x))).

(** The rows a session's [UPDATE ... WHERE c] reaches. *)
Definition reached (r : role) (c : time_entry -> bool) (x : time_entry) : bool :=
  c x && rls policy_time_entries_select r x && rls policy_time_entries_update r x.

(** What the triggers of a row [NEW] do to another row [x]. *)
Definition stop_if (now : timestamptz) (r : role) (NEW x : time_entry) : time_entry :=
  if IS_TRUE (time_entries.is_running NEW) && reached r (other_running NEW) x
  then force_stopped now x else x.

(** ** Notions the properties are stated with *)

(** The last row of [rows] with a given key. *)
Fixpoint last_with_id (i : uuid) (rows : list time_entry) : option time_entry :=
  match rows with
  | [] => None
  | x :: rest =>
      match last_with_id i rest with
      | Some y => Some y
      | None => if (time_entries.id x =? i)%N then Some x else None
      end
  end.

(** Every row the triggers of [NEW] would stop has an elapsed time that
    fits [INTEGER]. *)
Definition stops_fit (now : timestamptz) (r : role) (NEW : time_entry) (tbl : table) : bool :=
  forallb (fun x => implb (IS_TRUE (time_entries.is_running NEW)
                           && reached r (other_running NEW) x)
                      (elapsed_fits now x)) tbl.

(** The one row an update by primary key works on. *)
Definition target (r : role) (i : uuid) (tbl : table) : option time_entry :=
  match lookup i tbl with
  | Some OLD =>
      if rls policy_time_entries_select r OLD && rls policy_time_entries_update r OLD
      then Some OLD else None
  | None => None
  end.

(** An ended entry is stopped and carries the duration its two times
    give. *)
Definition settled (x : time_entry) : Prop :=
  forall e, time_entries.end_time x = Some e ->
    time_entries.is_running x = Some false
    /\ time_entries.duration_seconds x
       = Some (whole_seconds (e - time_entries.start_time x)).

(** No two running entries of one user. *)
Definition single_running (tbl : table) : Prop :=
  forall x y, In x tbl -> In y tbl ->
    IS_TRUE (time_entries.is_running x) = true ->
    IS_TRUE (time_entries.is_running y) = true ->
    time_entries.user_id x = time_entries.user_id y ->
    time_entries.id x = time_entries.id y.

(** The specification's words for the aggregates: the effective rate is
    the entry's rate if present, else the project's, else zero; hours
    are seconds over 3600; a total is a plain sum. *)
Definition effective_rate (entry_rate project_rate : option Q) : Q :=
  match entry_rate with
  | Some rate => rate
  | None =>
      match project_rate with
      | Some rate => rate
      | None => 0%Q
      end
  end.

Definition sum_Q (xs : list Q) : Q := fold_right Qplus 0%Q xs.

Definition hours_of (te : time_entry) : Q :=
  match time_entries.duration_seconds te with
  | Some d => (inject_Z d / 3600)%Q
  | None => 0%Q
  end.

Definition has_duration (te : time_entry) : bool :=
  is_not_null (time_entries.duration_seconds te).

Definition is_billable (te : time_entry) : bool :=
  IS_TRUE (time_entries.billable te).

Definition sum_of_hours (entries : list time_entry) : Q :=
  sum_Q (map hours_of (filter has_duration entries)).

Definition sum_of_amounts (project_rate : option Q) (entries : list time_entry) : Q :=
  sum_Q (map (fun te => (hours_of te
                         * effective_rate (time_entries.hourly_rate te) project_rate)%Q)
           (filter (fun te => is_billable te && has_duration te) entries)).

(** The entries of a project that a user may read. *)
Definition readable_entries (user : uuid) (projectId : uuid) (tbl : table) : list time_entry :=
  filter (fun te => (time_entries.project_id te =? projectId)%N)
    (rls_time_entries (authenticated user) tbl).

(** The hours of an entry as the server computes them before it
    multiplies them with a rate: the seconds over 3600, rounded half
    away from zero to 20 decimals up to an hour, to 16 decimals below
    36,010,000 seconds, to 12 decimals below 360,100,000,000 seconds,
    and so on, four decimals fewer for every four digits more. *)
Definition decimal_places (d : Z) : Z :=
  if Z.abs d <=? 3600 then 20
  else if Z.abs d <? 3601 * 10 ^ 4 then 16
  else if Z.abs d <? 3601 * 10 ^ 8 then 12
  else if Z.abs d <? 3601 * 10 ^ 12 then 8
  else if Z.abs d <? 3601 * 10 ^ 16 then 4
  else 0.

Definition decimal_hours (d : Z) : Q :=
  round_at (decimal_places d) (inject_Z d / 3600).

Definition decimal_hours_of (te : time_entry) : Q :=
  match time_entries.duration_seconds te with
  | Some d => decimal_hours d
  | None => 0%Q
  end.

Definition sum_of_decimal_amounts (project_rate : option Q) (entries : list time_entry) : Q :=
  sum_Q (map (fun te => (decimal_hours_of te
                         * effective_rate (time_entries.hourly_rate te) project_rate)%Q)
           (filter (fun te => is_billable te && has_duration te) entries)).

(** The seconds of the entries that have a duration, and what fits
    the [BIGINT] variable that holds them. *)
Definition seconds_of (te : time_entry) : Z :=
  match time_entries.duration_seconds te with
  | Some d => d
  | None => 0
  end.

Definition total_seconds (entries : list time_entry) : Z :=
  fold_right Z.add 0 (map seconds_of (filter has_duration entries)).

Definition int8_in_range (z : Z) : bool :=
  (- 2 ^ 63 <=? z) && (z <=? 2 ^ 63 - 1).

(** The rates, without their signs, of the entries that enter the
    billable amount. *)
Definition sum_of_rates (project_rate : option Q) (entries : list time_entry) : Q :=
  sum_Q (map (fun te => Qabs (effective_rate (time_entries.hourly_rate te) project_rate))
           (filter (fun te => is_billable te && has_duration te) entries)).

(** The rows [get_running_timer] selects from, before [LIMIT 1]. *)
Definition running_rows (p_user_id : uuid) (tbl : table)
  : list (time_entry * projects.row * option tasks.row) :=
  flat_map
    (fun te =>
       flat_map
         (fun p =>
            if (projects.id p =? time_entries.project_id te)%N then
              flat_map
                (fun t =>
                   if (time_entries.user_id te =? p_user_id)%N
                      && IS_TRUE (time_entries.is_running te)
                   then [(te, p, t)]
                   else [])
                (left_join_tasks te)
            else [])
         projects_tbl)
    tbl.

(** Two decimal digits, as characters. *)
Definition digit (n : Z) : Ascii.ascii := Ascii.ascii_of_N (48 + Z.to_N n).

Definition two_digits (n : Z) : string :=
  String (digit (n / 10)) (String (digit (n mod 10)) EmptyString).

(** * Properties *)

(** ** Whole seconds *)

Lemma round_half_away_nearest n d :
  0 < d -> 2 * Z.abs (n - round_half_away n d * d) <= d.
Proof.
  intros Hd. unfold round_half_away.
  destruct (0 <=? n) eqn:Hn.
  - pose proof (Z.div_mod (2 * n + d) (2 * d) ltac:(lia)) as Hq.
    pose proof (Z.mod_pos_bound (2 * n + d) (2 * d) ltac:(lia)) as Hr.
    lia.
  - pose proof (Z.div_mod (2 * (- n) + d) (2 * d) ltac:(lia)) as Hq.
    pose proof (Z.mod_pos_bound (2 * (- n) + d) (2 * d) ltac:(lia)) as Hr.
    lia.
Qed.

Lemma round_half_away_exact k d :
  0 < d -> round_half_away (k * d) d = k.
Proof.
  intros Hd. unfold round_half_away.
  destruct (0 <=? k * d) eqn:Hk.
  - symmetry. apply (Z.div_unique_pos _ _ k d); lia.
  - assert (- ((2 * - (k * d) + d) / (2 * d)) = k); [|assumption].
    assert ((2 * - (k * d) + d) / (2 * d) = - k); [|lia].
    symmetry. apply (Z.div_unique_pos _ _ (- k) d); lia.
Qed.

Lemma whole_seconds_nearest iv :
  2 * Z.abs (iv - whole_seconds iv * 1000000) <= 1000000.
Proof. apply round_half_away_nearest. lia. Qed.

Lemma whole_seconds_exact s : whole_seconds (s * 1000000) = s.
Proof. apply round_half_away_exact. lia. Qed.

Lemma EXTRACT_EPOCH_INTEGER_Ok iv d :
  EXTRACT_EPOCH_INTEGER iv = Ok d -> d = whole_seconds iv.
Proof.
  unfold EXTRACT_EPOCH_INTEGER.
  destruct (int4_in_range (whole_seconds iv)); congruence.
Qed.

(** ** The triggers, row by row *)

Lemma calculate_duration_running NEW :
  time_entries.end_time NEW = None -> calculate_duration NEW = Ok NEW.
Proof. unfold calculate_duration. intros ->. reflexivity. Qed.

Lemma calculate_duration_ended NEW e :
  time_entries.end_time NEW = Some e ->
  calculate_duration NEW =
    if int4_in_range (whole_seconds (e - time_entries.start_time NEW))
    then Ok (time_entries.set_is_running (Some false)
               (time_entries.set_duration_seconds
                  (Some (whole_seconds (e - time_entries.start_time NEW))) NEW))
    else Err numeric_value_out_of_range.
Proof.
  unfold calculate_duration, EXTRACT_EPOCH_INTEGER. intros ->.
  destruct (int4_in_range _); reflexivity.
Qed.

(** What [calculate_duration] keeps and what it settles. *)
Lemma calculate_duration_Ok NEW NEW1 :
  calculate_duration NEW = Ok NEW1 ->
  time_entries.id NEW1 = time_entries.id NEW
  /\ time_entries.user_id NEW1 = time_entries.user_id NEW
  /\ time_entries.start_time NEW1 = time_entries.start_time NEW
  /\ time_entries.end_time NEW1 = time_entries.end_time NEW
  /\ (forall e, time_entries.end_time NEW = Some e ->
        time_entries.is_running NEW1 = Some false
        /\ time_entries.duration_seconds NEW1
           = Some (whole_seconds (e - time_entries.start_time NEW)))
  /\ (time_entries.end_time NEW = None -> NEW1 = NEW).
Proof.
  intros H. destruct (time_entries.end_time NEW) as [e|] eqn:He.
  - rewrite (calculate_duration_ended _ _ He) in H.
    destruct (int4_in_range _); [|discriminate].
    injection H as <-. cbn. repeat split; try assumption; try congruence;
      intros e' [= <-]; reflexivity.
  - rewrite (calculate_duration_running _ He) in H. injection H as <-.
    repeat split; try assumption; congruence.
Qed.

Lemma calculate_duration_force_stop now x :
  calculate_duration (force_stop_set now x) =
    if elapsed_fits now x
    then Ok (time_entries.set_is_running (Some false)
               (time_entries.set_duration_seconds
                  (Some (whole_seconds (now - time_entries.start_time x)))
                  (force_stop_set now x)))
    else Err numeric_value_out_of_range.
Proof. apply (calculate_duration_ended (force_stop_set now x) now). reflexivity. Qed.

(** A row that the trigger's statement stops does not set the trigger
    off again: whatever would run the inner statement is never asked. *)
Lemma before_update_triggers_force_stop exec now x tbl :
  before_update_triggers exec now (force_stop_set now x) tbl =
    if elapsed_fits now x then Ok (tbl, force_stopped now x)
    else Err numeric_value_out_of_range.
Proof.
  unfold before_update_triggers. rewrite calculate_duration_force_stop.
  destruct (elapsed_fits now x); reflexivity.
Qed.

(** ** Statements over several rows *)

Lemma for_each_row_ext op op' rows :
  (forall x tbl, In x rows -> op x tbl = op' x tbl) ->
  forall tbl, for_each_row op rows tbl = for_each_row op' rows tbl.
Proof.
  induction rows as [|x rows IH]; intros Hext tbl; cbn.
  - reflexivity.
  - rewrite (Hext x tbl (or_introl eq_refl)).
    destruct (op' x tbl) as [tbl'|e]; cbn; [|reflexivity].
    apply IH. intros y t Hy. apply Hext. right. exact Hy.
Qed.

Lemma for_each_row_replace (ok : time_entry -> bool) (f : time_entry -> time_entry) e rows :
  forall tbl,
    for_each_row (fun x tbl => if ok x then Ok (replace_row (f x) tbl) else Err e) rows tbl =
      if forallb ok rows
      then Ok (fold_left (fun tbl x => replace_row (f x) tbl) rows tbl)
      else Err e.
Proof.
  induction rows as [|x rows IH]; intros tbl; cbn.
  - reflexivity.
  - destruct (ok x); cbn; [apply IH|reflexivity].
Qed.

Lemma fold_replace_row f rows :
  (forall x, time_entries.id (f x) = time_entries.id x) ->
  forall tbl,
    fold_left (fun tbl x => replace_row (f x) tbl) rows tbl =
      map (fun y => match last_with_id (time_entries.id y) rows with
                    | Some x => f x
                    | None => y
                    end) tbl.
Proof.
  intros Hid. induction rows as [|x rows IH]; intros tbl; cbn.
  - symmetry. apply map_id.
  - rewrite IH. unfold replace_row. rewrite map_map. apply map_ext.
    intros y. rewrite Hid.
    destruct (time_entries.id y =? time_entries.id x)%N eqn:Hy.
    + apply N.eqb_eq in Hy. rewrite Hid, Hy, N.eqb_refl.
      destruct (last_with_id _ rows); reflexivity.
    + rewrite N.eqb_sym, Hy.
      destruct (last_with_id _ rows); reflexivity.
Qed.

Lemma last_with_id_none i rows :
  ~ In i (map time_entries.id rows) -> last_with_id i rows = None.
Proof.
  induction rows as [|x rows IH]; cbn; intros Hi; [reflexivity|].
  rewrite IH by tauto.
  destruct (time_entries.id x =? i)%N eqn:E; [|reflexivity].
  apply N.eqb_eq in E. tauto.
Qed.

Lemma filter_ids_incl (c : time_entry -> bool) tbl i :
  In i (map time_entries.id (filter c tbl)) -> In i (map time_entries.id tbl).
Proof.
  rewrite !in_map_iff. intros (x & Hx & Hin).
  apply filter_In in Hin. exists x. tauto.
Qed.

Lemma last_with_id_filter c tbl :
  primary_key tbl ->
  forall y, In y tbl ->
    last_with_id (time_entries.id y) (filter c tbl) = if c y then Some y else None.
Proof.
  unfold primary_key.
  induction tbl as [|x tbl IH]; intros Hpk y Hy; [destruct Hy|].
  cbn in Hpk. inversion Hpk as [|? ? Hx Hpk']; subst.
  destruct Hy as [->|Hy].
  - cbn. destruct (c y) eqn:Hc.
    + cbn. rewrite last_with_id_none, N.eqb_refl; [reflexivity|].
      intros Hin. apply Hx. eapply filter_ids_incl. exact Hin.
    + apply last_with_id_none.
      intros Hin. apply Hx. eapply filter_ids_incl. exact Hin.
  - assert (Hne : (time_entries.id x =? time_entries.id y)%N = false).
    { apply N.eqb_neq. intros E. apply Hx. rewrite E. apply in_map. exact Hy. }
    cbn. destruct (c x); cbn; rewrite (IH Hpk' y Hy).
    + destruct (c y); [reflexivity|]. rewrite Hne. reflexivity.
    + reflexivity.
Qed.

Lemma forallb_filter_implb (c ok : time_entry -> bool) tbl :
  forallb ok (filter c tbl) = forallb (fun x => implb (c x) (ok x)) tbl.
Proof.
  induction tbl as [|x tbl IH]; cbn; [reflexivity|].
  destruct (c x); cbn; rewrite IH; reflexivity.
Qed.

(** ** The statement inside [ensure_single_running_timer] *)

Lemma rls_update_same_user r a b :
  time_entries.user_id a = time_entries.user_id b ->
  rls policy_time_entries_update r a = rls policy_time_entries_update r b.
Proof.
  intros H. destruct r; cbn; [reflexivity|].
  unfold policy_time_entries_update. rewrite H. reflexivity.
Qed.

Lemma references_kept_same OLD NEW :
  time_entries.project_id NEW = time_entries.project_id OLD ->
  time_entries.task_id NEW = time_entries.task_id OLD ->
  references_kept OLD NEW = true.
Proof.
  unfold references_kept. intros -> ->. rewrite N.eqb_refl.
  destruct (time_entries.task_id OLD); [apply N.eqb_refl|reflexivity].
Qed.

Lemma references_hold_intro NEW :
  In (time_entries.project_id NEW) (map projects.id projects_tbl) ->
  match time_entries.task_id NEW with
  | Some task_id => In task_id (map tasks.id tasks_tbl)
  | None => True
  end ->
  references_hold NEW = true.
Proof.
  unfold references_hold. intros Hp Ht. apply andb_true_iff. split.
  - apply in_map_iff in Hp. destruct Hp as (p & E & Hp).
    apply existsb_exists. exists p. split; [exact Hp|]. apply N.eqb_eq. exact E.
  - destruct (time_entries.task_id NEW) as [i|]; [|reflexivity].
    apply in_map_iff in Ht. destruct Ht as (t & E & Ht).
    apply existsb_exists. exists t. split; [exact Ht|]. apply N.eqb_eq. exact E.
Qed.

Lemma UPDATE_force_stop d now r c tbl :
  primary_key tbl ->
  UPDATE (S d) now r (force_stop_set now) c tbl =
    if forallb (fun x => implb (reached r c x) (elapsed_fits now x)) tbl
    then Ok (map (fun x => if reached r c x then force_stopped now x else x) tbl)
    else Err numeric_value_out_of_range.
Proof.
  intros Hpk. cbn [UPDATE].
  change (fun x => c x && rls policy_time_entries_select r x
                   && rls policy_time_entries_update r x)
    with (reached r c).
  rewrite (for_each_row_ext _
             (fun x tbl => if elapsed_fits now x
                           then Ok (replace_row (force_stopped now x) tbl)
                           else Err numeric_value_out_of_range)).
  - rewrite for_each_row_replace, forallb_filter_implb.
    match goal with |- context [forallb ?ok tbl] => destruct (forallb ok tbl) end;
      [|reflexivity].
    f_equal. rewrite fold_replace_row by reflexivity.
    apply map_ext_in. intros y Hy.
    rewrite (last_with_id_filter _ _ Hpk y Hy).
    destruct (reached r c y); reflexivity.
  - intros x t Hx. apply filter_In in Hx. destruct Hx as [_ Hx].
    apply andb_prop in Hx. destruct Hx as [_ Hupd].
    rewrite before_update_triggers_force_stop.
    destruct (elapsed_fits now x); cbn; [|reflexivity].
    rewrite (rls_update_same_user r (force_stopped now x) x eq_refl), Hupd.
    rewrite (references_kept_same x (force_stopped now x) eq_refl eq_refl).
    reflexivity.
Qed.

Lemma forallb_const_true {A} (l : list A) : forallb (fun _ => true) l = true.
Proof. induction l; cbn; auto. Qed.

Lemma stop_if_not_running now r NEW tbl :
  IS_TRUE (time_entries.is_running NEW) = false ->
  map (stop_if now r NEW) tbl = tbl /\ stops_fit now r NEW tbl = true.
Proof.
  intros H. unfold stop_if, stops_fit. rewrite H. cbn. split.
  - apply map_id.
  - apply forallb_const_true.
Qed.

Lemma ensure_single_running_timer_nested d now r NEW tbl :
  primary_key tbl ->
  ensure_single_running_timer (UPDATE (S d) now r) now NEW tbl =
    if stops_fit now r NEW tbl then Ok (map (stop_if now r NEW) tbl)
    else Err numeric_value_out_of_range.
Proof.
  intros Hpk. unfold ensure_single_running_timer.
  destruct (IS_TRUE (time_entries.is_running NEW)) eqn:Hrun.
  - change (UPDATE (S d) now r (force_stop_set now) (other_running NEW) tbl =
              if stops_fit now r NEW tbl then Ok (map (stop_if now r NEW) tbl)
              else Err numeric_value_out_of_range).
    rewrite (UPDATE_force_stop _ _ _ _ _ Hpk).
    unfold stops_fit, stop_if. rewrite Hrun. reflexivity.
  - destruct (stop_if_not_running now r NEW tbl Hrun) as [-> ->]. reflexivity.
Qed.

Lemma ensure_single_running_timer_Ok d now r NEW tbl tbl1 :
  primary_key tbl ->
  ensure_single_running_timer (UPDATE d now r) now NEW tbl = Ok tbl1 ->
  tbl1 = map (stop_if now r NEW) tbl /\ stops_fit now r NEW tbl = true.
Proof.
  intros Hpk H. destruct d as [|d].
  - unfold ensure_single_running_timer in H.
    destruct (IS_TRUE (time_entries.is_running NEW)) eqn:Hrun; [discriminate|].
    injection H as <-.
    destruct (stop_if_not_running now r NEW tbl Hrun) as [-> ->]. auto.
  - rewrite (ensure_single_running_timer_nested _ _ _ _ _ Hpk) in H.
    destruct (stops_fit now r NEW tbl); [|discriminate].
    injection H as <-. auto.
Qed.

(** ** Closed forms of the statements *)

Lemma stop_if_id now r NEW x :
  time_entries.id (stop_if now r NEW x) = time_entries.id x.
Proof. unfold stop_if. destruct (_ && _); reflexivity. Qed.

Lemma stop_if_ids now r NEW tbl :
  map time_entries.id (map (stop_if now r NEW) tbl) = map time_entries.id tbl.
Proof. rewrite map_map. apply map_ext. intros x. apply stop_if_id. Qed.

Lemma existsb_id i tbl :
  existsb (fun x => (time_entries.id x =? i)%N) tbl = true
  <-> In i (map time_entries.id tbl).
Proof.
  rewrite existsb_exists, in_map_iff. split.
  - intros (x & Hx & E). apply N.eqb_eq in E. eauto.
  - intros (x & E & Hx). exists x. split; [exact Hx|]. apply N.eqb_eq. exact E.
Qed.

Lemma INSERT_Ok depth now r NEW tbl tbl' :
  primary_key tbl ->
  INSERT depth now r NEW tbl = Ok tbl' ->
  exists NEW1,
    calculate_duration NEW = Ok NEW1
    /\ stops_fit now r NEW1 tbl = true
    /\ rls policy_time_entries_insert r NEW1 = true
    /\ ~ In (time_entries.id NEW1) (map time_entries.id tbl)
    /\ tbl' = map (stop_if now r NEW1) tbl ++ [NEW1].
Proof.
  intros Hpk H. destruct depth as [|d]; [discriminate|].
  cbn [INSERT] in H. unfold before_insert_triggers in H.
  destruct (calculate_duration NEW) as [NEW1|e] eqn:Hcalc; [|discriminate].
  cbn [bind] in H.
  destruct (ensure_single_running_timer (UPDATE d now r) now NEW1 tbl) as [tbl1|e] eqn:Hens;
    [|discriminate].
  cbn [bind] in H.
  destruct (ensure_single_running_timer_Ok _ _ _ _ _ _ Hpk Hens) as [-> Hfit].
  destruct (rls policy_time_entries_insert r NEW1) eqn:Hins; [|discriminate].
  destruct (references_hold NEW1); [|discriminate].
  destruct (existsb _ _) eqn:Hex; [discriminate|].
  injection H as <-. exists NEW1. repeat split; auto.
  intros Hin. rewrite <- (stop_if_ids now r NEW1) in Hin.
  apply existsb_id in Hin. congruence.
Qed.

Lemma INSERT_succeeds d now r NEW NEW1 tbl :
  primary_key tbl ->
  calculate_duration NEW = Ok NEW1 ->
  stops_fit now r NEW1 tbl = true ->
  rls policy_time_entries_insert r NEW1 = true ->
  references_hold NEW1 = true ->
  ~ In (time_entries.id NEW1) (map time_entries.id tbl) ->
  INSERT (S (S d)) now r NEW tbl = Ok (map (stop_if now r NEW1) tbl ++ [NEW1]).
Proof.
  intros Hpk Hcalc Hfit Hins Hrefs Hfresh.
  cbn [INSERT]. unfold before_insert_triggers. rewrite Hcalc. cbn [bind].
  rewrite (ensure_single_running_timer_nested _ _ _ _ _ Hpk), Hfit. cbn [bind].
  rewrite Hins, Hrefs.
  destruct (existsb _ _) eqn:Hex; [|reflexivity].
  apply existsb_id in Hex. rewrite stop_if_ids in Hex. contradiction.
Qed.

Lemma filter_none {A} (p : A -> bool) l :
  (forall x, In x l -> p x = false) -> filter p l = [].
Proof.
  induction l as [|x l IH]; cbn; intros H; [reflexivity|].
  rewrite (H x (or_introl eq_refl)). apply IH. intros y Hy. apply H. right. exact Hy.
Qed.

Lemma filter_by_key (p : time_entry -> bool) i tbl :
  primary_key tbl ->
  (forall x, p x = true -> time_entries.id x = i) ->
  filter p tbl =
    match lookup i tbl with
    | Some x => if p x then [x] else []
    | None => []
    end.
Proof.
  unfold primary_key, lookup. intros Hpk Hp.
  induction tbl as [|x tbl IH]; [reflexivity|].
  cbn in Hpk. inversion Hpk as [|? ? Hx Hpk']; subst. cbn.
  destruct (time_entries.id x =? i)%N eqn:E.
  - apply N.eqb_eq in E.
    rewrite (filter_none p tbl); [destruct (p x); reflexivity|].
    intros y Hy. destruct (p y) eqn:Hpy; [|reflexivity].
    exfalso. apply Hx. rewrite E, <- (Hp y Hpy). apply in_map. exact Hy.
  - destruct (p x) eqn:Hpx.
    + apply Hp in Hpx. apply N.eqb_neq in E. contradiction.
    + apply IH. exact Hpk'.
Qed.

Lemma reached_by_key r i x :
  reached r (fun x => (time_entries.id x =? i)%N) x = true -> time_entries.id x = i.
Proof.
  unfold reached. intros H.
  apply andb_prop in H. destruct H as [H _].
  apply andb_prop in H. destruct H as [H _].
  apply N.eqb_eq. exact H.
Qed.

Lemma lookup_Some i tbl x :
  lookup i tbl = Some x -> In x tbl /\ time_entries.id x = i.
Proof.
  unfold lookup. intros H. apply find_some in H.
  destruct H as [Hin E]. apply N.eqb_eq in E. auto.
Qed.

Lemma targets_by_key r i tbl :
  primary_key tbl ->
  filter (reached r (fun x => (time_entries.id x =? i)%N)) tbl =
    match target r i tbl with
    | Some OLD => [OLD]
    | None => []
    end.
Proof.
  intros Hpk.
  rewrite (filter_by_key _ i tbl Hpk (reached_by_key r i)).
  unfold target. destruct (lookup i tbl) as [OLD|] eqn:Hl; [|reflexivity].
  apply lookup_Some in Hl. destruct Hl as [_ Hid].
  unfold reached. rewrite Hid, N.eqb_refl. cbn.
  destruct (_ && _); reflexivity.
Qed.

Lemma UPDATE_S d now r set where_ tbl :
  UPDATE (S d) now r set where_ tbl =
    for_each_row
      (fun OLD tbl =>
         '(tbl, NEW) <- before_update_triggers (UPDATE d now r) now (set OLD) tbl ;;
         if rls policy_time_entries_update r NEW then
           if references_kept OLD NEW || references_hold NEW
           then Ok (replace_row NEW tbl)
           else Err foreign_key_violation
         else Err insufficient_privilege)
      (filter (reached r where_) tbl) tbl.
Proof. reflexivity. Qed.

Lemma UPDATE_by_key_Ok depth now r set i tbl tbl' :
  primary_key tbl ->
  UPDATE depth now r set (fun x => (time_entries.id x =? i)%N) tbl = Ok tbl' ->
  match target r i tbl with
  | Some OLD =>
      exists NEW1,
        calculate_duration (set OLD) = Ok NEW1
        /\ stops_fit now r NEW1 tbl = true
        /\ rls policy_time_entries_update r NEW1 = true
        /\ tbl' = replace_row (update_updated_at now NEW1) (map (stop_if now r NEW1) tbl)
  | None => tbl' = tbl
  end.
Proof.
  intros Hpk H. destruct depth as [|d]; [discriminate|].
  cbn [UPDATE] in H.
  change (fun x => (time_entries.id x =? i)%N && rls policy_time_entries_select r x
                   && rls policy_time_entries_update r x)
    with (reached r (fun x => (time_entries.id x =? i)%N)) in H.
  rewrite (targets_by_key r i tbl Hpk) in H.
  destruct (target r i tbl) as [OLD|]; cbn in H; [|congruence].
  unfold before_update_triggers in H.
  destruct (calculate_duration (set OLD)) as [NEW1|e]; [|discriminate].
  cbn [bind] in H.
  destruct (ensure_single_running_timer (UPDATE d now r) now NEW1 tbl) as [tbl1|e] eqn:Hens;
    [|discriminate].
  cbn [bind] in H.
  destruct (ensure_single_running_timer_Ok _ _ _ _ _ _ Hpk Hens) as [-> Hfit].
  rewrite (rls_update_same_user r (update_updated_at now NEW1) NEW1 eq_refl) in H.
  destruct (rls policy_time_entries_update r NEW1) eqn:Hupd; [|discriminate].
  destruct (_ || _); [|discriminate].
  injection H as <-. exists NEW1. auto.
Qed.

Lemma UPDATE_by_key_succeeds d now r set i tbl OLD NEW1 :
  primary_key tbl ->
  target r i tbl = Some OLD ->
  calculate_duration (set OLD) = Ok NEW1 ->
  stops_fit now r NEW1 tbl = true ->
  rls policy_time_entries_update r NEW1 = true ->
  references_kept OLD NEW1 || references_hold NEW1 = true ->
  UPDATE (S (S d)) now r set (fun x => (time_entries.id x =? i)%N) tbl =
    Ok (replace_row (update_updated_at now NEW1) (map (stop_if now r NEW1) tbl)).
Proof.
  intros Hpk Ht Hcalc Hfit Hupd Hrefs.
  rewrite UPDATE_S, (targets_by_key r i tbl Hpk), Ht. cbn [for_each_row].
  unfold before_update_triggers. rewrite Hcalc. cbn [bind].
  rewrite (ensure_single_running_timer_nested _ _ _ _ _ Hpk), Hfit. cbn [bind].
  rewrite (rls_update_same_user r (update_updated_at now NEW1) NEW1 eq_refl), Hupd.
  change (references_kept OLD (update_updated_at now NEW1)
          || references_hold (update_updated_at now NEW1))
    with (references_kept OLD NEW1 || references_hold NEW1).
  rewrite Hrefs. reflexivity.
Qed.

Lemma UPDATE_by_key_unreached d now r set i tbl :
  primary_key tbl ->
  target r i tbl = None ->
  UPDATE (S d) now r set (fun x => (time_entries.id x =? i)%N) tbl = Ok tbl.
Proof.
  intros Hpk Ht. cbn [UPDATE].
  change (fun x => (time_entries.id x =? i)%N && rls policy_time_entries_select r x
                   && rls policy_time_entries_update r x)
    with (reached r (fun x => (time_entries.id x =? i)%N)).
  rewrite (targets_by_key r i tbl Hpk), Ht. reflexivity.
Qed.

(** Two levels of statements are all the triggers ever use: a deeper
    bound changes nothing. *)
Lemma INSERT_two_levels d now r NEW tbl :
  primary_key tbl ->
  INSERT (S (S d)) now r NEW tbl = INSERT 2 now r NEW tbl.
Proof.
  intros Hpk. cbn [INSERT]. unfold before_insert_triggers.
  destruct (calculate_duration NEW) as [NEW1|e]; cbn [bind]; [|reflexivity].
  rewrite !(ensure_single_running_timer_nested _ _ _ _ _ Hpk). reflexivity.
Qed.

Lemma UPDATE_by_key_two_levels d now r set i tbl :
  primary_key tbl ->
  UPDATE (S (S d)) now r set (fun x => (time_entries.id x =? i)%N) tbl
  = UPDATE 2 now r set (fun x => (time_entries.id x =? i)%N) tbl.
Proof.
  intros Hpk. rewrite !UPDATE_S, (targets_by_key r i tbl Hpk).
  destruct (target r i tbl) as [OLD|]; [|reflexivity].
  cbn [for_each_row]. unfold before_update_triggers.
  destruct (calculate_duration (set OLD)) as [NEW1|e]; cbn [bind]; [|reflexivity].
  rewrite !(ensure_single_running_timer_nested _ _ _ _ _ Hpk). reflexivity.
Qed.

(** ** Invariants of the table *)

Lemma replace_row_ids NEW tbl :
  map time_entries.id (replace_row NEW tbl) = map time_entries.id tbl.
Proof.
  unfold replace_row. rewrite map_map. apply map_ext. intros x.
  destruct (time_entries.id x =? time_entries.id NEW)%N eqn:E; [|reflexivity].
  apply N.eqb_eq in E. congruence.
Qed.

Lemma replace_row_In NEW tbl y :
  In y (replace_row NEW tbl) ->
  y = NEW \/ (In y tbl /\ time_entries.id y <> time_entries.id NEW).
Proof.
  unfold replace_row. rewrite in_map_iff. intros (x & <- & Hx).
  destruct (time_entries.id x =? time_entries.id NEW)%N eqn:E; [auto|].
  apply N.eqb_neq in E. auto.
Qed.

Lemma NoDup_ids_filter (c : time_entry -> bool) tbl :
  primary_key tbl -> primary_key (filter c tbl).
Proof.
  unfold primary_key. induction tbl as [|x tbl IH]; cbn; intros H; [exact H|].
  inversion H as [|? ? Hx H']; subst.
  destruct (c x); cbn; [constructor|]; auto.
  intros Hin. apply Hx. eapply filter_ids_incl. exact Hin.
Qed.

Lemma step_primary_key tbl tbl' :
  primary_key tbl -> step tbl tbl' -> primary_key tbl'.
Proof.
  intros Hpk Hstep. destruct Hstep as [depth now r NEW tbl' H|depth now r set i tbl' _ H|r w tbl' H].
  - destruct (INSERT_Ok _ _ _ _ _ _ Hpk H) as (NEW1 & _ & _ & _ & Hfresh & ->).
    unfold primary_key in *. rewrite map_app, stop_if_ids. cbn.
    apply NoDup_app; [exact Hpk|repeat constructor; cbn; tauto|].
    intros a Ha [<-|[]]. contradiction.
  - pose proof (UPDATE_by_key_Ok _ _ _ _ _ _ _ Hpk H) as Hspec.
    destruct (target r i tbl) as [OLD|].
    + destruct Hspec as (NEW1 & _ & _ & _ & ->).
      unfold primary_key in *. rewrite replace_row_ids, stop_if_ids. exact Hpk.
    + subst. exact Hpk.
  - injection H as <-. apply NoDup_ids_filter. exact Hpk.
Qed.

Lemma reachable_primary_key tbl : reachable tbl -> primary_key tbl.
Proof.
  induction 1 as [|tbl tbl' _ IH Hstep].
  - constructor.
  - eapply step_primary_key; eassumption.
Qed.

(** *** Ended entries *)

Lemma calculate_duration_settled NEW NEW1 :
  calculate_duration NEW = Ok NEW1 -> settled NEW1.
Proof.
  intros H e He.
  destruct (calculate_duration_Ok _ _ H) as (_ & _ & Hs & Hend & Hset & _).
  rewrite Hend in He. rewrite Hs. exact (Hset e He).
Qed.

Lemma stop_if_settled now r NEW x : settled x -> settled (stop_if now r NEW x).
Proof.
  unfold stop_if. destruct (_ && _); [|trivial].
  intros _ e He. cbn in He. injection He as <-. cbn. auto.
Qed.

Lemma step_settled tbl tbl' :
  primary_key tbl -> step tbl tbl' -> Forall settled tbl -> Forall settled tbl'.
Proof.
  intros Hpk Hstep Hall.
  destruct Hstep as [depth now r NEW tbl' H|depth now r set i tbl' _ H|r w tbl' H].
  - destruct (INSERT_Ok _ _ _ _ _ _ Hpk H) as (NEW1 & Hcalc & _ & _ & _ & ->).
    apply Forall_app. split.
    + rewrite Forall_forall in *. intros y Hy. apply in_map_iff in Hy.
      destruct Hy as (x & <- & Hx). apply stop_if_settled. auto.
    + constructor; [|constructor]. eapply calculate_duration_settled. exact Hcalc.
  - pose proof (UPDATE_by_key_Ok _ _ _ _ _ _ _ Hpk H) as Hspec.
    destruct (target r i tbl) as [OLD|]; [|subst; exact Hall].
    destruct Hspec as (NEW1 & Hcalc & _ & _ & ->).
    rewrite Forall_forall in *. intros y Hy.
    apply replace_row_In in Hy. destruct Hy as [->|[Hy _]].
    + exact (calculate_duration_settled _ _ Hcalc).
    + apply in_map_iff in Hy. destruct Hy as (x & <- & Hx).
      apply stop_if_settled. auto.
  - injection H as <-. rewrite Forall_forall in *. intros y Hy.
    apply filter_In in Hy. apply Hall. tauto.
Qed.

Lemma reachable_settled tbl : reachable tbl -> Forall settled tbl.
Proof.
  induction 1 as [|tbl tbl' Hreach IH Hstep].
  - constructor.
  - eapply step_settled; eauto using reachable_primary_key.
Qed.

(** *** Running entries *)

Lemma stop_if_running now r NEW x :
  IS_TRUE (time_entries.is_running (stop_if now r NEW x)) = true ->
  stop_if now r NEW x = x
  /\ IS_TRUE (time_entries.is_running NEW) && reached r (other_running NEW) x = false.
Proof.
  unfold stop_if. destruct (_ && _); [discriminate|auto].
Qed.

Lemma stop_if_user now r NEW x :
  time_entries.user_id (stop_if now r NEW x) = time_entries.user_id x.
Proof. unfold stop_if. destruct (_ && _); reflexivity. Qed.

(** A session that may write a row of some user reaches every row of
    that user. *)
Lemma own_rows_reached r NEW x :
  rls policy_time_entries_update r NEW = true ->
  time_entries.user_id x = time_entries.user_id NEW ->
  rls policy_time_entries_select r x && rls policy_time_entries_update r x = true.
Proof.
  destruct r as [|uid]; cbn; [reflexivity|].
  unfold policy_time_entries_update, policy_time_entries_select.
  intros H ->. rewrite H. reflexivity.
Qed.

(** Once the triggers of a running [NEW] have run, no other row of its
    user is running. *)
Lemma stop_if_clears now r NEW x :
  rls policy_time_entries_update r NEW = true ->
  IS_TRUE (time_entries.is_running NEW) = true ->
  IS_TRUE (time_entries.is_running (stop_if now r NEW x)) = true ->
  time_entries.user_id x = time_entries.user_id NEW ->
  time_entries.id x = time_entries.id NEW.
Proof.
  intros Hrls Hnew Hrun Huser.
  destruct (stop_if_running _ _ _ _ Hrun) as [Heq Hcond].
  rewrite Heq in Hrun.
  unfold reached, other_running in Hcond.
  rewrite Hnew, Huser, N.eqb_refl, Hrun in Hcond. cbn in Hcond.
  rewrite <- andb_assoc, (own_rows_reached r NEW x Hrls Huser), andb_true_r in Hcond.
  apply negb_false_iff, N.eqb_eq in Hcond. exact Hcond.
Qed.

Lemma stop_if_single now r NEW tbl :
  single_running tbl -> single_running (map (stop_if now r NEW) tbl).
Proof.
  intros Hsingle x' y' Hx Hy Hrx Hry Huser.
  apply in_map_iff in Hx. destruct Hx as (x & <- & Hx).
  apply in_map_iff in Hy. destruct Hy as (y & <- & Hy).
  rewrite !stop_if_id. rewrite !stop_if_user in Huser.
  destruct (stop_if_running _ _ _ _ Hrx) as [Ex _].
  destruct (stop_if_running _ _ _ _ Hry) as [Ey _].
  rewrite Ex in Hrx. rewrite Ey in Hry. auto.
Qed.

Lemma step_single_running tbl tbl' :
  primary_key tbl -> step tbl tbl' -> single_running tbl -> single_running tbl'.
Proof.
  intros Hpk Hstep Hsingle.
  destruct Hstep as [depth now r NEW tbl' H|depth now r set i tbl' Hkey H|r w tbl' H].
  - destruct (INSERT_Ok _ _ _ _ _ _ Hpk H) as (NEW1 & _ & _ & Hins & Hfresh & ->).
    assert (Hclear : forall x', In x' (map (stop_if now r NEW1) tbl) ->
              IS_TRUE (time_entries.is_running x') = true ->
              IS_TRUE (time_entries.is_running NEW1) = true ->
              time_entries.user_id x' = time_entries.user_id NEW1 -> False).
    { intros x' Hx Hrx Hrn Hu. apply in_map_iff in Hx. destruct Hx as (x & <- & Hx).
      rewrite stop_if_user in Hu.
      apply Hfresh. rewrite <- (stop_if_clears now r NEW1 x Hins Hrn Hrx Hu).
      apply in_map. exact Hx. }
    intros x' y' Hx Hy Hrx Hry Huser.
    apply in_app_or in Hx. apply in_app_or in Hy.
    destruct Hx as [Hx|[<-|[]]], Hy as [Hy|[<-|[]]].
    + exact (stop_if_single now r NEW1 tbl Hsingle x' y' Hx Hy Hrx Hry Huser).
    + exfalso. eauto.
    + exfalso. symmetry in Huser. eauto.
    + reflexivity.
  - pose proof (UPDATE_by_key_Ok _ _ _ _ _ _ _ Hpk H) as Hspec.
    destruct (target r i tbl) as [OLD|]; [|subst; exact Hsingle].
    destruct Hspec as (NEW1 & Hcalc & _ & Hupd & ->).
    assert (Hclear : forall x', In x' (map (stop_if now r NEW1) tbl) ->
              IS_TRUE (time_entries.is_running x') = true ->
              IS_TRUE (time_entries.is_running NEW1) = true ->
              time_entries.user_id x' = time_entries.user_id NEW1 ->
              time_entries.id x' = time_entries.id NEW1).
    { intros x' Hx Hrx Hrn Hu. apply in_map_iff in Hx. destruct Hx as (x & <- & Hx).
      rewrite stop_if_user in Hu. rewrite stop_if_id.
      exact (stop_if_clears now r NEW1 x Hupd Hrn Hrx Hu). }
    intros x' y' Hx Hy Hrx Hry Huser.
    apply replace_row_In in Hx. apply replace_row_In in Hy.
    destruct Hx as [->|[Hx Hnx]], Hy as [->|[Hy Hny]].
    + reflexivity.
    + exfalso. apply Hny. symmetry in Huser. exact (Hclear y' Hy Hry Hrx Huser).
    + exfalso. apply Hnx. exact (Hclear x' Hx Hrx Hry Huser).
    + exact (stop_if_single now r NEW1 tbl Hsingle x' y' Hx Hy Hrx Hry Huser).
  - injection H as <-. intros x y Hx Hy.
    apply filter_In in Hx. apply filter_In in Hy. apply Hsingle; tauto.
Qed.

Lemma reachable_single_running tbl : reachable tbl -> single_running tbl.
Proof.
  induction 1 as [|tbl tbl' Hreach IH Hstep].
  - intros x y [].
  - eapply step_single_running; eauto using reachable_primary_key.
Qed.

(** With a primary key, "no two" is "at most one". *)
Lemma single_running_count tbl u :
  primary_key tbl -> single_running tbl ->
  (List.length (filter (running_of u) tbl) <= 1)%nat.
Proof.
  unfold primary_key. induction tbl as [|x tbl IH]; intros Hpk Hsingle; cbn; [lia|].
  inversion Hpk as [|? ? Hx Hpk']; subst.
  assert (Hsingle' : single_running tbl).
  { intros a b Ha Hb. apply Hsingle; right; assumption. }
  destruct (running_of u x) eqn:Hrx; [|auto].
  rewrite (filter_none (running_of u) tbl); [cbn; lia|].
  intros y Hy. destruct (running_of u y) eqn:Hry; [|reflexivity].
  exfalso. apply Hx.
  unfold running_of in Hrx, Hry.
  apply andb_prop in Hrx. destruct Hrx as [Hux Hrx].
  apply andb_prop in Hry. destruct Hry as [Huy Hry].
  apply N.eqb_eq in Hux. apply N.eqb_eq in Huy.
  rewrite (Hsingle x y (or_introl eq_refl) (or_intror Hy) Hrx Hry ltac:(congruence)).
  apply in_map. exact Hy.
Qed.

(** ** The single running timer *)

(** C1.  In every table that insert, update and delete statements can
    produce from the empty one, with the triggers [calculate_duration]
    and [ensure_single_running_timer] firing on every row written, a
    user has at most one time entry with [is_running = TRUE]. *)
Theorem at_most_one_running_timer tbl u :
  reachable tbl ->
  (List.length (filter (running_of u) tbl) <= 1)%nat.
Proof.
  intros Hreach. apply single_running_count.
  - apply reachable_primary_key. exact Hreach.
  - apply reachable_single_running. exact Hreach.
Qed.

(** C9.  In every reachable table, an entry whose [end_time] is not
    NULL has [is_running = FALSE]. *)
Theorem ended_entry_is_not_running tbl x :
  reachable tbl ->
  In x tbl ->
  time_entries.end_time x <> None ->
  time_entries.is_running x = Some false.
Proof.
  intros Hreach Hx Hend.
  pose proof (reachable_settled tbl Hreach) as Hall.
  rewrite Forall_forall in Hall.
  destruct (time_entries.end_time x) as [e|] eqn:He; [|congruence].
  exact (proj1 (Hall x Hx e He)).
Qed.

(** Every row a statement writes, the inserted or updated one as well
    as those its triggers stop, is settled. *)
Lemma step_written_settled tbl tbl' x :
  primary_key tbl -> step tbl tbl' -> In x tbl' -> ~ In x tbl -> settled x.
Proof.
  intros Hpk Hstep Hx Hnew.
  assert (Hmap : forall now r NEW1, In x (map (stop_if now r NEW1) tbl) -> settled x).
  { intros now r NEW1 Hin. apply in_map_iff in Hin. destruct Hin as (y & <- & Hy).
    unfold stop_if in *. destruct (_ && _).
    - intros e He. cbn in He. injection He as <-. cbn. auto.
    - contradiction. }
  destruct Hstep as [depth now r NEW tbl' H|depth now r set i tbl' _ H|r w tbl' H].
  - destruct (INSERT_Ok _ _ _ _ _ _ Hpk H) as (NEW1 & Hcalc & _ & _ & _ & ->).
    apply in_app_or in Hx. destruct Hx as [Hx|[<-|[]]]; [eauto|].
    exact (calculate_duration_settled _ _ Hcalc).
  - pose proof (UPDATE_by_key_Ok _ _ _ _ _ _ _ Hpk H) as Hspec.
    destruct (target r i tbl) as [OLD|]; [|subst; contradiction].
    destruct Hspec as (NEW1 & Hcalc & _ & _ & ->).
    apply replace_row_In in Hx. destruct Hx as [->|[Hx _]]; [|eauto].
    exact (calculate_duration_settled _ _ Hcalc).
  - injection H as <-. apply filter_In in Hx. tauto.
Qed.

(** ** Starting and stopping *)

Lemma primary_key_inj tbl x y :
  primary_key tbl -> In x tbl -> In y tbl ->
  time_entries.id x = time_entries.id y -> x = y.
Proof.
  unfold primary_key. induction tbl as [|z tbl IH]; intros Hpk Hx Hy E; [destruct Hx|].
  cbn in Hpk. inversion Hpk as [|? ? Hz Hpk']; subst.
  destruct Hx as [->|Hx], Hy as [->|Hy]; auto.
  - exfalso. apply Hz. rewrite E. apply in_map. exact Hy.
  - exfalso. apply Hz. rewrite <- E. apply in_map. exact Hx.
Qed.

Lemma lookup_In tbl x :
  primary_key tbl -> In x tbl -> lookup (time_entries.id x) tbl = Some x.
Proof.
  intros Hpk Hx. unfold lookup.
  destruct (find _ tbl) as [y|] eqn:Hf.
  - apply find_some in Hf. destruct Hf as [Hy E]. apply N.eqb_eq in E.
    f_equal. exact (primary_key_inj tbl y x Hpk Hy Hx E).
  - exfalso. pose proof (find_none _ _ Hf x Hx) as E. cbn in E.
    rewrite N.eqb_refl in E. discriminate.
Qed.

Lemma replace_row_has NEW tbl :
  In (time_entries.id NEW) (map time_entries.id tbl) -> In NEW (replace_row NEW tbl).
Proof.
  unfold replace_row. rewrite !in_map_iff. intros (x & E & Hx).
  exists x. rewrite E, N.eqb_refl. auto.
Qed.

Lemma stop_payload_force_stop_set now x : stop_payload now x = force_stop_set now x.
Proof. reflexivity. Qed.

(** The update [stopTimer] sends, on a row its session reaches. *)
Lemma UPDATE_stop_payload d now u e tbl x :
  primary_key tbl ->
  In x tbl ->
  time_entries.user_id x = u ->
  int4_in_range (whole_seconds (e - time_entries.start_time x)) = true ->
  let stopped :=
    update_updated_at now
      (time_entries.set_is_running (Some false)
         (time_entries.set_duration_seconds
            (Some (whole_seconds (e - time_entries.start_time x)))
            (stop_payload e x))) in
  UPDATE (S (S d)) now (authenticated u) (stop_payload e)
    (fun y => (time_entries.id y =? time_entries.id x)%N) tbl
  = Ok (replace_row stopped tbl)
  /\ lookup (time_entries.id x) (replace_row stopped tbl) = Some stopped.
Proof.
  intros Hpk Hx Hu Hfit stopped.
  assert (Ht : target (authenticated u) (time_entries.id x) tbl = Some x).
  { unfold target. rewrite (lookup_In tbl x Hpk Hx). cbn.
    unfold policy_time_entries_select, policy_time_entries_update.
    rewrite Hu, N.eqb_refl. reflexivity. }
  set (NEW1 := time_entries.set_is_running (Some false)
                 (time_entries.set_duration_seconds
                    (Some (whole_seconds (e - time_entries.start_time x)))
                    (stop_payload e x))) in *.
  assert (Hcalc : calculate_duration (stop_payload e x) = Ok NEW1).
  { rewrite (calculate_duration_ended (stop_payload e x) e eq_refl). cbn.
    rewrite Hfit. reflexivity. }
  destruct (stop_if_not_running now (authenticated u) NEW1 tbl eq_refl) as [Hmap Hstops].
  split.
  - rewrite (UPDATE_by_key_succeeds d now (authenticated u) (stop_payload e)
               (time_entries.id x) tbl x NEW1 Hpk Ht Hcalc Hstops).
    + rewrite Hmap. reflexivity.
    + cbn. unfold policy_time_entries_update. cbn. rewrite Hu. apply N.eqb_refl.
    + rewrite (references_kept_same x NEW1 eq_refl eq_refl). reflexivity.
  - apply (lookup_In (replace_row stopped tbl) stopped).
    + unfold primary_key. rewrite replace_row_ids. exact Hpk.
    + apply replace_row_has. exact (in_map time_entries.id tbl x Hx).
Qed.

Lemma lookup_app_fresh i l x :
  ~ In i (map time_entries.id l) -> time_entries.id x = i ->
  lookup i (l ++ [x]) = Some x.
Proof.
  unfold lookup. intros Hfresh Hx. induction l as [|y l IH]; cbn.
  - rewrite Hx, N.eqb_refl. reflexivity.
  - destruct (time_entries.id y =? i)%N eqn:E.
    + apply N.eqb_eq in E. exfalso. apply Hfresh. left. exact E.
    + apply IH. intros Hin. apply Hfresh. right. exact Hin.
Qed.


(** C2.  A user has a running entry [prev] and starts a timer on a
    project, and maybe a task, that exist.  The insert goes through;
    afterwards the entry just started is the one
    running entry of the user, and [prev] is stopped: its [end_time] is
    the time of the second start, [is_running] is false and
    [duration_seconds] is derived from its start and end.  The row is
    the very row an explicit stop at that time leaves. *)
Theorem second_start_stops_the_first
    tbl u prev projectId taskId clientNow new_id now :
  reachable tbl ->
  In prev tbl ->
  running_of u prev = true ->
  In projectId (map projects.id projects_tbl) ->
  match taskId with
  | Some task_id => In task_id (map tasks.id tasks_tbl)
  | None => True
  end ->
  ~ In new_id (map time_entries.id tbl) ->
  elapsed_fits now prev = true ->
  exists tbl' started stopped,
    handleStart (Some u) projectId taskId clientNow new_id now tbl
      = (Some (toast_success "Timer started"), tbl')
    /\ filter (running_of u) tbl' = [started]
    /\ time_entries.id started = new_id
    /\ lookup (time_entries.id prev) tbl' = Some stopped
    /\ time_entries.end_time stopped = Some now
    /\ time_entries.is_running stopped = Some false
    /\ time_entries.duration_seconds stopped
       = Some (whole_seconds (now - time_entries.start_time prev))
    /\ exists tbl'',
         UPDATE max_stack_depth now (authenticated u) (stop_payload now)
           (fun x => (time_entries.id x =? time_entries.id prev)%N) tbl = Ok tbl''
         /\ lookup (time_entries.id prev) tbl'' = Some stopped.
Proof.
  intros Hreach Hprev Hrun Hproject Htask Hfresh Hfit.
  pose proof (reachable_primary_key tbl Hreach) as Hpk.
  pose proof (reachable_single_running tbl Hreach) as Hsingle.
  unfold running_of in Hrun. apply andb_prop in Hrun. destruct Hrun as [Hu Hrun].
  apply N.eqb_eq in Hu.
  set (r := authenticated u).
  set (NEW := time_entries.mk new_id u projectId None taskId timer (clientNow * 1000)
                None None None (Some true) None (Some true) (Some now) (Some now)).
  assert (Hstops : stops_fit now r NEW tbl = true).
  { unfold stops_fit. apply forallb_forall. intros x Hx.
    destruct (IS_TRUE (time_entries.is_running NEW) && reached r (other_running NEW) x)
      eqn:Hc; [|reflexivity].
    cbn [implb]. cbn in Hc. unfold reached, other_running in Hc.
    repeat (apply andb_prop in Hc; destruct Hc as [Hc ?]).
    apply N.eqb_eq in Hc. cbn in Hc.
    rewrite (primary_key_inj tbl x prev Hpk Hx Hprev); [exact Hfit|].
    apply Hsingle; auto. congruence. }
  assert (Hins : INSERT max_stack_depth now r NEW tbl
                 = Ok (map (stop_if now r NEW) tbl ++ [NEW])).
  { apply INSERT_succeeds; auto.
    - cbn. unfold policy_time_entries_insert. cbn. apply N.eqb_refl.
    - apply references_hold_intro; assumption. }
  assert (Hupd : rls policy_time_entries_update r NEW = true).
  { cbn. unfold policy_time_entries_update. cbn. apply N.eqb_refl. }
  assert (Hstop : stop_if now r NEW prev = force_stopped now prev).
  { unfold stop_if, reached, other_running. cbn.
    unfold policy_time_entries_select, policy_time_entries_update.
    rewrite Hu, !N.eqb_refl, Hrun. cbn.
    destruct (time_entries.id prev =? new_id)%N eqn:E; [|reflexivity].
    apply N.eqb_eq in E. exfalso. apply Hfresh. rewrite <- E. apply in_map. exact Hprev. }
  assert (Hpk' : primary_key (map (stop_if now r NEW) tbl ++ [NEW])).
  { eapply step_primary_key; [exact Hpk|]. eapply step_insert. exact Hins. }
  destruct (UPDATE_stop_payload 62 now u now tbl prev Hpk Hprev Hu Hfit) as [Hexp Hlook].
  exists (map (stop_if now r NEW) tbl ++ [NEW]), NEW, (force_stopped now prev).
  split; [|split; [|split; [|split; [|split; [|split; [|split]]]]]].
  - unfold handleStart. fold r. fold NEW. rewrite Hins. reflexivity.
  - rewrite filter_app. rewrite (filter_none (running_of u) (map (stop_if now r NEW) tbl)).
    + cbn. unfold running_of. cbn. rewrite N.eqb_refl. reflexivity.
    + intros x' Hx'. destruct (running_of u x') eqn:Hr; [|reflexivity].
      exfalso. apply in_map_iff in Hx'. destruct Hx' as (x & <- & Hx).
      unfold running_of in Hr. apply andb_prop in Hr. destruct Hr as [Hux Hrx].
      apply N.eqb_eq in Hux. rewrite stop_if_user in Hux.
      apply Hfresh.
      change new_id with (time_entries.id NEW).
      rewrite <- (stop_if_clears now r NEW x Hupd eq_refl Hrx Hux).
      apply in_map. exact Hx.
  - reflexivity.
  - change (time_entries.id prev) with (time_entries.id (force_stopped now prev)).
    apply lookup_In; [exact Hpk'|].
    apply in_or_app. left. rewrite <- Hstop. apply in_map. exact Hprev.
  - reflexivity.
  - reflexivity.
  - reflexivity.
  - eexists. split; [exact Hexp|exact Hlook].
Qed.


(** ** Deleting *)

Lemma filter_all {A} (p : A -> bool) l :
  (forall x, In x l -> p x = true) -> filter p l = l.
Proof.
  induction l as [|x l IH]; cbn; intros H; [reflexivity|].
  rewrite (H x (or_introl eq_refl)). f_equal. apply IH.
  intros y Hy. apply H. right. exact Hy.
Qed.

(** C8, as the code has it.  Deleting an entry that the caller does not
    own leaves the table as it was, and no error comes back: the delete
    policy passes the row over in silence and [deleteEntry] reports the
    deletion as done. *)
Theorem delete_of_foreign_entry_is_silent tbl user entryId :
  (forall x, In x tbl -> time_entries.id x = entryId -> time_entries.user_id x <> user) ->
  deleteEntry user entryId tbl = (Some (toast_success "Time entry deleted"), tbl).
Proof.
  intros Hforeign. unfold deleteEntry, DELETE.
  rewrite filter_all; [reflexivity|].
  intros x Hx. apply negb_true_iff.
  destruct (time_entries.id x =? entryId)%N eqn:E; [|reflexivity].
  apply N.eqb_eq in E. cbn. apply andb_false_iff. right.
  unfold policy_time_entries_delete. apply N.eqb_neq.
  intros Eu. apply (Hforeign x Hx E). symmetry. exact Eu.
Qed.

(** ** The manual-entry form *)

Lemma Qden_one_inject (q : Q) : Zpos (Qden q) = 1 -> q = inject_Z (Qnum q).
Proof. destruct q as [n d]. cbn. intros [= ->]. reflexivity. Qed.

(** The durations the input lets through: the quarter hours from 0.25
    to 24. *)
Lemma duration_input_valid_iff v :
  duration_input_valid (Some v) = true
  <-> exists k, 1 <= k <= 96 /\ (v == inject_Z k * 0.25)%Q.
Proof.
  unfold duration_input_valid. rewrite !andb_true_iff, !Qle_bool_iff, Z.eqb_eq. split.
  - intros [[Hmin Hmax] Hstep].
    pose proof (Qred_correct ((v - 0.25) / 0.25)) as Hq.
    rewrite (Qden_one_inject _ Hstep) in Hq.
    set (m := Qnum (Qred ((v - 0.25) / 0.25))) in *.
    assert (Hv : (v == inject_Z (m + 1) * 0.25)%Q).
    { rewrite inject_Z_plus.
      assert (v - 0.25 == inject_Z m * 0.25)%Q by (rewrite Hq; field).
      change (inject_Z 1) with 1%Q. lra. }
    exists (m + 1). split; [|exact Hv].
    rewrite Hv in Hmin, Hmax. split.
    + rewrite Zle_Qle. change (inject_Z 1) with 1%Q. lra.
    + rewrite Zle_Qle. change (inject_Z 96) with 96%Q. lra.
  - intros (k & [Hk1 Hk2] & Hv).
    rewrite Zle_Qle in Hk1, Hk2.
    change (inject_Z 1) with 1%Q in Hk1. change (inject_Z 96) with 96%Q in Hk2.
    repeat split; try lra.
    assert (E : ((v - 0.25) / 0.25 == inject_Z (k - 1))%Q).
    { rewrite Hv. unfold Z.sub. rewrite inject_Z_plus, inject_Z_opp.
      change (inject_Z 1) with 1%Q. field. }
    rewrite (Qred_complete _ _ E).
    rewrite Qred_identity; [reflexivity|]. cbn. apply Z.gcd_1_r.
Qed.

Lemma toISOString_whole t m :
  (t == inject_Z m)%Q ->
  -8640000000000000 <= m <= 8640000000000000 ->
  toISOString t = Some m.
Proof.
  intros E Hm. unfold toISOString.
  assert (Hq : Z.quot (Qnum t) (Zpos (Qden t)) = m).
  { unfold Qeq in E. cbn in E. rewrite Z.mul_1_r in E. rewrite E.
    apply Z.quot_mul. lia. }
  rewrite Hq.
  destruct (_ <=? m) eqn:E1; destruct (m <=? _) eqn:E2; try reflexivity; lia.
Qed.

(** The rates the input lets through: the whole numbers of hundredths
    from zero on. *)
Lemma hourly_rate_input_valid_iff v :
  hourly_rate_input_valid (Some v) = true
  <-> exists c, 0 <= c /\ (v == inject_Z c * 0.01)%Q.
Proof.
  unfold hourly_rate_input_valid. rewrite andb_true_iff, Qle_bool_iff, Z.eqb_eq. split.
  - intros [Hmin Hstep].
    pose proof (Qred_correct ((v - 0) / 0.01)) as Hq.
    rewrite (Qden_one_inject _ Hstep) in Hq.
    set (m := Qnum (Qred ((v - 0) / 0.01))) in *.
    assert (Hv : (v == inject_Z m * 0.01)%Q) by (rewrite Hq; field).
    exists m. split; [|exact Hv].
    rewrite Hv in Hmin. rewrite Zle_Qle. change (inject_Z 0) with 0%Q. lra.
  - intros (c & Hc & Hv).
    rewrite Zle_Qle in Hc. change (inject_Z 0) with 0%Q in Hc.
    split; [lra|].
    assert (E : ((v - 0) / 0.01 == inject_Z c)%Q) by (rewrite Hv; field).
    rewrite (Qred_complete _ _ E).
    rewrite Qred_identity; [reflexivity|]. cbn. apply Z.gcd_1_r.
Qed.

Lemma DECIMAL_10_2_Ok q rate : DECIMAL_10_2 q = Ok rate -> rate = ROUND2 q.
Proof.
  unfold DECIMAL_10_2. destruct (_ && _); [|discriminate]. intros [= <-]. reflexivity.
Qed.

(** When the browser lets the form through. *)
Lemma form_valid_iff fd :
  form_valid fd = true
  <-> (exists t, fd_startDateTime fd = Some t)
      /\ (exists v k, fd_duration_hours fd = Some v /\ 1 <= k <= 96
                      /\ (v == inject_Z k * 0.25)%Q)
      /\ (fd_billable fd = true ->
          forall q, fd_hourly_rate fd = Some q ->
                    exists c, 0 <= c /\ (q == inject_Z c * 0.01)%Q).
Proof.
  unfold form_valid, date_and_time_inputs_valid. rewrite !andb_true_iff. split.
  - intros [[Hdate Hduration] Hrate]. split; [|split].
    + destruct (fd_startDateTime fd) as [t|]; [eauto|discriminate].
    + destruct (fd_duration_hours fd) as [v|] eqn:Hd; [|discriminate].
      apply duration_input_valid_iff in Hduration.
      destruct Hduration as (k & Hk & Hv). eauto.
    + intros Hb q Hq. rewrite Hb, Hq in Hrate.
      apply hourly_rate_input_valid_iff. exact Hrate.
  - intros ([t Ht] & (v & k & Hd & Hk & Hv) & Hrate). split; [split|].
    + rewrite Ht. reflexivity.
    + rewrite Hd. apply duration_input_valid_iff. eauto.
    + destruct (fd_billable fd); [|reflexivity].
      destruct (fd_hourly_rate fd) as [q|]; [|reflexivity].
      apply hourly_rate_input_valid_iff. exact (Hrate eq_refl q eq_refl).
Qed.


(** ** Reports *)

(** *** Rounding respects equality of rationals *)

Lemma Zdiv_cross a b a' b' :
  0 < b -> 0 < b' -> a * b' = a' * b -> a / b = a' / b'.
Proof.
  intros Hb Hb' E.
  pose proof (Z.div_mod a b ltac:(lia)) as Hq.
  pose proof (Z.mod_pos_bound a b Hb) as Hr.
  apply (Z.div_unique_pos a' b' (a / b) (a' - b' * (a / b))); [|lia].
  assert (Hrb : (a' - b' * (a / b)) * b = (a mod b) * b') by nia.
  split; nia.
Qed.

Lemma Qround_half_away_comp p q : (p == q)%Q -> Qround_half_away p = Qround_half_away q.
Proof.
  destruct p as [n d], q as [n' d']. unfold Qeq, Qround_half_away, round_half_away.
  cbn [Qnum Qden]. intros E.
  assert (Hsign : (0 <=? n) = (0 <=? n')).
  { pose proof (Pos2Z.is_pos d). pose proof (Pos2Z.is_pos d').
    destruct (Z.leb_spec 0 n), (Z.leb_spec 0 n'); try reflexivity; exfalso.
    - pose proof (Z.mul_nonneg_nonneg n (Z.pos d')).
      pose proof (Z.mul_neg_pos n' (Z.pos d)). lia.
    - pose proof (Z.mul_nonneg_nonneg n' (Z.pos d)).
      pose proof (Z.mul_neg_pos n (Z.pos d')). lia. }
  rewrite <- Hsign. destruct (0 <=? n).
  - apply Zdiv_cross; [lia|lia|nia].
  - f_equal. apply Zdiv_cross; [lia|lia|nia].
Qed.

Lemma ROUND2_comp p q : (p == q)%Q -> ROUND2 p = ROUND2 q.
Proof.
  intros E. unfold ROUND2. f_equal. apply Qround_half_away_comp.
  rewrite E. reflexivity.
Qed.

Lemma Qround_half_away_near q :
  (- (1 # 2) <= inject_Z (Qround_half_away q) - q <= 1 # 2)%Q.
Proof.
  destruct q as [n d]. unfold Qround_half_away. cbn [Qnum Qden].
  pose proof (round_half_away_nearest n (Zpos d) ltac:(lia)) as H.
  set (r := round_half_away n (Zpos d)) in *.
  unfold Qle, Qminus, Qplus, Qopp, inject_Z. cbn [Qnum Qden].
  rewrite !Pos2Z.inj_mul. split; nia.
Qed.

Lemma Qround_half_away_le p q :
  (p <= q)%Q -> Qround_half_away p <= Qround_half_away q.
Proof.
  intros Hpq.
  destruct (Z_le_gt_dec (Qround_half_away p) (Qround_half_away q)) as [H|H]; [exact H|].
  exfalso.
  pose proof (Qround_half_away_near p) as [_ Hp].
  pose proof (Qround_half_away_near q) as [Hq _].
  assert (Hr : (inject_Z (Qround_half_away q) + 1 <= inject_Z (Qround_half_away p))%Q).
  { change 1%Q with (inject_Z 1). rewrite <- inject_Z_plus, <- Zle_Qle. lia. }
  assert (E : (p == q)%Q) by lra.
  apply Qround_half_away_comp in E. lia.
Qed.

Lemma ROUND2_near q : (- (1 # 200) <= ROUND2 q - q <= 1 # 200)%Q.
Proof.
  unfold ROUND2. pose proof (Qround_half_away_near (q * 100)) as H.
  set (r := Qround_half_away (q * 100)) in *.
  assert (E : (r # 100 == inject_Z r * (1 # 100))%Q).
  { unfold Qeq, Qmult, inject_Z. cbn [Qnum Qden]. lia. }
  rewrite E. lra.
Qed.

Lemma ROUND2_le p q : (p <= q)%Q -> (ROUND2 p <= ROUND2 q)%Q.
Proof.
  intros H. unfold ROUND2, Qle. cbn [Qnum Qden].
  assert (Qround_half_away (p * 100) <= Qround_half_away (q * 100)).
  { apply Qround_half_away_le. lra. }
  lia.
Qed.

(** *** Division of decimals *)

(** Powers and products of constants, evaluated where they stand. *)
Ltac powers :=
  repeat match goal with
         | |- context [Z.pow (Zpos ?a) (Zpos ?b)] =>
             let v := eval vm_compute in (Z.pow (Zpos a) (Zpos b)) in
             change (Z.pow (Zpos a) (Zpos b)) with v in *
         | H : context [Z.pow (Zpos ?a) (Zpos ?b)] |- _ =>
             let v := eval vm_compute in (Z.pow (Zpos a) (Zpos b)) in
             change (Z.pow (Zpos a) (Zpos b)) with v in *
         | |- context [Z.mul (Zpos ?a) (Zpos ?b)] =>
             let v := eval vm_compute in (Z.mul (Zpos a) (Zpos b)) in
             change (Z.mul (Zpos a) (Zpos b)) with v in *
         | H : context [Z.mul (Zpos ?a) (Zpos ?b)] |- _ =>
             let v := eval vm_compute in (Z.mul (Zpos a) (Zpos b)) in
             change (Z.mul (Zpos a) (Zpos b)) with v in *
         end.

Lemma leading_digit_small fuel a w :
  a < NBASE -> leading_digit fuel a w = (w, a).
Proof.
  intros H. destruct fuel as [|fuel]; cbn [leading_digit]; [reflexivity|].
  apply Z.ltb_lt in H. rewrite H. reflexivity.
Qed.

Lemma leading_digit_step fuel a w :
  NBASE <= a -> leading_digit (S fuel) a w = leading_digit fuel (a / NBASE) (w + 1).
Proof.
  intros H. cbn [leading_digit].
  destruct (a <? NBASE) eqn:E; [apply Z.ltb_lt in E; lia|reflexivity].
Qed.

Lemma leading_digit_weight fuel a w : w <= fst (leading_digit fuel a w).
Proof.
  revert a w. induction fuel as [|fuel IH]; intros a w; cbn [leading_digit].
  - cbn. lia.
  - destruct (a <? NBASE); [cbn; lia|].
    specialize (IH (a / NBASE) (w + 1)). lia.
Qed.

Lemma enough_digits a k :
  2 ^ k <= a -> exists fuel, Z.to_nat (Z.log2 a) = (Z.to_nat k + fuel)%nat.
Proof.
  intros H. destruct (Z.le_gt_cases 0 k) as [Hk|Hk].
  - exists (Z.to_nat (Z.log2 a) - Z.to_nat k)%nat.
    assert (k <= Z.log2 a).
    { rewrite <- (Z.log2_pow2 k Hk). apply Z.log2_le_mono. exact H. }
    lia.
  - exists (Z.to_nat (Z.log2 a)). lia.
Qed.

Lemma weight_and_first_digit_0 d :
  Z.abs d < 10000 -> weight_and_first_digit d = (0, Z.abs d).
Proof. intros H. apply leading_digit_small. exact H. Qed.

Lemma weight_and_first_digit_1 d :
  10000 <= Z.abs d < 10000 ^ 2 ->
  weight_and_first_digit d = (1, Z.abs d / 10000).
Proof.
  intros [Hlo Hhi]. unfold weight_and_first_digit.
  powers. assert (Hfuel : 2 ^ 1 <= Z.abs d) by (powers; lia).
  destruct (enough_digits (Z.abs d) 1 Hfuel) as [fuel ->].
  change (Z.to_nat 1 + fuel)%nat with (S fuel).
  rewrite leading_digit_step by exact Hlo.
  apply leading_digit_small. unfold NBASE.
  Z.to_euclidean_division_equations. lia.
Qed.

Lemma weight_and_first_digit_2 d :
  10000 ^ 2 <= Z.abs d < 10000 ^ 3 ->
  weight_and_first_digit d = (2, Z.abs d / 10000 ^ 2).
Proof.
  intros [Hlo Hhi]. unfold weight_and_first_digit.
  powers. assert (Hfuel : 2 ^ 2 <= Z.abs d) by (powers; lia).
  destruct (enough_digits (Z.abs d) 2 Hfuel) as [fuel ->].
  change (Z.to_nat 2 + fuel)%nat with (S (S fuel)).
  rewrite !leading_digit_step
    by (unfold NBASE; Z.to_euclidean_division_equations; lia).
  unfold NBASE. rewrite Z.div_div by lia. powers.
  apply leading_digit_small. unfold NBASE.
  Z.to_euclidean_division_equations. lia.
Qed.

Lemma weight_and_first_digit_3 d :
  10000 ^ 3 <= Z.abs d < 10000 ^ 4 ->
  weight_and_first_digit d = (3, Z.abs d / 10000 ^ 3).
Proof.
  intros [Hlo Hhi]. unfold weight_and_first_digit.
  powers. assert (Hfuel : 2 ^ 3 <= Z.abs d) by (powers; lia).
  destruct (enough_digits (Z.abs d) 3 Hfuel) as [fuel ->].
  change (Z.to_nat 3 + fuel)%nat with (S (S (S fuel))).
  rewrite !leading_digit_step
    by (unfold NBASE; Z.to_euclidean_division_equations; lia).
  unfold NBASE. rewrite !Z.div_div by lia. powers.
  apply leading_digit_small. unfold NBASE.
  Z.to_euclidean_division_equations. lia.
Qed.

Lemma weight_and_first_digit_4 d :
  10000 ^ 4 <= Z.abs d < 10000 ^ 5 ->
  weight_and_first_digit d = (4, Z.abs d / 10000 ^ 4).
Proof.
  intros [Hlo Hhi]. unfold weight_and_first_digit.
  powers. assert (Hfuel : 2 ^ 4 <= Z.abs d) by (powers; lia).
  destruct (enough_digits (Z.abs d) 4 Hfuel) as [fuel ->].
  change (Z.to_nat 4 + fuel)%nat with (S (S (S (S fuel)))).
  rewrite !leading_digit_step
    by (unfold NBASE; Z.to_euclidean_division_equations; lia).
  unfold NBASE. rewrite !Z.div_div by lia. powers.
  apply leading_digit_small. unfold NBASE.
  Z.to_euclidean_division_equations. lia.
Qed.

Lemma weight_and_first_digit_5 d :
  10000 ^ 5 <= Z.abs d -> 5 <= fst (weight_and_first_digit d).
Proof.
  intros Hlo. unfold weight_and_first_digit.
  powers. assert (Hfuel : 2 ^ 5 <= Z.abs d) by (powers; lia).
  destruct (enough_digits (Z.abs d) 5 Hfuel) as [fuel ->].
  change (Z.to_nat 5 + fuel)%nat with (S (S (S (S (S fuel))))).
  rewrite !leading_digit_step
    by (unfold NBASE; Z.to_euclidean_division_equations; lia).
  apply leading_digit_weight.
Qed.

(** The comparisons of a goal, split; what remains is arithmetic. *)
Ltac by_cases :=
  repeat match goal with
         | |- context [Z.leb ?a ?b] => destruct (Z.leb_spec a b)
         | |- context [Z.ltb ?a ?b] => destruct (Z.ltb_spec a b)
         end;
  first [reflexivity | lia | exfalso; Z.to_euclidean_division_equations; lia].

Lemma select_div_scale_3600 d : select_div_scale d 3600 = decimal_places d.
Proof.
  unfold select_div_scale, decimal_places.
  change (weight_and_first_digit 3600) with (0, 3600).
  unfold NUMERIC_MIN_SIG_DIGITS, DEC_DIGITS, NUMERIC_MAX_DISPLAY_SCALE. powers.
  destruct (Z.lt_ge_cases (Z.abs d) 10000) as [H0|H0].
  { rewrite (weight_and_first_digit_0 d H0). by_cases. }
  destruct (Z.lt_ge_cases (Z.abs d) (10000 ^ 2)) as [H1|H1].
  { rewrite (weight_and_first_digit_1 d (conj H0 H1)). powers. by_cases. }
  destruct (Z.lt_ge_cases (Z.abs d) (10000 ^ 3)) as [H2|H2].
  { rewrite (weight_and_first_digit_2 d (conj H1 H2)). powers. by_cases. }
  destruct (Z.lt_ge_cases (Z.abs d) (10000 ^ 4)) as [H3|H3].
  { rewrite (weight_and_first_digit_3 d (conj H2 H3)). powers. by_cases. }
  destruct (Z.lt_ge_cases (Z.abs d) (10000 ^ 5)) as [H4|H4].
  { rewrite (weight_and_first_digit_4 d (conj H3 H4)). powers. by_cases. }
  pose proof (weight_and_first_digit_5 d H4) as H5.
  destruct (weight_and_first_digit d) as [w f]. cbn [fst] in H5. powers.
  by_cases.
Qed.

(** Rounding to at least four decimals and then to two gives what
    rounding the hours to two decimals at once gives. *)
Lemma round_half_away_opp n d : 0 < d -> round_half_away (- n) d = - round_half_away n d.
Proof.
  intros Hd. unfold round_half_away.
  destruct (Z.leb_spec 0 n), (Z.leb_spec 0 (- n)); try lia.
  - assert (n = 0) by lia. subst. rewrite Z.opp_0, Z.mul_0_r, Z.add_0_l.
    rewrite Z.div_small; lia.
  - rewrite Z.opp_involutive. lia.
Qed.

Lemma round_twice_nonneg A d :
  0 <= d -> 10 <= A ->
  round_half_away (round_half_away (d * (100 * (2 * A))) 3600 * 100) (100 * (2 * A))
  = round_half_away (d * 100) 3600.
Proof.
  intros Hd HA. unfold round_half_away.
  destruct (Z.leb_spec 0 (d * (100 * (2 * A)))); [|nia].
  destruct (Z.leb_spec 0 (d * 100)); [|lia].
  set (r1 := (2 * (d * (100 * (2 * A))) + 3600) / (2 * 3600)).
  assert (0 <= r1) by (apply Z.div_pos; nia).
  destruct (Z.leb_spec 0 (r1 * 100)); [|lia].
  set (k := (2 * (d * 100) + 3600) / (2 * 3600)).
  symmetry. apply Z.div_unique_pos with (r := 2 * (r1 * 100) + 100 * (2 * A) - k * (2 * (100 * (2 * A)))); [|lia].
  subst r1 k. Z.to_euclidean_division_equations. nia.
Qed.

Lemma round_twice A d :
  10 <= A ->
  round_half_away (round_half_away (d * (100 * (2 * A))) 3600 * 100) (100 * (2 * A))
  = round_half_away (d * 100) 3600.
Proof.
  intros HA. destruct (Z.le_gt_cases 0 d) as [Hd|Hd].
  - apply round_twice_nonneg; assumption.
  - pose proof (round_twice_nonneg A (- d) ltac:(lia) HA) as H.
    replace (- d * (100 * (2 * A))) with (- (d * (100 * (2 * A)))) in H by lia.
    rewrite (round_half_away_opp _ 3600) in H by lia.
    replace (- round_half_away (d * (100 * (2 * A))) 3600 * 100)
      with (- (round_half_away (d * (100 * (2 * A))) 3600 * 100)) in H by lia.
    rewrite (round_half_away_opp _ (100 * (2 * A))) in H by lia.
    replace (- d * 100) with (- (d * 100)) in H by lia.
    rewrite (round_half_away_opp _ 3600) in H by lia.
    lia.
Qed.

Lemma Qround_half_away_make n p : Qround_half_away (n # p) = round_half_away n (Zpos p).
Proof. reflexivity. Qed.

Lemma pow10_pos s : 0 < 10 ^ s \/ 10 ^ s = 0.
Proof.
  destruct (Z.le_gt_cases 0 s).
  - left. apply Z.pow_pos_nonneg; lia.
  - right. apply Z.pow_neg_r. lia.
Qed.

Lemma round_at_hours s A d :
  10 <= A -> 10 ^ s = 100 * (2 * A) ->
  ROUND2 (round_at s (inject_Z d / 3600)) = ROUND2 (inject_Z d / 3600).
Proof.
  intros HA Hs. unfold ROUND2, round_at. f_equal.
  rewrite Hs.
  assert (Hp : Zpos (Z.to_pos (100 * (2 * A))) = 100 * (2 * A)) by (apply Z2Pos.id; lia).
  rewrite (Qround_half_away_comp (inject_Z d / 3600 * inject_Z (100 * (2 * A)))
             ((d * (100 * (2 * A))) # 3600)).
  2:{ unfold Qeq, Qdiv, Qmult, Qinv, inject_Z. cbn [Qnum Qden]. lia. }
  rewrite Qround_half_away_make.
  rewrite (Qround_half_away_comp
             ((round_half_away (d * (100 * (2 * A))) 3600 # Z.to_pos (100 * (2 * A))) * 100)
             ((round_half_away (d * (100 * (2 * A))) 3600 * 100) # Z.to_pos (100 * (2 * A)))).
  2:{ unfold Qeq, Qmult. cbn [Qnum Qden]. lia. }
  rewrite Qround_half_away_make, Hp.
  rewrite (Qround_half_away_comp (inject_Z d / 3600 * 100) ((d * 100) # 3600)).
  2:{ unfold Qeq, Qdiv, Qmult, Qinv, inject_Z. cbn [Qnum Qden]. lia. }
  rewrite Qround_half_away_make.
  apply round_twice. exact HA.
Qed.

Lemma ROUND2_numeric_div d :
  Z.abs d < 3601 * 10 ^ 16 ->
  ROUND2 (numeric_div d 3600) = ROUND2 (inject_Z d / 3600).
Proof.
  intros Hd. unfold numeric_div. rewrite select_div_scale_3600.
  unfold decimal_places.
  repeat match goal with
         | |- context [Z.leb ?a ?b] => destruct (Z.leb_spec a b)
         | |- context [Z.ltb ?a ?b] => destruct (Z.ltb_spec a b)
         end; try lia.
  - apply (round_at_hours 20 (5 * 10 ^ 17)); [powers; lia|reflexivity].
  - apply (round_at_hours 16 (5 * 10 ^ 13)); [powers; lia|reflexivity].
  - apply (round_at_hours 12 (5 * 10 ^ 9)); [powers; lia|reflexivity].
  - apply (round_at_hours 8 (5 * 10 ^ 5)); [powers; lia|reflexivity].
  - apply (round_at_hours 4 50); [lia|reflexivity].
Qed.

Lemma numeric_div_hours d : numeric_div d 3600 = decimal_hours d.
Proof. unfold numeric_div, decimal_hours. rewrite select_div_scale_3600. reflexivity. Qed.

Lemma round_at_le s p q : (p <= q)%Q -> (round_at s p <= round_at s q)%Q.
Proof.
  intros H. unfold round_at, Qle. cbn [Qnum Qden].
  assert (Qround_half_away (p * inject_Z (10 ^ s)) <= Qround_half_away (q * inject_Z (10 ^ s))).
  { apply Qround_half_away_le. apply Qmult_le_compat_r; [exact H|].
    change 0%Q with (inject_Z 0). rewrite <- Zle_Qle.
    destruct (pow10_pos s); lia. }
  nia.
Qed.

Lemma round_at_near_const (P : positive) q :
  (- (1 # (2 * P))
   <= (Qround_half_away (q * inject_Z (Zpos P)) # P) - q
   <= 1 # (2 * P))%Q.
Proof.
  destruct q as [n m]. unfold Qround_half_away, Qmult, inject_Z. cbn [Qnum Qden].
  pose proof (round_half_away_nearest (n * Zpos P) (Zpos (m * 1)) ltac:(lia)) as H.
  set (r := round_half_away (n * Zpos P) (Zpos (m * 1))) in *.
  unfold Qle, Qminus, Qplus, Qopp. cbn [Qnum Qden].
  rewrite !Pos2Z.inj_mul in *. rewrite Z.mul_1_r in H.
  assert (0 < Zpos P) by lia. assert (0 < Zpos m) by lia.
  set (p := Zpos P) in *. set (k := Zpos m) in *.
  split; nia.
Qed.

Lemma numeric_div_near d :
  int4_in_range d = true ->
  (- (1 # 2000000000000)
   <= numeric_div d 3600 - inject_Z d / 3600
   <= 1 # 2000000000000)%Q.
Proof.
  intros Hd. unfold int4_in_range in Hd. apply andb_prop in Hd.
  destruct Hd as [Hlo Hhi]. apply Z.leb_le in Hlo, Hhi.
  unfold numeric_div. rewrite select_div_scale_3600. unfold decimal_places, round_at.
  repeat match goal with
         | |- context [Z.leb ?a ?b] => destruct (Z.leb_spec a b)
         | |- context [Z.ltb ?a ?b] => destruct (Z.ltb_spec a b)
         end; try (exfalso; powers; lia).
  - pose proof (round_at_near_const (Z.to_pos (10 ^ 20)) (inject_Z d / 3600)) as Hnear.
    change (Zpos (Z.to_pos (10 ^ 20))) with (10 ^ 20) in Hnear.
    set (x := ((Qround_half_away (inject_Z d / 3600 * inject_Z (10 ^ 20))
                # Z.to_pos (10 ^ 20)) - inject_Z d / 3600)%Q) in *.
    destruct Hnear as [H1 H2]. split.
    + eapply Qle_trans; [|exact H1]. unfold Qle. vm_compute. discriminate.
    + eapply Qle_trans; [exact H2|]. unfold Qle. vm_compute. discriminate.
  - pose proof (round_at_near_const (Z.to_pos (10 ^ 16)) (inject_Z d / 3600)) as Hnear.
    change (Zpos (Z.to_pos (10 ^ 16))) with (10 ^ 16) in Hnear.
    set (x := ((Qround_half_away (inject_Z d / 3600 * inject_Z (10 ^ 16))
                # Z.to_pos (10 ^ 16)) - inject_Z d / 3600)%Q) in *.
    destruct Hnear as [H1 H2]. split.
    + eapply Qle_trans; [|exact H1]. unfold Qle. vm_compute. discriminate.
    + eapply Qle_trans; [exact H2|]. unfold Qle. vm_compute. discriminate.
  - pose proof (round_at_near_const (Z.to_pos (10 ^ 12)) (inject_Z d / 3600)) as Hnear.
    change (Zpos (Z.to_pos (10 ^ 12))) with (10 ^ 12) in Hnear.
    exact Hnear.
Qed.

Lemma hours_shown_le b t :
  0 <= b <= t ->
  (ROUND2 (numeric_div b 3600) <= ROUND2 (numeric_div t 3600))%Q.
Proof.
  intros [Hb Hbt].
  assert (Hdiv : forall x y, x <= y -> (inject_Z x / 3600 <= inject_Z y / 3600)%Q).
  { intros x y Hxy. apply Qmult_le_compat_r; [|discriminate].
    rewrite <- Zle_Qle. exact Hxy. }
  destruct (Z.lt_ge_cases t (3601 * 10 ^ 16)) as [Ht|Ht].
  - rewrite !ROUND2_numeric_div by lia. apply ROUND2_le, Hdiv, Hbt.
  - assert (Hbig : forall x, 3601 * 10 ^ 16 <= x ->
                     numeric_div x 3600 = round_at 0 (inject_Z x / 3600)).
    { intros x Hx. unfold numeric_div. rewrite select_div_scale_3600.
      unfold decimal_places.
      repeat match goal with
             | |- context [Z.leb ?a ?b] => destruct (Z.leb_spec a b)
             | |- context [Z.ltb ?a ?b] => destruct (Z.ltb_spec a b)
             end; try (exfalso; powers; lia).
      reflexivity. }
    destruct (Z.lt_ge_cases b (3601 * 10 ^ 16)) as [Hb'|Hb'].
    + rewrite (Hbig t Ht), ROUND2_numeric_div by lia.
      apply Qle_trans with (ROUND2 (inject_Z (3601 * 10 ^ 16 - 1) / 3600)).
      { apply ROUND2_le, Hdiv. lia. }
      apply Qle_trans with (ROUND2 (round_at 0 (inject_Z (3601 * 10 ^ 16) / 3600))).
      { unfold Qle. vm_compute. discriminate. }
      apply ROUND2_le, round_at_le, Hdiv, Ht.
    + rewrite (Hbig t Ht), (Hbig b Hb'). apply ROUND2_le, round_at_le, Hdiv, Hbt.
Qed.

(** *** SQL sums and plain sums *)

Lemma COALESCE_rate a b : COALESCE [a; b; Some 0%Q] = Some (effective_rate a b).
Proof. destruct a, b; reflexivity. Qed.

Lemma SUM_Z_seconds (l : list time_entry) :
  COALESCE [SUM_Z (map time_entries.duration_seconds (filter has_duration l)); Some 0]
  = Some (total_seconds l).
Proof.
  unfold total_seconds.
  induction l as [|te l IH]; [reflexivity|].
  cbn [filter]. destruct (has_duration te) eqn:Hh; [|exact IH].
  unfold has_duration in Hh.
  destruct (time_entries.duration_seconds te) as [d|] eqn:Hd; [|discriminate].
  cbn [map SUM_Z fold_right]. unfold seconds_of at 1. rewrite Hd.
  cbn [COALESCE] in IH.
  destruct (SUM_Z (map time_entries.duration_seconds (filter has_duration l))) as [z|].
  - injection IH as <-. reflexivity.
  - injection IH as <-. cbn [COALESCE]. f_equal. lia.
Qed.

Lemma total_seconds_hours (l : list time_entry) :
  (inject_Z (total_seconds l) / 3600 == sum_of_hours l)%Q.
Proof.
  unfold total_seconds, sum_of_hours, sum_Q.
  induction (filter has_duration l) as [|te l' IH]; [reflexivity|].
  cbn [map fold_right]. rewrite inject_Z_plus.
  setoid_replace (fold_right Qplus 0%Q (map hours_of l'))
    with (inject_Z (fold_right Z.add 0%Z (map seconds_of l')) / 3600)%Q
    by (symmetry; exact IH).
  unfold hours_of, seconds_of.
  destruct (time_entries.duration_seconds te) as [d|]; [field|].
  change (inject_Z 0) with 0%Q. field.
Qed.

Lemma SUM_Q_total (f : time_entry -> option Q) (g : time_entry -> Q) l :
  (forall te, In te l -> f te = Some (g te)) ->
  exists s,
    COALESCE [SUM_Q (map f l); Some 0%Q] = Some s
    /\ (s == sum_Q (map g l))%Q.
Proof.
  induction l as [|te l IH]; intros Hall.
  - exists 0%Q. split; reflexivity.
  - destruct IH as (s & Hs & Hsum); [intros y Hy; apply Hall; right; exact Hy|].
    cbn [map sum_Q fold_right SUM_Q]. rewrite (Hall te (or_introl eq_refl)).
    fold (sum_Q (map g l)). cbn [COALESCE] in Hs.
    destruct (SUM_Q (map f l)) as [s'|].
    + injection Hs as <-. eexists. split; [reflexivity|].
      rewrite <- Hsum. reflexivity.
    + injection Hs as <-. eexists. split; [reflexivity|].
      rewrite <- Hsum. ring.
Qed.

Lemma filter_filter {A} (p q : A -> bool) l :
  filter (fun x => p x && q x) l = filter q (filter p l).
Proof.
  induction l as [|x l IH]; cbn; [reflexivity|].
  destruct (p x); cbn; [destruct (q x)|]; rewrite IH; reflexivity.
Qed.

Lemma filter_In_true {A} (p : A -> bool) l x : In x (filter p l) -> p x = true.
Proof. intros H. apply filter_In in H. tauto. Qed.

(** *** Who reads what *)

Lemma filter_unique {A} (key : A -> N) (p : A -> bool) l x :
  NoDup (map key l) -> In x l -> p x = true ->
  (forall y, p y = true -> key y = key x) ->
  filter p l = [x].
Proof.
  induction l as [|z l IH]; intros Hnd Hx Hpx Hkey; [destruct Hx|].
  cbn in Hnd. inversion Hnd as [|? ? Hz Hnd']; subst. cbn.
  destruct Hx as [->|Hx].
  - rewrite Hpx. f_equal. apply filter_none.
    intros y Hy. destruct (p y) eqn:Hpy; [|reflexivity].
    exfalso. apply Hz. rewrite <- (Hkey y Hpy). apply in_map. exact Hy.
  - destruct (p z) eqn:Hpz; [|auto].
    exfalso. apply Hz. rewrite (Hkey z Hpz). apply in_map. exact Hx.
Qed.

Lemma owner_reads_project user p :
  In p projects_tbl -> projects.user_id p = user ->
  In p (rls_projects (authenticated user)).
Proof.
  intros Hp Hu. cbn. apply filter_In. split; [exact Hp|].
  unfold policy_projects_select. rewrite Hu, N.eqb_refl. reflexivity.
Qed.

Lemma owner_reads_entries user p te :
  In p projects_tbl -> projects.user_id p = user ->
  time_entries.project_id te = projects.id p ->
  rls policy_time_entries_select (authenticated user) te = true.
Proof.
  intros Hp Hu Hte. cbn. unfold policy_time_entries_select.
  apply orb_true_iff. right. apply existsb_exists. exists p. split.
  - apply owner_reads_project; assumption.
  - rewrite Hte, Hu, !N.eqb_refl. reflexivity.
Qed.

(** The decimals of the hours of a duration that fits [INTEGER]. *)
Lemma decimal_hours_int4 d :
  int4_in_range d = true ->
  decimal_hours d
  = round_at (if Z.abs d <=? 3600 then 20
              else if Z.abs d <? 36010000 then 16 else 12)
      (inject_Z d / 3600).
Proof.
  intros Hd. unfold decimal_hours. f_equal.
  unfold int4_in_range in Hd. apply andb_prop in Hd. destruct Hd as [Hlo Hhi].
  apply Z.leb_le in Hlo, Hhi. unfold decimal_places. powers.
  repeat match goal with
         | |- context [Z.leb ?a ?b] => destruct (Z.leb_spec a b)
         | |- context [Z.ltb ?a ?b] => destruct (Z.ltb_spec a b)
         end; first [reflexivity | lia].
Qed.

(** What the three functions return. *)
Lemma get_project_hours_seconds (l : list time_entry) :
  or_zero (lift1 ROUND2
             (seconds_to_hours
                (COALESCE [SUM_Z (map time_entries.duration_seconds (filter has_duration l));
                           Some 0])))
  = ROUND2 (numeric_div (total_seconds l) 3600).
Proof. rewrite SUM_Z_seconds. reflexivity. Qed.

Lemma totalHours_seconds user projectId tbl :
  totalHours (fetchTimeSummary user projectId tbl)
  = ROUND2 (numeric_div (total_seconds (readable_entries user projectId tbl)) 3600).
Proof.
  unfold fetchTimeSummary, get_project_total_hours, readable_entries.
  cbn [totalHours].
  rewrite (filter_filter (fun te => (time_entries.project_id te =? projectId)%N)
             (fun te => is_not_null (time_entries.duration_seconds te))).
  apply get_project_hours_seconds.
Qed.

Lemma billableHours_seconds user projectId tbl :
  billableHours (fetchTimeSummary user projectId tbl)
  = ROUND2 (numeric_div
              (total_seconds (filter is_billable (readable_entries user projectId tbl)))
              3600).
Proof.
  unfold fetchTimeSummary, get_project_billable_hours, readable_entries.
  cbn [billableHours].
  rewrite (filter_filter
             (fun te => (time_entries.project_id te =? projectId)%N
                        && IS_TRUE (time_entries.billable te))
             (fun te => is_not_null (time_entries.duration_seconds te))).
  rewrite (filter_filter (fun te => (time_entries.project_id te =? projectId)%N)
             (fun te => IS_TRUE (time_entries.billable te))).
  apply get_project_hours_seconds.
Qed.

Lemma int8_hours z :
  int8_in_range z = true ->
  ROUND2 (numeric_div z 3600) = ROUND2 (inject_Z z / 3600).
Proof.
  intros Hz. apply ROUND2_numeric_div.
  unfold int8_in_range in Hz. apply andb_prop in Hz. destruct Hz as [Hlo Hhi].
  apply Z.leb_le in Hlo, Hhi. powers. lia.
Qed.

Lemma billableAmount_decimal user projectId tbl :
  (billableAmount (fetchTimeSummary user projectId tbl)
   == ROUND2 (sum_of_decimal_amounts (select_project_rate (authenticated user) projectId)
                (readable_entries user projectId tbl)))%Q.
Proof.
  unfold fetchTimeSummary, get_project_billable_amount, sum_of_decimal_amounts,
    readable_entries.
  cbn [billableAmount].
  set (rate := select_project_rate (authenticated user) projectId).
  rewrite (filter_filter
             (fun te => (time_entries.project_id te =? projectId)%N
                        && IS_TRUE (time_entries.billable te))
             (fun te => is_not_null (time_entries.duration_seconds te))).
  rewrite (filter_filter (fun te => (time_entries.project_id te =? projectId)%N)
             (fun te => IS_TRUE (time_entries.billable te))).
  change (fun te : time_entries.row => is_not_null (time_entries.duration_seconds te))
    with has_duration.
  change (fun te : time_entries.row => IS_TRUE (time_entries.billable te))
    with is_billable.
  rewrite (filter_filter is_billable has_duration).
  match goal with
  | |- context [SUM_Q (map ?f ?l)] =>
      destruct (SUM_Q_total f
                  (fun te => (decimal_hours_of te
                              * effective_rate (time_entries.hourly_rate te) rate)%Q) l)
        as (s & Hs & Hsum)
  end.
  { intros te Hte. apply filter_In_true in Hte.
    unfold has_duration in Hte.
    rewrite COALESCE_rate. unfold decimal_hours_of, seconds_to_hours.
    destruct (time_entries.duration_seconds te) as [d|]; [|discriminate].
    cbn [lift2]. rewrite numeric_div_hours. reflexivity. }
  rewrite Hs. cbn. rewrite (ROUND2_comp _ _ Hsum). reflexivity.
Qed.

(** C4, as the code has it.  Each of the three totals is rounded to two
    decimals, and each ranges over the entries of the project that the
    caller may read.  The total and the billable hours are the rounded
    sums of the hours (seconds over 3600) of the readable entries with
    a duration, of all of them and of the billable ones, as long as the
    seconds summed fit the [BIGINT] variable that holds them.  The
    billable amount is the rounded sum, over the readable entries with
    [billable = TRUE] and a duration, of the entry's hours times the
    effective rate (the entry's rate, else the project's rate as far as
    the caller may read the project, else zero), where the hours of an
    entry are first rounded on their own: to 20 decimals up to an hour,
    to 16 decimals below 36,010,000 seconds and to 12 decimals above,
    for a duration that fits [INTEGER].  For the owner of the project
    the readable entries are all entries of the project and the
    project's rate is read. *)
Theorem project_totals_are_rounded_sums user projectId tbl :
  (int8_in_range (total_seconds (readable_entries user projectId tbl)) = true ->
   (totalHours (fetchTimeSummary user projectId tbl)
    == ROUND2 (sum_of_hours (readable_entries user projectId tbl)))%Q)
  /\ (int8_in_range
        (total_seconds (filter is_billable (readable_entries user projectId tbl))) = true ->
      (billableHours (fetchTimeSummary user projectId tbl)
       == ROUND2 (sum_of_hours (filter is_billable (readable_entries user projectId tbl))))%Q)
  /\ (billableAmount (fetchTimeSummary user projectId tbl)
      == ROUND2 (sum_of_decimal_amounts (select_project_rate (authenticated user) projectId)
                   (readable_entries user projectId tbl)))%Q
  /\ (forall d,
        int4_in_range d = true ->
        decimal_hours d
        = round_at (if Z.abs d <=? 3600 then 20
                    else if Z.abs d <? 36010000 then 16 else 12)
            (inject_Z d / 3600))
  /\ (forall p,
        NoDup (map projects.id projects_tbl) ->
        In p projects_tbl ->
        projects.id p = projectId ->
        projects.user_id p = user ->
        readable_entries user projectId tbl
          = filter (fun te => (time_entries.project_id te =? projectId)%N) tbl
        /\ select_project_rate (authenticated user) projectId = projects.hourly_rate p).
Proof.
  split; [|split; [|split; [|split]]].
  - intros Hfit. rewrite totalHours_seconds, (int8_hours _ Hfit).
    rewrite (ROUND2_comp _ _ (total_seconds_hours _)). reflexivity.
  - intros Hfit. rewrite billableHours_seconds, (int8_hours _ Hfit).
    rewrite (ROUND2_comp _ _ (total_seconds_hours _)). reflexivity.
  - apply billableAmount_decimal.
  - apply decimal_hours_int4.
  - intros p Hnd Hp Hid Hu. split.
    + unfold readable_entries, rls_time_entries.
      rewrite <- filter_filter. apply filter_ext_in. intros te Hte.
      destruct (time_entries.project_id te =? projectId)%N eqn:E; [|apply andb_false_r].
      apply N.eqb_eq in E.
      rewrite (owner_reads_entries user p te Hp Hu); [reflexivity|congruence].
    + unfold select_project_rate.
      rewrite (filter_unique projects.id _ (rls_projects (authenticated user)) p).
      * reflexivity.
      * cbn. clear -Hnd. induction projects_tbl as [|a l IH]; [constructor|].
        cbn in *. inversion Hnd; subst.
        destruct (policy_projects_select user a); cbn; auto.
        constructor; auto.
        intros Hin. apply in_map_iff in Hin. destruct Hin as (y & Ey & Hy).
        apply filter_In in Hy. destruct Hy as [Hy _].
        match goal with H : ~ In _ _ |- _ => apply H end.
        rewrite <- Ey. apply in_map. exact Hy.
      * apply owner_reads_project; assumption.
      * rewrite Hid. apply N.eqb_refl.
      * intros y Hy. apply N.eqb_eq in Hy. congruence.
Qed.

(** *** The list of entries *)

(** Where a row of [get_time_entries_with_details] comes from. *)
Lemma details_In r tbl p_project_id p_start_date p_end_date row :
  In row (get_time_entries_with_details r tbl p_project_id p_start_date p_end_date) ->
  exists te p t,
    In te tbl /\ In p projects_tbl /\ In t (left_join_tasks te)
    /\ projects.id p = time_entries.project_id te
    /\ match auth_uid r with
       | Some uid => projects.user_id p = uid
       | None => False
       end
    /\ row = details_row te p t.
Proof.
  unfold get_time_entries_with_details. intros Hrow.
  apply (Permutation_in _ (Permutation_sym (OrderByStartTimeDesc.Permuted_sort _))) in Hrow.
  apply in_flat_map in Hrow. destruct Hrow as (te & Hte & Hrow).
  apply in_flat_map in Hrow. destruct Hrow as (p & Hp & Hrow).
  destruct (projects.id p =? time_entries.project_id te)%N eqn:Hid; [|destruct Hrow].
  apply in_flat_map in Hrow. destruct Hrow as (t & Ht & Hrow).
  destruct (_ && _) eqn:Hwhere in Hrow; [|destruct Hrow].
  destruct Hrow as [<-|[]].
  apply andb_prop in Hwhere. destruct Hwhere as [_ Hauth].
  exists te, p, t. repeat split; auto.
  - apply N.eqb_eq. exact Hid.
  - destruct (auth_uid r); [|discriminate]. apply N.eqb_eq. exact Hauth.
Qed.

(** C5, as the code has it.  For every row the list returns, the amount
    is the hours times the effective rate (the entry's rate, else the
    project's, else zero), rounded to two decimals, and NULL while the
    entry has no duration; the hours are the seconds over 3600 rounded
    on their own before the product is formed: to 20 decimals up to an
    hour, to 16 decimals below 36,010,000 seconds and to 12 decimals
    above, for a duration that fits [INTEGER].  The amount is computed
    for every entry, whatever [billable] says.  It is the page that
    prints the amount of billable entries only. *)
Theorem entry_amount_is_computed_for_every_row
    r tbl p_project_id p_start_date p_end_date row :
  In row (get_time_entries_with_details r tbl p_project_id p_start_date p_end_date) ->
  exists te p,
    In te tbl /\ In p projects_tbl
    /\ projects.id p = time_entries.project_id te
    /\ time_entry_details.id row = time_entries.id te
    /\ time_entry_details.billable row = time_entries.billable te
    /\ time_entry_details.amount row
       = match time_entries.duration_seconds te with
         | Some d =>
             Some (ROUND2 (decimal_hours d
                           * effective_rate (time_entries.hourly_rate te)
                               (projects.hourly_rate p)))
         | None => None
         end
    /\ (forall d,
          time_entries.duration_seconds te = Some d ->
          int4_in_range d = true ->
          decimal_hours d
          = round_at (if Z.abs d <=? 3600 then 20
                      else if Z.abs d <? 36010000 then 16 else 12)
              (inject_Z d / 3600))
    /\ (TimeEntryItem_shows_amount row = true ->
        time_entry_details.billable row = Some true).
Proof.
  intros Hrow. apply details_In in Hrow.
  destruct Hrow as (te & p & t & Hte & Hp & _ & Hid & _ & ->).
  exists te, p. repeat split; auto.
  - unfold details_row. cbn [time_entry_details.amount]. rewrite COALESCE_rate.
    destruct (time_entries.duration_seconds te) as [d|]; [|reflexivity].
    unfold seconds_to_hours. cbn [lift1 lift2]. rewrite numeric_div_hours. reflexivity.
  - intros d _ Hd. apply decimal_hours_int4. exact Hd.
  - unfold TimeEntryItem_shows_amount. cbn. intros H.
    apply andb_prop in H. destruct H as [H _].
    destruct (time_entries.billable te) as [[|]|]; try discriminate. reflexivity.
Qed.

Lemma StronglySorted_start_time_desc l :
  StronglySorted (fun a b => is_true (StartTimeDesc.leb a b)) l ->
  StronglySorted
    (fun a b => time_entry_details.start_time b <= time_entry_details.start_time a) l.
Proof.
  induction 1 as [|a l Hl IH Ha]; constructor; [exact IH|].
  rewrite Forall_forall in *. intros b Hb.
  apply Z.leb_le. exact (Ha b Hb).
Qed.

(** C10.  Every row the list returns belongs to a project that the
    caller owns.  An entry that the caller made on a project owned by
    someone else is not in the list, although the select policy lets
    the caller read it.  The rows come latest start first. *)
Theorem list_shows_entries_of_own_projects
    user tbl p_project_id p_start_date p_end_date :
  primary_key tbl ->
  (forall row,
     In row (get_time_entries_with_details (authenticated user) tbl
               p_project_id p_start_date p_end_date) ->
     exists p, In p projects_tbl
               /\ projects.id p = time_entry_details.project_id row
               /\ projects.user_id p = user)
  /\ (forall te,
        In te tbl ->
        time_entries.user_id te = user ->
        (forall p, In p projects_tbl ->
                   projects.id p = time_entries.project_id te ->
                   projects.user_id p <> user) ->
        rls policy_time_entries_select (authenticated user) te = true
        /\ forall row,
             In row (get_time_entries_with_details (authenticated user) tbl
                       p_project_id p_start_date p_end_date) ->
             time_entry_details.id row <> time_entries.id te)
  /\ StronglySorted
       (fun a b => time_entry_details.start_time b <= time_entry_details.start_time a)
       (get_time_entries_with_details (authenticated user) tbl
          p_project_id p_start_date p_end_date).
Proof.
  intros Hpk. split; [|split].
  - intros row Hrow. apply details_In in Hrow.
    destruct Hrow as (te & p & t & _ & Hp & _ & Hid & Hown & ->).
    exists p. auto.
  - intros te Hte Hu Hforeign. split.
    + cbn. unfold policy_time_entries_select. rewrite Hu, N.eqb_refl. reflexivity.
    + intros row Hrow E. apply details_In in Hrow.
      destruct Hrow as (te' & p & t & Hte' & Hp & _ & Hid & Hown & ->).
      cbn in E, Hown.
      rewrite (primary_key_inj tbl te' te Hpk Hte' Hte E) in Hid.
      exact (Hforeign p Hp Hid Hown).
  - apply StronglySorted_start_time_desc.
    apply OrderByStartTimeDesc.StronglySorted_sort.
    intros a b c. unfold is_true, StartTimeDesc.leb. rewrite !Z.leb_le. lia.
Qed.

(** * More of the time tracking *)

(** ** What a user's statements leave alone *)

Lemma stop_if_foreign now u NEW x :
  time_entries.user_id x <> u ->
  stop_if now (authenticated u) NEW x = x.
Proof.
  intros Hx. unfold stop_if, reached. cbn [rls].
  unfold policy_time_entries_update.
  destruct (u =? time_entries.user_id x)%N eqn:E.
  - apply N.eqb_eq in E. congruence.
  - rewrite !andb_false_r. reflexivity.
Qed.

Lemma stop_if_owner now u NEW x :
  stop_if now (authenticated u) NEW x <> x -> time_entries.user_id x = u.
Proof.
  intros H. destruct (N.eq_dec (time_entries.user_id x) u) as [E|E]; [exact E|].
  exfalso. apply H. apply stop_if_foreign. exact E.
Qed.

(** X1.  Whatever an authenticated user inserts, updates or deletes,
    the entries of every other user stay exactly as they were: none is
    changed, removed or added, not even by the trigger that stops
    running timers. *)
Theorem statements_leave_other_users_entries_alone u tbl tbl' x :
  primary_key tbl ->
  step_by (authenticated u) tbl tbl' ->
  time_entries.user_id x <> u ->
  (In x tbl' <-> In x tbl).
Proof.
  intros Hpk Hstep Hx.
  assert (Hmap : forall now NEW1,
            In x (map (stop_if now (authenticated u) NEW1) tbl) <-> In x tbl).
  { intros now NEW1. rewrite in_map_iff. split.
    - intros (y & E & Hy).
      destruct (N.eq_dec (time_entries.user_id y) u) as [Ey|Ey].
      + exfalso. apply Hx. rewrite <- E, stop_if_user. exact Ey.
      + rewrite (stop_if_foreign now u NEW1 y Ey) in E. subst. exact Hy.
    - intros Hin. exists x. split; [apply stop_if_foreign; exact Hx|exact Hin]. }
  destruct Hstep as [depth now NEW tbl' H|depth now set i tbl' Hkey H|w tbl' H].
  - destruct (INSERT_Ok _ _ _ _ _ _ Hpk H) as (NEW1 & _ & _ & Hins & _ & ->).
    rewrite in_app_iff, Hmap. split; [|auto].
    intros [Hin|[<-|[]]]; [exact Hin|].
    exfalso. apply Hx. cbn in Hins. unfold policy_time_entries_insert in Hins.
    apply N.eqb_eq in Hins. auto.
  - pose proof (UPDATE_by_key_Ok _ _ _ _ _ _ _ Hpk H) as Hspec.
    unfold target in Hspec.
    destruct (lookup i tbl) as [OLD|] eqn:Hl; [|subst; tauto].
    destruct (_ && _) eqn:Hreach in Hspec; [|subst; tauto].
    destruct Hspec as (NEW1 & Hcalc & _ & Hupd & ->).
    apply andb_prop in Hreach. destruct Hreach as [_ Hold].
    cbn in Hold, Hupd. unfold policy_time_entries_update in Hold, Hupd.
    apply N.eqb_eq in Hold. apply N.eqb_eq in Hupd.
    destruct (lookup_Some _ _ _ Hl) as [HOLD Hid].
    destruct (calculate_duration_Ok _ _ Hcalc) as (Hid1 & _).
    assert (Hi : time_entries.id (update_updated_at now NEW1) = i).
    { cbn. rewrite Hid1, Hkey. exact Hid. }
    split.
    + intros Hin. apply replace_row_In in Hin. destruct Hin as [->|[Hin _]].
      * exfalso. apply Hx. cbn. auto.
      * apply (Hmap now NEW1). exact Hin.
    + intros Hin. unfold replace_row. apply in_map_iff. exists x. split.
      * rewrite Hi. destruct (time_entries.id x =? i)%N eqn:E; [|reflexivity].
        apply N.eqb_eq in E. exfalso. apply Hx.
        rewrite (primary_key_inj tbl x OLD Hpk Hin HOLD); [auto|congruence].
      * apply (Hmap now NEW1). exact Hin.
  - injection H as <-. rewrite filter_In. split; [tauto|].
    intros Hin. split; [exact Hin|]. apply negb_true_iff.
    cbn. unfold policy_time_entries_delete.
    destruct (u =? time_entries.user_id x)%N eqn:E; [|apply andb_false_r].
    apply N.eqb_eq in E. exfalso. auto.
Qed.

(** ** Stopping and deleting by key *)

(** X2.  [stopTimer] on an id that no entry has, or that an entry of
    another user has, changes nothing and still reports the time as
    tracked: an update that reaches no row is no error. *)
Theorem stopTimer_of_an_entry_out_of_reach
    tbl user timer_id elapsedSeconds clientNow now :
  primary_key tbl ->
  (forall x, In x tbl -> time_entries.id x = timer_id -> time_entries.user_id x <> user) ->
  stopTimer user (Some timer_id) elapsedSeconds clientNow now tbl
  = (Some (toast_success (String.append "Time tracked: " (formatDuration elapsedSeconds))),
     tbl).
Proof.
  intros Hpk Hforeign. unfold stopTimer.
  change max_stack_depth with (S 63).
  rewrite UPDATE_by_key_unreached; [reflexivity|exact Hpk|].
  unfold target. destruct (lookup timer_id tbl) as [OLD|] eqn:Hl; [|reflexivity].
  destruct (lookup_Some _ _ _ Hl) as [HOLD Hid].
  cbn. unfold policy_time_entries_update.
  destruct (user =? time_entries.user_id OLD)%N eqn:E;
    [|rewrite andb_false_r; reflexivity].
  apply N.eqb_eq in E. exfalso. apply (Hforeign OLD HOLD Hid). auto.
Qed.

Lemma filter_negb_length {A} (q : A -> bool) l :
  (List.length (filter (fun x => negb (q x)) l) + List.length (filter q l)
   = List.length l)%nat.
Proof.
  induction l as [|x l IH]; cbn; [reflexivity|].
  destruct (q x); cbn; lia.
Qed.

(** X3.  [deleteEntry] on an entry of the caller removes that entry and
    no other: the table is one row shorter, the key is gone and every
    other row is still there, running or not. *)
Theorem deleteEntry_removes_the_own_entry tbl user e :
  primary_key tbl ->
  In e tbl ->
  time_entries.user_id e = user ->
  exists tbl',
    deleteEntry user (time_entries.id e) tbl
    = (Some (toast_success "Time entry deleted"), tbl')
    /\ (forall x, In x tbl' <-> In x tbl /\ time_entries.id x <> time_entries.id e)
    /\ lookup (time_entries.id e) tbl' = None
    /\ S (List.length tbl') = List.length tbl.
Proof.
  intros Hpk He Hu.
  set (q := fun x => (time_entries.id x =? time_entries.id e)%N
                     && rls policy_time_entries_select (authenticated user) x
                     && rls policy_time_entries_delete (authenticated user) x).
  assert (Hq : forall x, In x tbl -> q x = true <-> time_entries.id x = time_entries.id e).
  { intros x Hx. unfold q. split.
    - intros H. apply andb_prop in H. destruct H as [H _].
      apply andb_prop in H. destruct H as [H _]. apply N.eqb_eq. exact H.
    - intros E. rewrite (primary_key_inj tbl x e Hpk Hx He E), N.eqb_refl. cbn.
      unfold policy_time_entries_select, policy_time_entries_delete.
      rewrite Hu, N.eqb_refl. reflexivity. }
  assert (Hin : forall x, In x (filter (fun x => negb (q x)) tbl)
                          <-> In x tbl /\ time_entries.id x <> time_entries.id e).
  { intros x. rewrite filter_In, negb_true_iff. split.
    - intros [Hx Hnq]. split; [exact Hx|]. intros E.
      apply (Hq x Hx) in E. congruence.
    - intros [Hx Hne]. split; [exact Hx|].
      destruct (q x) eqn:E; [|reflexivity]. apply (Hq x Hx) in E. contradiction. }
  exists (filter (fun x => negb (q x)) tbl).
  split; [reflexivity|]. split; [exact Hin|]. split.
  - unfold lookup. destruct (find _ _) as [y|] eqn:Hf; [|reflexivity].
    apply find_some in Hf. destruct Hf as [Hy E]. apply N.eqb_eq in E.
    apply Hin in Hy. tauto.
  - pose proof (filter_negb_length q tbl) as Hlen.
    rewrite (filter_unique time_entries.id q tbl e) in Hlen; [cbn in Hlen; lia| | | |].
    + exact Hpk.
    + exact He.
    + apply (Hq e He). reflexivity.
    + intros y Hy. unfold q in Hy.
      apply andb_prop in Hy. destruct Hy as [Hy _].
      apply andb_prop in Hy. destruct Hy as [Hy _]. apply N.eqb_eq. exact Hy.
Qed.

(** ** The running timer of a user *)

Lemma INSERT_Ok_references depth now r NEW tbl tbl' :
  INSERT depth now r NEW tbl = Ok tbl' ->
  exists NEW1, calculate_duration NEW = Ok NEW1 /\ references_hold NEW1 = true.
Proof.
  intros H. destruct depth as [|d]; [discriminate|].
  cbn [INSERT] in H. unfold before_insert_triggers in H.
  destruct (calculate_duration NEW) as [NEW1|e]; [|discriminate].
  cbn [bind] in H.
  destruct (ensure_single_running_timer _ _ _ _) as [tbl1|e]; [|discriminate].
  cbn [bind] in H.
  destruct (rls policy_time_entries_insert r NEW1); [|discriminate].
  destruct (references_hold NEW1) eqn:Hrefs; [|discriminate].
  exists NEW1. auto.
Qed.

Lemma UPDATE_by_key_Ok_references depth now r set i tbl tbl' OLD :
  primary_key tbl ->
  UPDATE depth now r set (fun x => (time_entries.id x =? i)%N) tbl = Ok tbl' ->
  target r i tbl = Some OLD ->
  exists NEW1,
    calculate_duration (set OLD) = Ok NEW1
    /\ references_kept OLD NEW1 || references_hold NEW1 = true.
Proof.
  intros Hpk H Ht. destruct depth as [|d]; [discriminate|].
  rewrite UPDATE_S, (targets_by_key r i tbl Hpk), Ht in H. cbn [for_each_row] in H.
  unfold before_update_triggers in H.
  destruct (calculate_duration (set OLD)) as [NEW1|e]; [|discriminate].
  cbn [bind] in H.
  destruct (ensure_single_running_timer _ _ _ _) as [tbl1|e]; [|discriminate].
  cbn [bind] in H.
  destruct (rls policy_time_entries_update r (update_updated_at now NEW1)); [|discriminate].
  change (references_kept OLD (update_updated_at now NEW1)
          || references_hold (update_updated_at now NEW1))
    with (references_kept OLD NEW1 || references_hold NEW1) in H.
  destruct (references_kept OLD NEW1 || references_hold NEW1) eqn:Hrefs; [|discriminate].
  exists NEW1. auto.
Qed.

Lemma references_kept_hold OLD NEW :
  references_kept OLD NEW = true -> references_hold OLD = true ->
  references_hold NEW = true.
Proof.
  unfold references_kept, references_hold. intros Hk Ho.
  apply andb_prop in Hk. destruct Hk as [Hp Ht]. apply N.eqb_eq in Hp.
  rewrite <- Hp.
  destruct (time_entries.task_id OLD) as [a|], (time_entries.task_id NEW) as [b|];
    try discriminate; [|exact Ho].
  apply N.eqb_eq in Ht. subst b. exact Ho.
Qed.

Lemma stop_if_references now r NEW x :
  references_hold (stop_if now r NEW x) = references_hold x.
Proof. unfold stop_if. destruct (_ && _); reflexivity. Qed.

(** The foreign keys hold in every reachable table. *)
Lemma reachable_references tbl :
  reachable tbl -> forall x, In x tbl -> references_hold x = true.
Proof.
  induction 1 as [|tbl tbl' Hreach IH Hstep]; [intros x []|].
  pose proof (reachable_primary_key tbl Hreach) as Hpk.
  assert (Hmap : forall now r NEW1 x,
            In x (map (stop_if now r NEW1) tbl) -> references_hold x = true).
  { intros now r NEW1 x Hx. apply in_map_iff in Hx. destruct Hx as (y & <- & Hy).
    rewrite stop_if_references. auto. }
  destruct Hstep as [depth now r NEW tbl' H|depth now r set i tbl' _ H|r w tbl' H].
  - destruct (INSERT_Ok _ _ _ _ _ _ Hpk H) as (NEW1 & Hcalc & _ & _ & _ & ->).
    destruct (INSERT_Ok_references _ _ _ _ _ _ H) as (NEW1' & Hcalc' & Hrefs).
    assert (NEW1' = NEW1) by congruence. subst NEW1'.
    intros x Hx. apply in_app_or in Hx. destruct Hx as [Hx|[<-|[]]]; eauto.
  - pose proof (UPDATE_by_key_Ok _ _ _ _ _ _ _ Hpk H) as Hspec.
    destruct (target r i tbl) as [OLD|] eqn:Ht; [|subst; exact IH].
    destruct Hspec as (NEW1 & Hcalc & _ & _ & ->).
    destruct (UPDATE_by_key_Ok_references _ _ _ _ _ _ _ OLD Hpk H Ht)
      as (NEW1' & Hcalc' & Hrefs).
    assert (NEW1' = NEW1) by congruence. subst NEW1'.
    intros x Hx. apply replace_row_In in Hx. destruct Hx as [->|[Hx _]]; [|eauto].
    change (references_hold NEW1 = true).
    apply orb_prop in Hrefs. destruct Hrefs as [Hk|Hh]; [|exact Hh].
    apply (references_kept_hold OLD NEW1 Hk). apply IH.
    unfold target in Ht. destruct (lookup i tbl) as [o|] eqn:Hl; [|discriminate].
    destruct (_ && _) in Ht; [|discriminate]. injection Ht as ->.
    apply (lookup_Some _ _ _ Hl).
  - injection H as <-. intros x Hx. apply filter_In in Hx. apply IH. tauto.
Qed.

Lemma get_running_timer_rows now tbl u :
  get_running_timer now tbl u =
    match running_rows u tbl with
    | [] => Ok []
    | (te, p, t) :: _ =>
        elapsed_seconds <- EXTRACT_EPOCH_INTEGER (now - time_entries.start_time te) ;;
        Ok [running_timer.mk (time_entries.id te) (time_entries.project_id te)
              (projects.name p) (time_entries.task_id te) (lift1 tasks.title t)
              (time_entries.start_time te) elapsed_seconds
              (time_entries.description te)]
    end.
Proof. reflexivity. Qed.

Lemma running_rows_In u tbl te p t :
  In (te, p, t) (running_rows u tbl) <->
  In te tbl /\ In p projects_tbl /\ In t (left_join_tasks te)
  /\ projects.id p = time_entries.project_id te
  /\ running_of u te = true.
Proof.
  unfold running_rows, running_of. rewrite in_flat_map. split.
  - intros (te' & Hte & H). apply in_flat_map in H. destruct H as (p' & Hp & H).
    destruct (projects.id p' =? time_entries.project_id te')%N eqn:Hid; [|destruct H].
    apply in_flat_map in H. destruct H as (t' & Ht & H).
    destruct (_ && _) eqn:Hrun in H; [|destruct H].
    destruct H as [[= -> -> ->]|[]]. apply N.eqb_eq in Hid. auto.
  - intros (Hte & Hp & Ht & Hid & Hrun). exists te. split; [exact Hte|].
    apply in_flat_map. exists p. split; [exact Hp|].
    apply N.eqb_eq in Hid. rewrite Hid.
    apply in_flat_map. exists t. split; [exact Ht|]. rewrite Hrun. left. reflexivity.
Qed.

Lemma left_join_tasks_inhabited te : exists t, In t (left_join_tasks te).
Proof.
  unfold left_join_tasks. destruct (filter _ tasks_tbl) as [|t ts].
  - exists None. left. reflexivity.
  - exists (Some t). left. reflexivity.
Qed.

Lemma no_running_rows u tbl :
  (forall x, In x tbl -> running_of u x = false) -> running_rows u tbl = [].
Proof.
  intros Hnone. destruct (running_rows u tbl) as [|[[te p] t] rest] eqn:E; [reflexivity|].
  assert (Hin : In (te, p, t) (running_rows u tbl)) by (rewrite E; left; reflexivity).
  apply running_rows_In in Hin. destruct Hin as (Hte & _ & _ & _ & Hrun).
  rewrite (Hnone te Hte) in Hrun. discriminate.
Qed.

(** X4.  In a reachable table [get_running_timer] returns nothing for a
    user without a running entry, and for a user with one exactly that
    entry: its id, project and start, the project's name and as
    [elapsed_seconds] the whole seconds from the start to now.  Should
    those seconds not fit [INTEGER], the call fails. *)
Theorem get_running_timer_returns_the_running_entry now tbl u :
  reachable tbl ->
  ((forall x, In x tbl -> running_of u x = false) ->
   get_running_timer now tbl u = Ok [])
  /\ (forall te,
        In te tbl ->
        running_of u te = true ->
        if elapsed_fits now te then
          exists row p,
            get_running_timer now tbl u = Ok [row]
            /\ running_timer.id row = time_entries.id te
            /\ running_timer.project_id row = time_entries.project_id te
            /\ running_timer.start_time row = time_entries.start_time te
            /\ running_timer.elapsed_seconds row
               = whole_seconds (now - time_entries.start_time te)
            /\ In p projects_tbl
            /\ projects.id p = time_entries.project_id te
            /\ running_timer.project_name row = projects.name p
        else get_running_timer now tbl u = Err numeric_value_out_of_range).
Proof.
  intros Hreach.
  pose proof (reachable_primary_key tbl Hreach) as Hpk.
  pose proof (reachable_single_running tbl Hreach) as Hsingle.
  split.
  - intros Hnone. rewrite get_running_timer_rows, (no_running_rows u tbl Hnone).
    reflexivity.
  - intros te Hte Hrun.
    pose proof (reachable_references tbl Hreach te Hte) as Hrefs.
    unfold references_hold in Hrefs. apply andb_prop in Hrefs. destruct Hrefs as [Hp _].
    apply existsb_exists in Hp. destruct Hp as (p0 & Hp0 & Hid0). apply N.eqb_eq in Hid0.
    destruct (left_join_tasks_inhabited te) as [t0 Ht0].
    assert (Hin0 : In (te, p0, t0) (running_rows u tbl)).
    { apply running_rows_In. auto. }
    rewrite get_running_timer_rows.
    destruct (running_rows u tbl) as [|[[te' p] t] rest] eqn:E; [destruct Hin0|].
    assert (Hin : In (te', p, t) (running_rows u tbl)) by (rewrite E; left; reflexivity).
    apply running_rows_In in Hin. destruct Hin as (Hte' & Hp & _ & Hid & Hrun').
    assert (te' = te).
    { apply (primary_key_inj tbl te' te Hpk Hte' Hte).
      unfold running_of in Hrun, Hrun'.
      apply andb_prop in Hrun. apply andb_prop in Hrun'.
      destruct Hrun as [Hu Hr], Hrun' as [Hu' Hr'].
      apply N.eqb_eq in Hu. apply N.eqb_eq in Hu'.
      apply Hsingle; auto. congruence. }
    subst te'. unfold EXTRACT_EPOCH_INTEGER. fold (elapsed_fits now te).
    destruct (elapsed_fits now te); [|reflexivity].
    eexists. exists p. split; [reflexivity|]. cbn. auto 10.
Qed.

(** X5.  The widget fetches the running timer and stops it.  The stop
    goes through; the entry then ends at the time sent, is not running
    and carries the derived duration, and the user has no running timer
    any more: [get_running_timer] returns nothing, whenever it is
    asked. *)
Theorem stopping_the_fetched_timer_leaves_none_running
    tbl u now row elapsedSeconds clientNow now' :
  reachable tbl ->
  get_running_timer now tbl u = Ok [row] ->
  int4_in_range (whole_seconds (clientNow * 1000 - running_timer.start_time row)) = true ->
  exists tbl' stopped,
    stopTimer u (Some (running_timer.id row)) elapsedSeconds clientNow now' tbl
    = (Some (toast_success (String.append "Time tracked: " (formatDuration elapsedSeconds))),
       tbl')
    /\ lookup (running_timer.id row) tbl' = Some stopped
    /\ time_entries.end_time stopped = Some (clientNow * 1000)
    /\ time_entries.is_running stopped = Some false
    /\ time_entries.duration_seconds stopped
       = Some (whole_seconds (clientNow * 1000 - running_timer.start_time row))
    /\ forall now'', get_running_timer now'' tbl' u = Ok [].
Proof.
  intros Hreach Hget Hfit.
  pose proof (reachable_primary_key tbl Hreach) as Hpk.
  pose proof (reachable_single_running tbl Hreach) as Hsingle.
  rewrite get_running_timer_rows in Hget.
  destruct (running_rows u tbl) as [|[[te p] t] rest] eqn:E; [discriminate|].
  assert (Hin : In (te, p, t) (running_rows u tbl)) by (rewrite E; left; reflexivity).
  apply running_rows_In in Hin. destruct Hin as (Hte & _ & _ & _ & Hrun).
  destruct (EXTRACT_EPOCH_INTEGER _) as [d|err]; [|discriminate].
  cbn [bind] in Hget. injection Hget as <-. cbn in Hfit |- *.
  unfold running_of in Hrun. apply andb_prop in Hrun. destruct Hrun as [Hu Hrun].
  apply N.eqb_eq in Hu.
  destruct (UPDATE_stop_payload 62 now' u (clientNow * 1000) tbl te Hpk Hte Hu Hfit)
    as [Hexp Hlook].
  assert (Hstop : forall i, i = time_entries.id te ->
            stopTimer u (Some i) elapsedSeconds clientNow now' tbl
            = (Some (toast_success
                       (String.append "Time tracked: " (formatDuration elapsedSeconds))),
               replace_row
                 (update_updated_at now'
                    (time_entries.set_is_running (Some false)
                       (time_entries.set_duration_seconds
                          (Some (whole_seconds
                                   (clientNow * 1000 - time_entries.start_time te)))
                          (stop_payload (clientNow * 1000) te)))) tbl)).
  { intros i ->. unfold stopTimer. change max_stack_depth with (S (S 62)).
    rewrite Hexp. reflexivity. }
  eexists. eexists.
  split; [exact (Hstop _ eq_refl)|].
  split; [exact Hlook|].
  split; [reflexivity|]. split; [reflexivity|]. split; [reflexivity|].
  intros now''. rewrite get_running_timer_rows, no_running_rows; [reflexivity|].
  intros x Hx. destruct (running_of u x) eqn:Hrx; [|reflexivity]. exfalso.
  unfold running_of in Hrx. apply andb_prop in Hrx. destruct Hrx as [Hux Hrx].
  apply N.eqb_eq in Hux.
  apply replace_row_In in Hx. destruct Hx as [->|[Hx Hne]]; [discriminate Hrx|].
  apply Hne. cbn. apply Hsingle; auto. congruence.
Qed.

(** ** Starting, then deleting *)

(** What starting a timer does to the rows already there. *)
Lemma stop_if_started now u NEW x :
  time_entries.user_id NEW = u ->
  IS_TRUE (time_entries.is_running NEW) = true ->
  time_entries.id x <> time_entries.id NEW ->
  stop_if now (authenticated u) NEW x
  = if running_of u x then force_stopped now x else x.
Proof.
  intros Hu Hrun Hne. unfold stop_if, reached, other_running, running_of.
  rewrite Hrun, Hu. cbn [rls andb].
  unfold policy_time_entries_select, policy_time_entries_update.
  destruct (time_entries.id x =? time_entries.id NEW)%N eqn:E0;
    [apply N.eqb_eq in E0; contradiction|].
  cbn [negb].
  destruct (time_entries.user_id x =? u)%N eqn:E; [|reflexivity].
  apply N.eqb_eq in E. rewrite E, N.eqb_refl.
  destruct (IS_TRUE (time_entries.is_running x)); reflexivity.
Qed.

(** X6.  A timer is started and the new entry is deleted again.  Both
    go through, and the table is the one before the start except that
    the timers the start has stopped stay stopped: deleting the new
    entry does not resume them.  With no timer running before, the
    table is back as it was. *)
Theorem deleting_a_started_timer_does_not_resume_the_stopped
    tbl u projectId taskId clientNow new_id now :
  primary_key tbl ->
  In projectId (map projects.id projects_tbl) ->
  match taskId with
  | Some task_id => In task_id (map tasks.id tasks_tbl)
  | None => True
  end ->
  ~ In new_id (map time_entries.id tbl) ->
  (forall x, In x tbl -> running_of u x = true -> elapsed_fits now x = true) ->
  exists tbl',
    handleStart (Some u) projectId taskId clientNow new_id now tbl
    = (Some (toast_success "Timer started"), tbl')
    /\ deleteEntry u new_id tbl'
       = (Some (toast_success "Time entry deleted"),
          map (fun x => if running_of u x then force_stopped now x else x) tbl)
    /\ ((forall x, In x tbl -> running_of u x = false) ->
        deleteEntry u new_id tbl' = (Some (toast_success "Time entry deleted"), tbl)).
Proof.
  intros Hpk Hproject Htask Hfresh Hfit.
  set (r := authenticated u).
  set (NEW := time_entries.mk new_id u projectId None taskId timer (clientNow * 1000)
                None None None (Some true) None (Some true) (Some now) (Some now)).
  assert (Hne : forall x, In x tbl -> time_entries.id x <> time_entries.id NEW).
  { intros x Hx E. apply Hfresh. change new_id with (time_entries.id NEW).
    rewrite <- E. apply in_map. exact Hx. }
  assert (Hmap : map (stop_if now r NEW) tbl
                 = map (fun x => if running_of u x then force_stopped now x else x) tbl).
  { apply map_ext_in. intros x Hx. apply stop_if_started; auto. }
  assert (Hstops : stops_fit now r NEW tbl = true).
  { unfold stops_fit. apply forallb_forall. intros x Hx.
    destruct (IS_TRUE (time_entries.is_running NEW) && reached r (other_running NEW) x)
      eqn:Hc; [|reflexivity].
    cbn [implb]. apply (Hfit x Hx). cbn in Hc. unfold reached, other_running in Hc.
    repeat (apply andb_prop in Hc; destruct Hc as [Hc ?]).
    unfold running_of. apply andb_true_iff. auto. }
  assert (Hins : INSERT max_stack_depth now r NEW tbl
                 = Ok (map (stop_if now r NEW) tbl ++ [NEW])).
  { apply INSERT_succeeds; auto.
    - cbn. unfold policy_time_entries_insert. cbn. apply N.eqb_refl.
    - apply references_hold_intro; assumption. }
  assert (Hdel : deleteEntry u new_id (map (stop_if now r NEW) tbl ++ [NEW])
                 = (Some (toast_success "Time entry deleted"),
                    map (fun x => if running_of u x then force_stopped now x else x) tbl)).
  { unfold deleteEntry, DELETE. rewrite filter_app, filter_all.
    - cbn. unfold policy_time_entries_select, policy_time_entries_delete. cbn.
      rewrite !N.eqb_refl. cbn. rewrite app_nil_r, Hmap. reflexivity.
    - intros x' Hx'. apply in_map_iff in Hx'. destruct Hx' as (x & <- & Hx).
      rewrite stop_if_id.
      destruct (time_entries.id x =? new_id)%N eqn:E; [|reflexivity].
      apply N.eqb_eq in E. exfalso. exact (Hne x Hx E). }
  exists (map (stop_if now r NEW) tbl ++ [NEW]).
  split; [unfold handleStart; fold r; fold NEW; rewrite Hins; reflexivity|].
  split; [exact Hdel|].
  intros Hnone. rewrite Hdel. f_equal.
  rewrite <- (map_id tbl) at 2. apply map_ext_in. intros x Hx.
  rewrite (Hnone x Hx). reflexivity.
Qed.

(** X7.  Starting a timer fails, with the table left as it was,
    whenever the project or the task does not exist, the identifier is
    taken, or a timer of the user that would have to be stopped has run
    for longer than INTEGER seconds can hold: the failure inside the
    trigger takes the insert with it. *)
Theorem handleStart_fails_and_changes_nothing
    tbl u projectId taskId clientNow new_id now :
  primary_key tbl ->
  (~ In projectId (map projects.id projects_tbl)
   \/ (exists task_id, taskId = Some task_id /\ ~ In task_id (map tasks.id tasks_tbl))
   \/ In new_id (map time_entries.id tbl)
   \/ (exists x, In x tbl /\ running_of u x = true /\ elapsed_fits now x = false)) ->
  handleStart (Some u) projectId taskId clientNow new_id now tbl
  = (Some (toast_error "Failed to start timer"), tbl).
Proof.
  intros Hpk Hbad. unfold handleStart.
  set (r := authenticated u).
  set (NEW := time_entries.mk new_id u projectId None taskId timer (clientNow * 1000)
                None None None (Some true) None (Some true) (Some now) (Some now)).
  destruct (INSERT max_stack_depth now r NEW tbl) as [tbl'|e] eqn:Hins; [|reflexivity].
  exfalso.
  destruct (INSERT_Ok_references _ _ _ _ _ _ Hins) as (NEW0 & Hcalc0 & Hrefs).
  destruct (INSERT_Ok _ _ _ _ _ _ Hpk Hins) as (NEW1 & Hcalc & Hfit & _ & Hfresh & _).
  rewrite (calculate_duration_running NEW eq_refl) in Hcalc0, Hcalc.
  injection Hcalc0 as <-. injection Hcalc as <-.
  unfold references_hold in Hrefs. apply andb_prop in Hrefs.
  destruct Hrefs as [Hp Ht].
  destruct Hbad as [Hbad|[(task_id & -> & Hbad)|[Hbad|(x & Hx & Hrun & Hlong)]]].
  - apply Hbad. apply existsb_exists in Hp. destruct Hp as (p & Hp & E).
    apply N.eqb_eq in E. cbn in E. rewrite <- E. apply in_map. exact Hp.
  - apply Hbad. cbn in Ht. apply existsb_exists in Ht. destruct Ht as (t & Ht & E).
    apply N.eqb_eq in E. rewrite <- E. apply in_map. exact Ht.
  - exact (Hfresh Hbad).
  - unfold stops_fit in Hfit. rewrite forallb_forall in Hfit.
    specialize (Hfit x Hx). rewrite Hlong in Hfit.
    assert (Hne : time_entries.id x <> time_entries.id NEW).
    { intros E. apply Hfresh. rewrite <- E. apply in_map. exact Hx. }
    assert (Hstop : IS_TRUE (time_entries.is_running NEW)
                    && reached r (other_running NEW) x = true).
    { unfold reached, other_running, running_of in *. cbn [rls r].
      unfold policy_time_entries_select, policy_time_entries_update.
      apply andb_prop in Hrun. destruct Hrun as [Hu Hrun].
      apply N.eqb_eq in Hu. change (time_entries.id NEW) with new_id in Hne.
      apply N.eqb_neq in Hne. cbn. rewrite Hu, Hrun, Hne, !N.eqb_refl. reflexivity. }
    rewrite Hstop in Hfit. discriminate.
Qed.

(** ** The list of entries, again *)

Lemma flat_map_nil {A B} (f : A -> list B) l :
  (forall x, In x l -> f x = []) -> flat_map f l = [].
Proof.
  induction l as [|x l IH]; cbn; intros H; [reflexivity|].
  rewrite (H x (or_introl eq_refl)), IH; [reflexivity|].
  intros y Hy. apply H. right. exact Hy.
Qed.

Lemma flat_map_key {A B} (key : A -> N) (g : A -> list B) k l x :
  NoDup (map key l) -> In x l -> key x = k ->
  flat_map (fun y => if (key y =? k)%N then g y else []) l = g x.
Proof.
  induction l as [|z l IH]; intros Hnd Hx Hk; [destruct Hx|].
  cbn in Hnd. inversion Hnd as [|? ? Hz Hnd']; subst. cbn.
  destruct Hx as [->|Hx].
  - rewrite N.eqb_refl, flat_map_nil; [apply app_nil_r|].
    intros y Hy. destruct (key y =? key x)%N eqn:E; [|reflexivity].
    apply N.eqb_eq in E. exfalso. apply Hz. rewrite <- E. apply in_map. exact Hy.
  - destruct (key z =? key x)%N eqn:E.
    + apply N.eqb_eq in E. exfalso. apply Hz. rewrite E. apply in_map. exact Hx.
    + cbn. apply IH; auto.
Qed.

Lemma left_join_tasks_single te :
  NoDup (map tasks.id tasks_tbl) -> exists t, left_join_tasks te = [t].
Proof.
  intros Hnd. unfold left_join_tasks.
  destruct (filter _ tasks_tbl) as [|t ts] eqn:E; [exists None; reflexivity|].
  exists (Some t).
  destruct (time_entries.task_id te) as [i|].
  - assert (Ht : In t (filter (fun t => (tasks.id t =? i)%N) tasks_tbl))
      by (rewrite E; left; reflexivity).
    apply filter_In in Ht. destruct Ht as [Ht Hi].
    rewrite (filter_unique tasks.id _ tasks_tbl t Hnd Ht Hi) in E.
    + injection E as <-. reflexivity.
    + intros y Hy. apply N.eqb_eq in Hy. apply N.eqb_eq in Hi. congruence.
  - rewrite filter_none in E; [discriminate|reflexivity].
Qed.

(** X8.  For the owner of a project the list of its entries is
    complete and free of repetition: every entry of the project, of
    whichever user, is listed exactly once. *)
Theorem list_has_every_entry_of_an_own_project_once user projectId tbl p :
  NoDup (map projects.id projects_tbl) ->
  NoDup (map tasks.id tasks_tbl) ->
  In p projects_tbl ->
  projects.id p = projectId ->
  projects.user_id p = user ->
  Permutation
    (map time_entry_details.id (fetchTimeEntries user projectId tbl))
    (map time_entries.id
       (filter (fun te => (time_entries.project_id te =? projectId)%N) tbl)).
Proof.
  intros Hprojects Htasks Hp Hid Hu.
  unfold fetchTimeEntries, get_time_entries_with_details.
  eapply Permutation_trans.
  - apply Permutation_map. apply Permutation_sym.
    apply OrderByStartTimeDesc.Permuted_sort.
  - match goal with |- Permutation ?a ?b => assert (E : a = b); [|rewrite E; reflexivity] end.
    induction tbl as [|te tbl' IH]; [reflexivity|].
    cbn [flat_map filter]. rewrite map_app, IH. clear IH.
    destruct (time_entries.project_id te =? projectId)%N eqn:Hte.
    + apply N.eqb_eq in Hte.
      rewrite (flat_map_key projects.id _ (time_entries.project_id te) projects_tbl p
                 Hprojects Hp ltac:(congruence)).
      destruct (left_join_tasks_single te Htasks) as [t ->].
      cbn. rewrite Hu, N.eqb_refl. reflexivity.
    + rewrite flat_map_nil; [reflexivity|].
      intros p' _. destruct (projects.id p' =? _)%N; [|reflexivity].
      apply flat_map_nil. intros t _. reflexivity.
Qed.

Lemma details_In_project r tbl projectId row :
  In row (get_time_entries_with_details r tbl (Some projectId) None None) ->
  exists te,
    In te tbl /\ time_entries.project_id te = projectId
    /\ time_entry_details.is_running row = time_entries.is_running te.
Proof.
  unfold get_time_entries_with_details. intros Hrow.
  apply (Permutation_in _ (Permutation_sym (OrderByStartTimeDesc.Permuted_sort _))) in Hrow.
  apply in_flat_map in Hrow. destruct Hrow as (te & Hte & Hrow).
  apply in_flat_map in Hrow. destruct Hrow as (p & Hp & Hrow).
  destruct (projects.id p =? time_entries.project_id te)%N; [|destruct Hrow].
  apply in_flat_map in Hrow. destruct Hrow as (t & Ht & Hrow).
  destruct (time_entries.project_id te =? projectId)%N eqn:Hproject;
    [|destruct Hrow].
  destruct (_ && _) in Hrow; [|destruct Hrow].
  destruct Hrow as [<-|[]]. apply N.eqb_eq in Hproject.
  exists te. auto.
Qed.

Lemma details_complete user tbl te p :
  In te tbl -> In p projects_tbl ->
  projects.id p = time_entries.project_id te ->
  projects.user_id p = user ->
  exists t,
    In (details_row te p t)
      (get_time_entries_with_details (authenticated user) tbl
         (Some (time_entries.project_id te)) None None).
Proof.
  intros Hte Hp Hid Hu. destruct (left_join_tasks_inhabited te) as [t Ht].
  exists t. unfold get_time_entries_with_details.
  apply (Permutation_in _ (OrderByStartTimeDesc.Permuted_sort _)).
  apply in_flat_map. exists te. split; [exact Hte|].
  apply in_flat_map. exists p. split; [exact Hp|].
  rewrite Hid, N.eqb_refl.
  apply in_flat_map. exists t. split; [exact Ht|].
  cbn. rewrite Hu, !N.eqb_refl. left. reflexivity.
Qed.

(** X9.  On the page of a project that the user owns, starting a timer
    is offered exactly while no entry of that project is running.  The
    running timer of anyone on the project hides it; a timer of the
    user that runs on another project does not. *)
Theorem start_is_offered_while_nothing_runs_on_the_project user projectId tbl p :
  In p projects_tbl ->
  projects.id p = projectId ->
  projects.user_id p = user ->
  (StartTimerDialog_shown (fetchTimeEntries user projectId tbl) = true
   <-> forall te, In te tbl ->
                  time_entries.project_id te = projectId ->
                  IS_TRUE (time_entries.is_running te) = false).
Proof.
  intros Hp Hid Hu. unfold StartTimerDialog_shown, runningTimer, fetchTimeEntries.
  split.
  - intros Hshown te Hte Hproject.
    destruct (find _ _) as [row|] eqn:Hf in Hshown; [discriminate|].
    destruct (details_complete user tbl te p Hte Hp ltac:(congruence) Hu) as [t Hin].
    rewrite Hproject in Hin.
    exact (find_none _ _ Hf _ Hin).
  - intros Hnone. destruct (find _ _) as [row|] eqn:Hf; [|reflexivity].
    apply find_some in Hf. destruct Hf as [Hrow Hrun].
    apply details_In_project in Hrow. destruct Hrow as (te & Hte & Hproject & E).
    rewrite E, (Hnone te Hte Hproject) in Hrun. discriminate.
Qed.

(** X10.  With both dates given, the list holds only entries that
    started within the days from the first to the last, both days
    included in full. *)
Theorem list_between_two_dates_keeps_whole_days r tbl p_project_id a b row :
  In row (get_time_entries_with_details r tbl p_project_id (Some a) (Some b)) ->
  a * 86400000000 <= time_entry_details.start_time row < (b + 1) * 86400000000.
Proof.
  unfold get_time_entries_with_details. intros Hrow.
  apply (Permutation_in _ (Permutation_sym (OrderByStartTimeDesc.Permuted_sort _))) in Hrow.
  apply in_flat_map in Hrow. destruct Hrow as (te & Hte & Hrow).
  apply in_flat_map in Hrow. destruct Hrow as (p & Hp & Hrow).
  destruct (projects.id p =? time_entries.project_id te)%N; [|destruct Hrow].
  apply in_flat_map in Hrow. destruct Hrow as (t & Ht & Hrow).
  destruct (_ && _) eqn:Hwhere in Hrow; [|destruct Hrow].
  destruct Hrow as [<-|[]].
  apply andb_prop in Hwhere. destruct Hwhere as [Hwhere _].
  apply andb_prop in Hwhere. destruct Hwhere as [Hwhere Hb].
  apply andb_prop in Hwhere. destruct Hwhere as [_ Ha].
  apply Z.leb_le in Ha, Hb. unfold DATE in Ha, Hb.
  cbn [time_entry_details.start_time details_row].
  pose proof (Z.mul_div_le (time_entries.start_time te) 86400000000 ltac:(lia)).
  pose proof (Z.mul_succ_div_gt (time_entries.start_time te) 86400000000 ltac:(lia)).
  lia.
Qed.

(** X11.  A session without a signed-in user gets an empty list,
    whatever the table holds and whatever it asks for: the comparison
    of the project's owner with [auth.uid()] is never true. *)
Theorem list_is_empty_without_a_user tbl p_project_id p_start_date p_end_date :
  get_time_entries_with_details service_role tbl p_project_id p_start_date p_end_date = [].
Proof.
  unfold get_time_entries_with_details.
  rewrite flat_map_nil; [reflexivity|].
  intros te _. apply flat_map_nil. intros p _.
  destruct (projects.id p =? time_entries.project_id te)%N; [|reflexivity].
  apply flat_map_nil. intros t _. cbn [auth_uid].
  rewrite andb_false_r. reflexivity.
Qed.

(** ** Totals at the edges *)

(** X12.  A project without an entry that has a duration (no entry at
    all, or running timers only) has the totals 0, 0 and 0: the sums
    over no row are NULL and are replaced by zero. *)
Theorem totals_of_a_project_without_durations user projectId tbl :
  (forall te, In te tbl ->
              time_entries.project_id te = projectId ->
              time_entries.duration_seconds te = None) ->
  (totalHours (fetchTimeSummary user projectId tbl) == 0)%Q
  /\ (billableHours (fetchTimeSummary user projectId tbl) == 0)%Q
  /\ (billableAmount (fetchTimeSummary user projectId tbl) == 0)%Q.
Proof.
  intros Hnone.
  assert (Hno : forall (c : time_entry -> bool) te,
            In te (rls_time_entries (authenticated user) tbl) ->
            (time_entries.project_id te =? projectId)%N && c te
            && is_not_null (time_entries.duration_seconds te) = false).
  { intros c te Hte. apply filter_In in Hte. destruct Hte as [Hte _].
    destruct (time_entries.project_id te =? projectId)%N eqn:E; [|reflexivity].
    apply N.eqb_eq in E. rewrite (Hnone te Hte E). apply andb_false_r. }
  unfold fetchTimeSummary, get_project_total_hours, get_project_billable_hours,
    get_project_billable_amount. cbn [totalHours billableHours billableAmount].
  repeat split.
  - rewrite filter_none; [reflexivity|].
    intros te Hte. pose proof (Hno (fun _ => true) te Hte) as H.
    rewrite andb_true_r in H. exact H.
  - rewrite filter_none; [reflexivity|].
    intros te Hte. apply (Hno (fun te => IS_TRUE (time_entries.billable te)) te Hte).
  - rewrite filter_none; [reflexivity|].
    intros te Hte. apply (Hno (fun te => IS_TRUE (time_entries.billable te)) te Hte).
Qed.

(** ** Totals and rounding *)

Lemma readable_entries_In user projectId tbl te :
  In te (readable_entries user projectId tbl) ->
  In te tbl /\ time_entries.project_id te = projectId.
Proof.
  unfold readable_entries, rls_time_entries. intros Hte.
  apply filter_In in Hte. destruct Hte as [Hte Hproject].
  apply filter_In in Hte. destruct Hte as [Hte _].
  apply N.eqb_eq in Hproject. auto.
Qed.

(** The hours the server multiplies with the rate are within half of
    the twelfth decimal of the exact hours. *)
Lemma decimal_hours_of_near te :
  (forall d, time_entries.duration_seconds te = Some d -> int4_in_range d = true) ->
  (Qabs (decimal_hours_of te - hours_of te) <= 1 # 2000000000000)%Q.
Proof.
  intros Hd. unfold decimal_hours_of, hours_of.
  destruct (time_entries.duration_seconds te) as [d|].
  - apply Qabs_Qle_condition. rewrite <- numeric_div_hours.
    apply numeric_div_near. exact (Hd d eq_refl).
  - unfold Qle. vm_compute. discriminate.
Qed.

Lemma decimal_amounts_near (rate : option Q) (l : list time_entry) :
  (forall te, In te l ->
     forall d, time_entries.duration_seconds te = Some d -> int4_in_range d = true) ->
  (Qabs (sum_Q (map (fun te => decimal_hours_of te
                               * effective_rate (time_entries.hourly_rate te) rate) l)
         - sum_Q (map (fun te => hours_of te
                                 * effective_rate (time_entries.hourly_rate te) rate) l))
   <= (1 # 2000000000000)
      * sum_Q (map (fun te => Qabs (effective_rate (time_entries.hourly_rate te) rate)) l))%Q.
Proof.
  unfold sum_Q. induction l as [|te l IH]; intros Hint.
  - unfold Qle. vm_compute. discriminate.
  - specialize (IH (fun y Hy => Hint y (or_intror Hy))).
    pose proof (decimal_hours_of_near te (Hint te (or_introl eq_refl))) as Hte.
    cbn [map fold_right].
    set (r := effective_rate (time_entries.hourly_rate te) rate) in *.
    assert (H1 : (Qabs (decimal_hours_of te * r - hours_of te * r)
                  <= (1 # 2000000000000) * Qabs r)%Q).
    { setoid_replace (decimal_hours_of te * r - hours_of te * r)%Q
        with ((decimal_hours_of te - hours_of te) * r)%Q by ring.
      rewrite Qabs_Qmult. apply Qmult_le_compat_r; [exact Hte|apply Qabs_nonneg]. }
    apply Qabs_Qle_condition in H1, IH. apply Qabs_Qle_condition.
    destruct H1 as [H1 H2], IH as [H3 H4]. split; lra.
Qed.

(** X13.  The total and the billable hours shown for a project are
    within half a hundredth of the exact sums of the hours of its
    readable entries.  The billable amount shown is within half a
    hundredth, and half of the twelfth decimal for every unit of rate
    that enters it, of the exact sum of hours times rate: the server
    rounds the hours of every entry before it multiplies.  The
    durations are taken to fit their [INTEGER] column and their sums
    the [BIGINT] variable. *)
Theorem totals_are_within_half_a_hundredth user projectId tbl :
  (forall te, In te tbl ->
     time_entries.project_id te = projectId ->
     forall d, time_entries.duration_seconds te = Some d -> int4_in_range d = true) ->
  int8_in_range (total_seconds (readable_entries user projectId tbl)) = true ->
  int8_in_range
    (total_seconds (filter is_billable (readable_entries user projectId tbl))) = true ->
  (- (1 # 200)
   <= totalHours (fetchTimeSummary user projectId tbl)
      - sum_of_hours (readable_entries user projectId tbl)
   <= 1 # 200)%Q
  /\ (- (1 # 200)
      <= billableHours (fetchTimeSummary user projectId tbl)
         - sum_of_hours (filter is_billable (readable_entries user projectId tbl))
      <= 1 # 200)%Q
  /\ (Qabs (billableAmount (fetchTimeSummary user projectId tbl)
            - sum_of_amounts (select_project_rate (authenticated user) projectId)
                (readable_entries user projectId tbl))
      <= (1 # 200)
         + (1 # 2000000000000)
           * sum_of_rates (select_project_rate (authenticated user) projectId)
               (readable_entries user projectId tbl))%Q.
Proof.
  intros Hint Htotal Hbillable. split; [|split].
  - rewrite totalHours_seconds, (int8_hours _ Htotal).
    rewrite (ROUND2_comp _ _ (total_seconds_hours _)). apply ROUND2_near.
  - rewrite billableHours_seconds, (int8_hours _ Hbillable).
    rewrite (ROUND2_comp _ _ (total_seconds_hours _)). apply ROUND2_near.
  - rewrite billableAmount_decimal.
    set (rate := select_project_rate (authenticated user) projectId).
    set (l := readable_entries user projectId tbl).
    pose proof (ROUND2_near (sum_of_decimal_amounts rate l)) as [H1 H2].
    pose proof (decimal_amounts_near rate
                  (filter (fun te => is_billable te && has_duration te) l)) as Hnear.
    fold (sum_of_decimal_amounts rate l) in Hnear.
    fold (sum_of_amounts rate l) in Hnear.
    fold (sum_of_rates rate l) in Hnear.
    assert (Hl : forall te,
               In te (filter (fun te => is_billable te && has_duration te) l) ->
               forall d, time_entries.duration_seconds te = Some d ->
                         int4_in_range d = true).
    { intros te Hte. apply filter_In in Hte. destruct Hte as [Hte _].
      apply readable_entries_In in Hte. destruct Hte as [Hte Hproject].
      exact (Hint te Hte Hproject). }
    specialize (Hnear Hl). apply Qabs_Qle_condition in Hnear.
    destruct Hnear as [H3 H4]. apply Qabs_Qle_condition. split; lra.
Qed.

Lemma total_seconds_filter_le (c : time_entry -> bool) l :
  (forall te, In te l ->
     forall d, time_entries.duration_seconds te = Some d -> 0 <= d) ->
  0 <= total_seconds (filter c l) <= total_seconds l.
Proof.
  unfold total_seconds.
  induction l as [|te l IH]; intros Hpos; [cbn; lia|].
  specialize (IH (fun y Hy => Hpos y (or_intror Hy))).
  assert (Hte : 0 <= seconds_of te).
  { unfold seconds_of. pose proof (Hpos te (or_introl eq_refl)) as H.
    destruct (time_entries.duration_seconds te) as [d|]; [exact (H d eq_refl)|lia]. }
  cbn [filter].
  destruct (c te); cbn [filter]; destruct (has_duration te);
    cbn [map fold_right]; lia.
Qed.

(** X14.  While no entry of the project carries a negative duration,
    the billable hours shown never exceed the total hours shown, also
    after both have been rounded. *)
Theorem billable_hours_are_at_most_the_total_hours user projectId tbl :
  (forall te, In te tbl ->
     time_entries.project_id te = projectId ->
     forall d, time_entries.duration_seconds te = Some d -> 0 <= d) ->
  (billableHours (fetchTimeSummary user projectId tbl)
   <= totalHours (fetchTimeSummary user projectId tbl))%Q.
Proof.
  intros Hpos.
  rewrite billableHours_seconds, totalHours_seconds.
  apply hours_shown_le, total_seconds_filter_le.
  intros te Hte. apply readable_entries_In in Hte. destruct Hte as [Hte Hproject].
  exact (Hpos te Hte Hproject).
Qed.

(** ** The clock of the widget *)

Lemma padStart2_toString n :
  0 <= n < 100 -> padStart2 (toString n) = two_digits n.
Proof.
  intros Hn.
  assert (Hall : forallb (fun k => String.eqb (padStart2 (toString (Z.of_nat k)))
                                     (two_digits (Z.of_nat k)))
                   (seq 0 100) = true) by (vm_compute; reflexivity).
  rewrite forallb_forall in Hall.
  specialize (Hall (Z.to_nat n)). rewrite Z2Nat.id in Hall by lia.
  apply String.eqb_eq, Hall, in_seq. lia.
Qed.

Lemma toString_negative n :
  n < 0 -> exists c rest, toString n = String "-"%char (String c rest).
Proof.
  intros Hn. destruct n as [|p|p]; try lia.
  unfold toString. cbn [Z.to_int DecimalString.NilZero.string_of_int].
  destruct (Pos.to_uint p); cbn; eauto.
Qed.

(** X15.  From zero to under a hundred hours the widget's clock reads
    HH:MM:SS, each field with exactly two digits: the hours, the
    minutes of the hour and the seconds of the minute, zero-padded.
    For a negative number of seconds, which the widget holds while the
    start of the entry lies ahead of the server's clock, the clock
    begins with a minus sign. *)
Theorem formatDuration_pads_each_field (seconds : Z) :
  (0 <= seconds < 360000 ->
   formatDuration seconds
   = String.append (two_digits (seconds / 3600))
       (String.append ":"
          (String.append (two_digits ((seconds mod 3600) / 60))
             (String.append ":" (two_digits (seconds mod 60)))))
   /\ String.length (formatDuration seconds) = 8%nat)
  /\ (seconds < 0 -> exists rest, formatDuration seconds = String "-"%char rest).
Proof.
  split.
  - intros Hs.
    assert (E : formatDuration seconds
                = String.append (two_digits (seconds / 3600))
                    (String.append ":"
                       (String.append (two_digits ((seconds mod 3600) / 60))
                          (String.append ":" (two_digits (seconds mod 60)))))).
    { assert (Hh : 0 <= seconds / 3600 < 100)
        by (Z.to_euclidean_division_equations; lia).
      assert (Hm : 0 <= seconds mod 3600 / 60 < 100)
        by (Z.to_euclidean_division_equations; lia).
      assert (Hsec : 0 <= seconds mod 60 < 100)
        by (Z.to_euclidean_division_equations; lia).
      unfold formatDuration. cbv zeta.
      rewrite !Z.rem_mod_nonneg by lia.
      rewrite (padStart2_toString _ Hh), (padStart2_toString _ Hm),
        (padStart2_toString _ Hsec).
      reflexivity. }
    split; [exact E|]. rewrite E. reflexivity.
  - intros Hs.
    assert (Hh : seconds / 3600 < 0) by (Z.to_euclidean_division_equations; lia).
    destruct (toString_negative _ Hh) as (c & rest & E).
    unfold formatDuration. cbv zeta. rewrite E.
    eexists. reflexivity.
Qed.

End Database.

(** * Worked examples

    Alice owns the projects Website (50 an hour) and App (no rate); Bob
    owns Intranet.  Nobody is assigned to a project of someone else. *)

Definition alice : uuid := 1%N.
Definition bob : uuid := 2%N.

Definition website : projects.row := projects.mk 10 alice "Website" (Some 50%Q).
Definition app : projects.row := projects.mk 11 alice "App" None.
Definition intranet : projects.row := projects.mk 12 bob "Intranet" (Some 80%Q).

Definition example_projects : list projects.row := [website; app; intranet].
Definition example_assignments : list project_assignments.row := [].
Definition example_tasks : list tasks.row := [tasks.mk 30 "Landing page"].

(** Alice starts a timer on Website at time 0 ... *)
Definition first_running : time_entry :=
  time_entries.mk 100 alice 10 None None timer 0 None None None
    (Some true) None (Some true) (Some 0) (Some 0).

Definition one_running : table := [first_running].

(** ... and one on App an hour later. *)
Definition first_stopped : time_entry :=
  time_entries.mk 100 alice 10 None None timer 0 (Some 3600000000) (Some 3600) None
    (Some true) None (Some false) (Some 0) (Some 3600000000).

Definition second_running : time_entry :=
  time_entries.mk 101 alice 11 None None timer 3600000000 None None None
    (Some true) None (Some true) (Some 3600000000) (Some 3600000000).

Definition two_starts : table := [first_stopped; second_running].

Lemma one_running_reachable :
  reachable example_projects example_assignments example_tasks one_running.
Proof.
  apply (reachable_step _ _ _ [] one_running (reachable_empty _ _ _)).
  apply (step_insert _ _ _ [] max_stack_depth 0 (authenticated alice) first_running).
  reflexivity.
Qed.

Lemma two_starts_reachable :
  reachable example_projects example_assignments example_tasks two_starts.
Proof.
  apply (reachable_step _ _ _ one_running two_starts one_running_reachable).
  apply (step_insert _ _ _ one_running max_stack_depth 3600000000 (authenticated alice)
           second_running).
  reflexivity.
Qed.

Lemma at_most_one_running_timer_witness :
  reachable example_projects example_assignments example_tasks two_starts
  /\ (List.length (filter (running_of alice) two_starts) <= 1)%nat.
Proof.
  split.
  - exact two_starts_reachable.
  - apply (at_most_one_running_timer example_projects example_assignments example_tasks
             two_starts alice).
    exact two_starts_reachable.
Defined.

Lemma ended_entry_is_not_running_witness :
  reachable example_projects example_assignments example_tasks two_starts
  /\ In first_stopped two_starts
  /\ time_entries.end_time first_stopped <> None
  /\ time_entries.is_running first_stopped = Some false.
Proof.
  assert (Hin : In first_stopped two_starts) by (left; reflexivity).
  assert (Hend : time_entries.end_time first_stopped <> None) by discriminate.
  split; [exact two_starts_reachable|].
  split; [exact Hin|].
  split; [exact Hend|].
  exact (ended_entry_is_not_running example_projects example_assignments example_tasks
           two_starts first_stopped two_starts_reachable Hin Hend).
Defined.

(** A manual entry of an hour and a half, sent with a duration of 999
    seconds: 5400 is stored. *)
Definition manual_sent : time_entry :=
  time_entries.mk 102 alice 10 None None manual 0 (Some 5400000000) (Some 999) None
    (Some true) None (Some false) (Some 0) (Some 0).

(** Alice adds an entry of an hour and a half and sends 999 seconds
    with it; she stops her running timer after an hour and sends 999
    seconds with that, too.  Both rows are stored with the seconds
    their times give. *)
Definition stop_with_duration (x : time_entry) : time_entry :=
  time_entries.set_duration_seconds (Some 999) (stop_payload 3600000000 x).


Lemma second_start_stops_the_first_witness :
  exists tbl' started stopped,
    handleStart example_projects example_assignments example_tasks
      (Some alice) 11 None 3600000 101 3600000000 one_running
      = (Some (toast_success "Timer started"), tbl')
    /\ filter (running_of alice) tbl' = [started]
    /\ time_entries.id started = 101%N
    /\ lookup (time_entries.id first_running) tbl' = Some stopped
    /\ time_entries.end_time stopped = Some 3600000000
    /\ time_entries.is_running stopped = Some false
    /\ time_entries.duration_seconds stopped
       = Some (whole_seconds (3600000000 - time_entries.start_time first_running))
    /\ exists tbl'',
         UPDATE example_projects example_assignments example_tasks max_stack_depth 3600000000
           (authenticated alice) (stop_payload 3600000000)
           (fun x => (time_entries.id x =? time_entries.id first_running)%N) one_running
         = Ok tbl''
         /\ lookup (time_entries.id first_running) tbl'' = Some stopped.
Proof.
  apply (second_start_stops_the_first example_projects example_assignments example_tasks
           one_running alice first_running 11%N None 3600000 101%N 3600000000).
  - exact one_running_reachable.
  - left. reflexivity.
  - reflexivity.
  - right. left. reflexivity.
  - exact I.
  - cbn. intros [H|[]]. discriminate H.
  - reflexivity.
Defined.



(** Bob deletes Alice's entry: nothing goes, and nothing is reported. *)
Lemma delete_of_foreign_entry_is_silent_witness :
  (forall x, In x one_running -> time_entries.id x = 100%N ->
             time_entries.user_id x <> bob)
  /\ deleteEntry example_projects example_assignments bob 100 one_running
     = (Some (toast_success "Time entry deleted"), one_running).
Proof.
  assert (H : forall x, In x one_running -> time_entries.id x = 100%N ->
                        time_entries.user_id x <> bob).
  { intros x [<-|[]] _. discriminate. }
  split; [exact H|].
  exact (delete_of_foreign_entry_is_silent example_projects example_assignments
           one_running bob 100%N H).
Defined.

Lemma delete_of_foreign_entry_raises_nothing :
  In first_running one_running
  /\ time_entries.id first_running = 100%N
  /\ time_entries.user_id first_running <> bob
  /\ fst (deleteEntry example_projects example_assignments bob 100 one_running)
     = Some (toast_success "Time entry deleted").
Proof.
  split; [left; reflexivity|].
  split; [reflexivity|].
  split; [discriminate|reflexivity].
Qed.

(** The form of the first of January 1970, midnight, with a duration
    of [hours], billable, the rate left empty or filled in. *)
Definition form_with (hours : Q) : formData :=
  mkFormData None (Some 0) (Some hours) None true None.

Definition form_with_rate (hours rate : Q) : formData :=
  mkFormData None (Some 0) (Some hours) None true (Some rate).



(** One billable second on Website, and an hour each by Alice and by
    Bob on Website. *)
Definition one_second : table :=
  [time_entries.mk 103 alice 10 None None manual 0 (Some 1000000) (Some 1) None
     (Some true) None (Some false) (Some 0) (Some 0)].

Definition shared_project : table :=
  [time_entries.mk 106 alice 10 None None manual 0 (Some 3600000000) (Some 3600) None
     (Some true) None (Some false) (Some 0) (Some 0);
   time_entries.mk 107 bob 10 None None manual 0 (Some 3600000000) (Some 3600) None
     (Some true) None (Some false) (Some 0) (Some 0)].

Definition entries_of_project (projectId : uuid) (tbl : table) : table :=
  filter (fun te => (time_entries.project_id te =? projectId)%N) tbl.

Lemma project_totals_are_rounded_sums_witness :
  int8_in_range
    (total_seconds
       (readable_entries example_projects example_assignments alice 10 shared_project))
  = true
  /\ (totalHours
        (fetchTimeSummary example_projects example_assignments alice 10 shared_project)
      == ROUND2 (sum_of_hours
                   (readable_entries example_projects example_assignments
                      alice 10 shared_project)))%Q
  /\ (billableAmount
        (fetchTimeSummary example_projects example_assignments alice 10 shared_project)
      == ROUND2 (sum_of_decimal_amounts
                   (select_project_rate example_projects example_assignments
                      (authenticated alice) 10)
                   (readable_entries example_projects example_assignments
                      alice 10 shared_project)))%Q
  /\ readable_entries example_projects example_assignments alice 10 shared_project
     = filter (fun te => (time_entries.project_id te =? 10)%N) shared_project
  /\ select_project_rate example_projects example_assignments (authenticated alice) 10
     = projects.hourly_rate website.
Proof.
  split; [reflexivity|].
  split.
  { apply (proj1 (project_totals_are_rounded_sums example_projects example_assignments
                    alice 10%N shared_project)).
    reflexivity. }
  split.
  { exact (proj1 (proj2 (proj2 (project_totals_are_rounded_sums
                                  example_projects example_assignments
                                  alice 10%N shared_project)))). }
  apply (proj2 (proj2 (proj2 (proj2
           (project_totals_are_rounded_sums example_projects example_assignments
              alice 10%N shared_project)))) website).
  - repeat constructor; cbn; intuition discriminate.
  - left. reflexivity.
  - reflexivity.
  - reflexivity.
Defined.

(** Seventy-five seconds on Website at 90 an hour. *)
Definition half_cent : table :=
  [time_entries.mk 108 alice 10 None None manual 0 (Some 75000000) (Some 75) None
     (Some true) (Some 90%Q) (Some false) (Some 0) (Some 0)].

(** The amount of one second at 50 an hour is 1/72; the total shown is
    0.01.  Seventy-five seconds at 90 an hour are 1.875, which rounds to
    1.88; the total shown is 1.87, since the hours are cut to twenty
    decimals before they are multiplied.  Bob, who does not own
    Website, gets totals over his own entry only, at no rate: one hour
    and nothing, where the entries of the project add up to two hours
    and 100. *)
Lemma project_totals_are_not_the_plain_sums :
  (billableAmount (fetchTimeSummary example_projects example_assignments alice 10 one_second)
   == 0.01)%Q
  /\ (sum_of_amounts (projects.hourly_rate website) (entries_of_project 10 one_second)
      == 1 # 72)%Q
  /\ ~ (0.01 == 1 # 72)%Q
  /\ (billableAmount (fetchTimeSummary example_projects example_assignments alice 10 half_cent)
      == 1.87)%Q
  /\ (sum_of_amounts (projects.hourly_rate website) (entries_of_project 10 half_cent)
      == 1.875)%Q
  /\ (ROUND2 1.875 == 1.88)%Q
  /\ (totalHours (fetchTimeSummary example_projects example_assignments bob 10 shared_project)
      == 1)%Q
  /\ (billableAmount
        (fetchTimeSummary example_projects example_assignments bob 10 shared_project)
      == 0)%Q
  /\ (sum_of_hours (entries_of_project 10 shared_project) == 2)%Q
  /\ (sum_of_amounts (projects.hourly_rate website) (entries_of_project 10 shared_project)
      == 100)%Q.
Proof.
  repeat split; try (vm_compute; reflexivity).
  vm_compute. discriminate.
Qed.

(** An hour on Website that is not billable. *)
Definition not_billable : table :=
  [time_entries.mk 104 alice 10 None None manual 0 (Some 3600000000) (Some 3600) None
     (Some false) None (Some false) (Some 0) (Some 0)].

Definition not_billable_row : time_entry_details.row :=
  time_entry_details.mk 104 alice 10 "Website" None None manual 0
    (Some 3600000000) (Some 3600) (Some (100 # 100)) None (Some false) None
    (Some (5000 # 100)) (Some false) (Some 0).

Lemma entry_amount_is_computed_for_every_row_witness :
  exists te p,
    In te not_billable /\ In p example_projects
    /\ projects.id p = time_entries.project_id te
    /\ time_entry_details.id not_billable_row = time_entries.id te
    /\ time_entry_details.billable not_billable_row = time_entries.billable te
    /\ time_entry_details.amount not_billable_row
       = match time_entries.duration_seconds te with
         | Some d =>
             Some (ROUND2 (decimal_hours d
                           * effective_rate (time_entries.hourly_rate te)
                               (projects.hourly_rate p)))
         | None => None
         end
    /\ (forall d,
          time_entries.duration_seconds te = Some d ->
          int4_in_range d = true ->
          decimal_hours d
          = round_at (if Z.abs d <=? 3600 then 20
                      else if Z.abs d <? 36010000 then 16 else 12)
              (inject_Z d / 3600))
    /\ (TimeEntryItem_shows_amount not_billable_row = true ->
        time_entry_details.billable not_billable_row = Some true).
Proof.
  apply (entry_amount_is_computed_for_every_row example_projects example_tasks
           (authenticated alice) not_billable (Some 10%N) None None not_billable_row).
  left. reflexivity.
Defined.

(** The hour that is not billable is listed with an amount of 50.  The
    seventy-five seconds at 90 an hour are listed with 1.87, where
    1.875 rounds to 1.88. *)
Lemma amount_of_an_entry_that_is_not_billable :
  fetchTimeEntries example_projects example_tasks alice 10 not_billable
    = [not_billable_row]
  /\ time_entry_details.billable not_billable_row = Some false
  /\ time_entry_details.amount not_billable_row = Some (5000 # 100)
  /\ (5000 # 100 == 50)%Q
  /\ map time_entry_details.amount
       (fetchTimeEntries example_projects example_tasks alice 10 half_cent)
     = [Some (187 # 100)]
  /\ ROUND2 (inject_Z 75 / 3600 * 90) = 188 # 100.
Proof. repeat split. Qed.

(** Alice's entries: on Website, on App, and one on Bob's Intranet. *)
Definition on_intranet : time_entry :=
  time_entries.mk 105 alice 12 None (Some 30%N) manual 7200000000 (Some 9000000000)
    (Some 1800) None (Some true) None (Some false) (Some 0) (Some 0).

Definition own_and_foreign : table := [first_stopped; on_intranet; second_running].

Lemma list_shows_entries_of_own_projects_witness :
  primary_key own_and_foreign
  /\ map time_entry_details.id
       (get_time_entries_with_details example_projects example_tasks
          (authenticated alice) own_and_foreign None None None)
     = [101%N; 100%N]
  /\ (forall row,
        In row (get_time_entries_with_details example_projects example_tasks
                  (authenticated alice) own_and_foreign None None None) ->
        exists p, In p example_projects
                  /\ projects.id p = time_entry_details.project_id row
                  /\ projects.user_id p = alice)
  /\ (forall te,
        In te own_and_foreign ->
        time_entries.user_id te = alice ->
        (forall p, In p example_projects ->
                   projects.id p = time_entries.project_id te ->
                   projects.user_id p <> alice) ->
        rls (policy_time_entries_select example_projects example_assignments)
          (authenticated alice) te = true
        /\ forall row,
             In row (get_time_entries_with_details example_projects example_tasks
                       (authenticated alice) own_and_foreign None None None) ->
             time_entry_details.id row <> time_entries.id te)
  /\ StronglySorted
       (fun a b => time_entry_details.start_time b <= time_entry_details.start_time a)
       (get_time_entries_with_details example_projects example_tasks
          (authenticated alice) own_and_foreign None None None).
Proof.
  assert (Hpk : primary_key own_and_foreign).
  { repeat constructor; cbn; intuition discriminate. }
  split; [exact Hpk|].
  split; [reflexivity|].
  exact (list_shows_entries_of_own_projects example_projects example_assignments
           example_tasks alice own_and_foreign None None None Hpk).
Defined.

(** ** More worked examples

    Bob has a timer running on Intranet while Alice works. *)

Definition bobs_running : time_entry :=
  time_entries.mk 110 bob 12 None None timer 0 None None None
    (Some true) None (Some true) (Some 0) (Some 0).

Definition both_running : table := [first_running; bobs_running].

Lemma both_running_primary_key : primary_key both_running.
Proof. repeat constructor; cbn; intuition discriminate. Qed.

Lemma one_running_primary_key : primary_key one_running.
Proof. repeat constructor; cbn; intuition discriminate. Qed.

Lemma two_starts_primary_key : primary_key two_starts.
Proof. repeat constructor; cbn; intuition discriminate. Qed.

(** Alice starts a second timer: her first one is stopped, Bob's stays. *)
Lemma statements_leave_other_users_entries_alone_witness :
  primary_key both_running
  /\ (In bobs_running [first_stopped; bobs_running; second_running]
      <-> In bobs_running both_running).
Proof.
  split; [exact both_running_primary_key|].
  apply (statements_leave_other_users_entries_alone example_projects example_assignments
           example_tasks alice both_running [first_stopped; bobs_running; second_running]
           bobs_running both_running_primary_key).
  - apply (step_by_insert _ _ _ (authenticated alice) both_running max_stack_depth
             3600000000 second_running).
    reflexivity.
  - cbn. discriminate.
Defined.

(** Bob stops Alice's timer: he is told that a minute was tracked, and
    nothing has changed. *)
Lemma stopTimer_of_an_entry_out_of_reach_witness :
  primary_key one_running
  /\ stopTimer example_projects example_assignments example_tasks
       bob (Some 100%N) 60 60000 60000000 one_running
     = (Some (toast_success "Time tracked: 00:01:00"), one_running).
Proof.
  split; [exact one_running_primary_key|].
  apply (stopTimer_of_an_entry_out_of_reach example_projects example_assignments
           example_tasks one_running bob 100%N 60 60000 60000000
           one_running_primary_key).
  intros x [<-|[]] _. cbn. discriminate.
Defined.

(** Alice deletes her running entry. *)
Lemma deleteEntry_removes_the_own_entry_witness :
  primary_key two_starts
  /\ In second_running two_starts
  /\ exists tbl',
       deleteEntry example_projects example_assignments alice 101 two_starts
       = (Some (toast_success "Time entry deleted"), tbl')
       /\ (forall x, In x tbl' <-> In x two_starts /\ time_entries.id x <> 101%N)
       /\ lookup 101 tbl' = None
       /\ S (List.length tbl') = List.length two_starts.
Proof.
  split; [exact two_starts_primary_key|].
  split; [right; left; reflexivity|].
  apply (deleteEntry_removes_the_own_entry example_projects example_assignments
           two_starts alice second_running two_starts_primary_key).
  - right. left. reflexivity.
  - reflexivity.
Defined.

(** Two hours in, Alice's widget asks for her running timer. *)
Lemma get_running_timer_returns_the_running_entry_witness :
  reachable example_projects example_assignments example_tasks two_starts
  /\ In second_running two_starts
  /\ if elapsed_fits 7200000000 second_running
     then exists row p,
         get_running_timer example_projects example_tasks 7200000000 two_starts alice
         = Ok [row]
         /\ running_timer.id row = time_entries.id second_running
         /\ running_timer.project_id row = time_entries.project_id second_running
         /\ running_timer.start_time row = time_entries.start_time second_running
         /\ running_timer.elapsed_seconds row
            = whole_seconds (7200000000 - time_entries.start_time second_running)
         /\ In p example_projects
         /\ projects.id p = time_entries.project_id second_running
         /\ running_timer.project_name row = projects.name p
     else get_running_timer example_projects example_tasks 7200000000 two_starts alice
          = Err numeric_value_out_of_range.
Proof.
  split; [exact two_starts_reachable|].
  split; [right; left; reflexivity|].
  apply (proj2 (get_running_timer_returns_the_running_entry example_projects
                  example_assignments example_tasks 7200000000 two_starts alice
                  two_starts_reachable) second_running).
  - right. left. reflexivity.
  - reflexivity.
Defined.

(** She stops the timer the widget has fetched. *)
Lemma stopping_the_fetched_timer_leaves_none_running_witness :
  reachable example_projects example_assignments example_tasks two_starts
  /\ get_running_timer example_projects example_tasks 7200000000 two_starts alice
     = Ok [running_timer.mk 101 11 "App" None None 3600000000 3600 None]
  /\ exists tbl' stopped,
       stopTimer example_projects example_assignments example_tasks
         alice (Some 101%N) 3600 7200000 7200000000 two_starts
       = (Some (toast_success (String.append "Time tracked: " (formatDuration 3600))), tbl')
       /\ lookup 101 tbl' = Some stopped
       /\ time_entries.end_time stopped = Some (7200000 * 1000)
       /\ time_entries.is_running stopped = Some false
       /\ time_entries.duration_seconds stopped
          = Some (whole_seconds (7200000 * 1000 - 3600000000))
       /\ forall now'',
            get_running_timer example_projects example_tasks now'' tbl' alice = Ok [].
Proof.
  split; [exact two_starts_reachable|].
  split; [reflexivity|].
  exact (stopping_the_fetched_timer_leaves_none_running example_projects
           example_assignments example_tasks two_starts alice 7200000000
           (running_timer.mk 101 11 "App" None None 3600000000 3600 None)
           3600 7200000 7200000000 two_starts_reachable eq_refl eq_refl).
Defined.

(** Alice starts a timer on App while the first one runs, and deletes
    the new entry at once. *)
Lemma deleting_a_started_timer_does_not_resume_the_stopped_witness :
  primary_key one_running
  /\ exists tbl',
       handleStart example_projects example_assignments example_tasks
         (Some alice) 11 None 3600000 101 3600000000 one_running
       = (Some (toast_success "Timer started"), tbl')
       /\ deleteEntry example_projects example_assignments alice 101 tbl'
          = (Some (toast_success "Time entry deleted"),
             map (fun x => if running_of alice x then force_stopped 3600000000 x else x)
               one_running)
       /\ ((forall x, In x one_running -> running_of alice x = false) ->
           deleteEntry example_projects example_assignments alice 101 tbl'
           = (Some (toast_success "Time entry deleted"), one_running)).
Proof.
  split; [exact one_running_primary_key|].
  apply (deleting_a_started_timer_does_not_resume_the_stopped example_projects
           example_assignments example_tasks one_running alice 11%N None 3600000 101%N
           3600000000 one_running_primary_key).
  - right. left. reflexivity.
  - exact I.
  - cbn. intros [H|[]]. discriminate H.
  - intros x [<-|[]] _. reflexivity.
Defined.

(** The page of Website lists Alice's entry of Website, and it alone. *)
Lemma list_has_every_entry_of_an_own_project_once_witness :
  NoDup (map projects.id example_projects)
  /\ NoDup (map tasks.id example_tasks)
  /\ In website example_projects
  /\ Permutation
       (map time_entry_details.id
          (fetchTimeEntries example_projects example_tasks alice 10 own_and_foreign))
       (map time_entries.id
          (filter (fun te => (time_entries.project_id te =? 10)%N) own_and_foreign)).
Proof.
  assert (Hp : NoDup (map projects.id example_projects)).
  { repeat constructor; cbn; intuition discriminate. }
  assert (Ht : NoDup (map tasks.id example_tasks)).
  { repeat constructor; cbn; intuition discriminate. }
  split; [exact Hp|]. split; [exact Ht|]. split; [left; reflexivity|].
  exact (list_has_every_entry_of_an_own_project_once example_projects example_tasks
           alice 10%N own_and_foreign website Hp Ht (or_introl eq_refl) eq_refl eq_refl).
Defined.

(** On the page of App, where Alice's timer runs. *)
Lemma start_is_offered_while_nothing_runs_on_the_project_witness :
  In app example_projects
  /\ (StartTimerDialog_shown
        (fetchTimeEntries example_projects example_tasks alice 11 two_starts) = true
      <-> forall te, In te two_starts ->
                     time_entries.project_id te = 11%N ->
                     IS_TRUE (time_entries.is_running te) = false).
Proof.
  split; [right; left; reflexivity|].
  exact (start_is_offered_while_nothing_runs_on_the_project example_projects example_tasks
           alice 11%N two_starts app (or_intror (or_introl eq_refl)) eq_refl eq_refl).
Defined.

(** Website with nothing but a running timer. *)
Lemma totals_of_a_project_without_durations_witness :
  time_entries.duration_seconds first_running = None
  /\ (totalHours (fetchTimeSummary example_projects example_assignments alice 10 one_running)
      == 0)%Q
  /\ (billableHours (fetchTimeSummary example_projects example_assignments alice 10 one_running)
      == 0)%Q
  /\ (billableAmount (fetchTimeSummary example_projects example_assignments alice 10 one_running)
      == 0)%Q.
Proof.
  split; [reflexivity|].
  apply (totals_of_a_project_without_durations example_projects example_assignments
           alice 10%N one_running).
  intros te [<-|[]] _. reflexivity.
Defined.

(** An hour each by Alice and by Bob on Website. *)
Lemma billable_hours_are_at_most_the_total_hours_witness :
  primary_key shared_project
  /\ (billableHours
        (fetchTimeSummary example_projects example_assignments alice 10 shared_project)
      <= totalHours
           (fetchTimeSummary example_projects example_assignments alice 10 shared_project))%Q.
Proof.
  split; [repeat constructor; cbn; intuition discriminate|].
  apply (billable_hours_are_at_most_the_total_hours example_projects example_assignments
           alice 10%N shared_project).
  intros te [<-|[<-|[]]] _ d E; injection E as <-; lia.
Defined.

(** An hour, two minutes and five seconds; and five seconds before the
    start. *)
Lemma formatDuration_pads_each_field_witness :
  0 <= 3725 < 360000
  /\ -5 < 0
  /\ (formatDuration 3725 = "01:02:05"%string
      /\ String.length (formatDuration 3725) = 8%nat)
  /\ (exists rest, formatDuration (-5) = String "-"%char rest)
  /\ formatDuration (-5) = "-1:-1:-5"%string.
Proof.
  split; [lia|]. split; [lia|].
  split; [exact (proj1 (formatDuration_pads_each_field 3725) ltac:(lia))|].
  split; [exact (proj2 (formatDuration_pads_each_field (-5)) ltac:(lia))|].
  reflexivity.
Defined.

(** Seventy-five seconds on Website at 90 an hour: the amount shown is
    half a hundredth below the exact 1.875. *)
Lemma totals_are_within_half_a_hundredth_witness :
  int8_in_range
    (total_seconds (readable_entries example_projects example_assignments alice 10 half_cent))
  = true
  /\ (billableAmount (fetchTimeSummary example_projects example_assignments alice 10 half_cent)
      == 1.87)%Q
  /\ (Qabs (billableAmount
              (fetchTimeSummary example_projects example_assignments alice 10 half_cent)
            - sum_of_amounts
                (select_project_rate example_projects example_assignments
                   (authenticated alice) 10)
                (readable_entries example_projects example_assignments alice 10 half_cent))
      <= (1 # 200)
         + (1 # 2000000000000)
           * sum_of_rates
               (select_project_rate example_projects example_assignments
                  (authenticated alice) 10)
               (readable_entries example_projects example_assignments alice 10 half_cent))%Q.
Proof.
  split; [reflexivity|]. split; [vm_compute; reflexivity|].
  apply (totals_are_within_half_a_hundredth example_projects example_assignments
           alice 10%N half_cent).
  - intros te [<-|[]] _ d [= <-]. reflexivity.
  - reflexivity.
  - reflexivity.
Defined.

(** Alice's first timer was started at the epoch and forgotten; some
    ninety-five years later the seconds it has run no longer fit, and
    she cannot start another one. *)
Lemma handleStart_fails_and_changes_nothing_witness :
  primary_key one_running
  /\ elapsed_fits 3000000000000000 first_running = false
  /\ handleStart example_projects example_assignments example_tasks
       (Some alice) 11 None 3000000000000 101 3000000000000000 one_running
     = (Some (toast_error "Failed to start timer"), one_running).
Proof.
  split; [exact one_running_primary_key|].
  split; [reflexivity|].
  apply (handleStart_fails_and_changes_nothing example_projects example_assignments
           example_tasks one_running alice 11%N None 3000000000000 101%N
           3000000000000000 one_running_primary_key).
  right. right. right. exists first_running.
  split; [left; reflexivity|]. split; reflexivity.
Defined.

(** The entries Alice started on the first of January 1970. *)
Lemma list_between_two_dates_keeps_whole_days_witness :
  In (details_row first_stopped website None)
    (get_time_entries_with_details example_projects example_tasks
       (authenticated alice) own_and_foreign None (Some 0) (Some 0))
  /\ 0 * 86400000000
     <= time_entry_details.start_time (details_row first_stopped website None)
     < (0 + 1) * 86400000000.
Proof.
  assert (H : In (details_row first_stopped website None)
                (get_time_entries_with_details example_projects example_tasks
                   (authenticated alice) own_and_foreign None (Some 0) (Some 0))).
  { vm_compute. right. left. reflexivity. }
  split; [exact H|].
  exact (list_between_two_dates_keeps_whole_days example_projects example_tasks
           (authenticated alice) own_and_foreign None 0 0 _ H).
Defined.
